(** * W5500 MACRAW driver (lwIP port): shallow embedding and verified properties

    Sources embedded here:
    - [port/include/ethif.h]: [struct ethif], [struct ethif_driver],
      [MAX_LOOP_ITERATIONS], the [WAIT_OR_FAIL] macro;
    - [port/src/w5500.c]: register map, [w5500_spi_io] and its byte/word
      wrappers, [w5500_rx], [w5500_tx], [w5500_init], [w5500_poll];
    - [port/src/ethif.c]: [ethif_output], [ethif_poll], [ethif_init];
    - [port/src/sys_arch.cpp]: [hex_dump_lwip];
    - [src/main.cpp]: the flags of [loop] and [netif_link_callback].

    Integers of type [uintN_t] are values of [Z] with the truncation written
    out ([u8], [u16]); [size_t] lengths are [nat].  The chip behind the SPI
    callbacks is an arbitrary state machine: every driver function is a
    computation over the device state that also emits the bus events it
    causes, so that theorems can speak about what was put on the wire. *)

From Stdlib Require Import Ascii.
From stdpp Require Import base numbers list gmap strings.

Local Open Scope Z_scope.

(** ** Fixed-width integers *)

Definition u8 (x : Z) : Z := x mod 256.
Definition u16 (x : Z) : Z := x mod 65536.

(** ** Register map of [w5500.c] *)

Definition COMMON_REGISTER : Z := 0.
Definition SOCKET0_REGISTER : Z := 1.
Definition SOCKET0_TX_BUFFER : Z := 2.
Definition SOCKET0_RX_BUFFER : Z := 3.

Definition MR : Z := 0x0000.
Definition SHAR : Z := 0x0009.
Definition PHYCFGR : Z := 0x002E.

Definition Sn_MR : Z := 0x0000.
Definition Sn_CR : Z := 0x0001.
Definition Sn_IR : Z := 0x0002.
Definition Sn_SR : Z := 0x0003.
Definition Sn_RXBUF_SIZE : Z := 0x001E.
Definition Sn_TXBUF_SIZE : Z := 0x001F.
Definition Sn_TX_FSR : Z := 0x0020.
Definition Sn_TX_WR : Z := 0x0024.
Definition Sn_RX_RSR : Z := 0x0026.
Definition Sn_RX_RD : Z := 0x0028.

Definition MR_RST : Z := 0x80.

Definition Sn_MR_MACRAW : Z := 0x04.
Definition Sn_MR_MFEN : Z := 0x80.

Definition Sn_CR_OPEN : Z := 0x01.
Definition Sn_CR_SEND : Z := 0x20.
Definition Sn_CR_RECV : Z := 0x40.

Definition Sn_IR_DISCON : Z := 0x02.
Definition Sn_IR_TIMEOUT : Z := 0x08.
Definition Sn_IR_SENDOK : Z := 0x10.

Definition SOCK_CLOSED : Z := 0x00.
Definition SOCK_CLOSING : Z := 0x1A.
Definition SOCK_TIME_WAIT : Z := 0x1B.
Definition SOCK_CLOSE_WAIT : Z := 0x1C.
Definition SOCK_MACRAW : Z := 0x42.

Definition PHYCFGR_RST : Z := Z.lnot (Z.shiftl 1 7).
Definition PHYCFGR_OPMD : Z := Z.shiftl 1 6.
Definition PHYCFGR_OPMDC_ALLA : Z := Z.shiftl 7 3.
Definition PHYCFGR_LNK_ON : Z := Z.shiftl 1 0.

(** [ethif.h] *)
Definition MAX_LOOP_ITERATIONS : nat := 1000.

(** ** Bus events

    What the three transport callbacks of [struct ethif] do on the wire, plus
    the two ends of the critical section that [ethif_output] opens around a
    transmit. *)

Inductive event : Type :=
  | CsAssert                    (* s->begin(s->spi) *)
  | CsDeassert                  (* s->end(s->spi) *)
  | Xfer (sent recv : Z)        (* s->txn(s->spi, sent) returned recv *)
  | IrqProtect                  (* sys_arch_protect() *)
  | IrqUnprotect.               (* sys_arch_unprotect(state) *)

Definition trace := list event.

(** ** The interface context and the computation type *)

Section Driver.

(** State of whatever sits behind the [spi] handle: the bus and the chip. *)
Context {dev : Type}.

(** [struct ethif]: the [spi] handle is the device state threaded through
    the computation; [txn] returns a [uint8_t], which the model enforces
    by truncating whatever the device function answers.  The [driver]
    back-pointer is passed separately where the adapter needs it. *)
Record ethif : Type := Ethif {
  begin : dev -> dev;
  end_ : dev -> dev;
  txn : dev -> Z -> Z * dev;
  ethaddr : option (list Z)
}.

(** A driver computation: from a device state to a result, the next device
    state and the bus events emitted, oldest first. *)
Definition M (A : Type) : Type := dev -> A * dev * trace.

Definition ret {A} (a : A) : M A := fun d => (a, d, []).

Definition bind {A B} (m : M A) (f : A -> M B) : M B :=
  fun d =>
    let '(a, d1, t1) := m d in
    let '(b, d2, t2) := f a d1 in
    (b, d2, t1 ++ t2).

Definition result {A} (r : A * dev * trace) : A := r.1.1.
Definition final {A} (r : A * dev * trace) : dev := r.1.2.
Definition emitted {A} (r : A * dev * trace) : trace := r.2.

End Driver.

Arguments ethif : clear implicits.
Arguments M : clear implicits.

Declare Scope drv_scope.
Delimit Scope drv_scope with drv.
Notation "x <- m ;; k" := (bind m (fun x => k))
  (at level 100, m at next level, right associativity) : drv_scope.
Notation "'let*' p ':=' m 'in' k" := (bind m (fun p => k))
  (at level 10, p pattern, k at level 200) : drv_scope.
Notation "m ;;; k" := (bind m (fun _ => k))
  (at level 100, right associativity) : drv_scope.

Section Register_access.

Context {dev : Type}.
Local Open Scope drv_scope.

(** The three callbacks as computations: [s->begin(s->spi)],
    [s->end(s->spi)] and [s->txn(s->spi, b)], each leaving its event. *)
Definition do_begin (s : ethif dev) : M dev unit :=
  fun d => (tt, begin s d, [CsAssert]).

Definition do_end (s : ethif dev) : M dev unit :=
  fun d => (tt, end_ s d, [CsDeassert]).

Definition do_txn (s : ethif dev) (b : Z) : M dev Z :=
  fun d => let '(r, d') := txn s d b in (u8 r, d', [Xfer b (u8 r)]).

(** [for (i = 0; i < sizeof(cmd); i++) s->txn(s->spi, cmd[i]);] *)
Fixpoint cmd_loop (s : ethif dev) (cmd : list Z) : M dev unit :=
  match cmd with
  | [] => ret tt
  | c :: cmd' => _ <- do_txn s c ;; cmd_loop s cmd'
  end.

(** [for (i = 0; i < len; i++) { r = s->txn(s->spi, p[i]); if (!wr) p[i] = r; }]
    with [n] the iterations left and [i] the loop index.  The buffer is
    the list [p]; an index past its end is outside the object the model
    knows about (in C, memory beyond the array): the model sends 0 for it
    and stores nothing. *)
Fixpoint payload_loop (s : ethif dev) (wr : bool) (n : nat) (i : nat)
    (p : list Z) : M dev (list Z) :=
  match n with
  | O => ret p
  | S n' =>
      r <- do_txn s (u8 (nth i p 0)) ;;
      payload_loop s wr n' (S i) (if wr then p else <[i := r]> p)
  end.

Definition w5500_spi_io (s : ethif dev) (block addr : Z) (wr : bool)
    (buf : list Z) (len : nat) : M dev (list Z) :=
  let cmd := [ u8 (Z.shiftr addr 8);
               u8 (Z.land addr 255);
               u8 (Z.lor (Z.shiftl block 3) (if wr then 4 else 0)) ] in
  do_begin s ;;;
  cmd_loop s cmd ;;;
  p <- payload_loop s wr len 0 buf ;;
  do_end s ;;;
  ret p.

Definition w5500_write (s : ethif dev) (block addr : Z) (buf : list Z)
    (len : nat) : M dev unit :=
  w5500_spi_io s block addr true buf len ;;; ret tt.

Definition w5500_write_byte (s : ethif dev) (block addr val : Z) : M dev unit :=
  w5500_write s block addr [u8 val] 1.

Definition w5500_write_word (s : ethif dev) (block addr val : Z) : M dev unit :=
  w5500_write s block addr [u8 (Z.shiftr val 8); u8 (Z.land val 255)] 2.

Definition w5500_read (s : ethif dev) (block addr : Z) (buf : list Z)
    (len : nat) : M dev (list Z) :=
  w5500_spi_io s block addr false buf len.

Definition w5500_read_byte (s : ethif dev) (block addr : Z) : M dev Z :=
  p <- w5500_read s block addr [0] 1 ;; ret (nth 0 p 0).

Definition w5500_read_word (s : ethif dev) (block addr : Z) : M dev Z :=
  p <- w5500_read s block addr [0; 0] 2 ;;
  ret (u16 (Z.lor (Z.shiftl (nth 0 p 0) 8) (nth 1 p 0))).

End Register_access.

Section Frame_io.

Context {dev : Type}.
Local Open Scope drv_scope.

(** Bytes that the C code sends from storage it never initialised
    ([uint8_t header[2]] in [w5500_rx], [uint8_t ir] in [w5500_tx]):
    any values, fixed for one run. *)
Variable indeterminate : nat -> Z.

(** [WAIT_OR_FAIL(max_iter, condition, result)].  [budget] is
    [max_iter - __count]: when the condition holds, [++__count > max_iter]
    is true exactly when no budget is left.  The condition may assign to a
    local of the enclosing function through a pointer ([&len], [&freesize],
    [&ir]); that local is the value of type [A] threaded through. *)
Fixpoint WAIT_OR_FAIL {A} (budget : nat) (condition : A -> M dev (bool * A))
    (a : A) : M dev (bool * A) :=
  let* (c, a') := condition a in
  if c then
    match budget with
    | O => ret (false, a')
    | S budget' => WAIT_OR_FAIL budget' condition a'
    end
  else ret (true, a').

(** The macro as written, a [while] with its [int __count], run for at
    most [fuel] evaluations of the condition; [None] when the fuel is used
    up before the loop is left. *)
Fixpoint WAIT_OR_FAIL_while {A} (fuel : nat) (max_iter : Z) (count : Z)
    (condition : A -> M dev (bool * A)) (a : A) : M dev (option (bool * A)) :=
  match fuel with
  | O => ret None
  | S fuel' =>
      let* (c, a') := condition a in
      if c then
        let count' := count + 1 in
        if count' >? max_iter then ret (Some (false, a'))
        else WAIT_OR_FAIL_while fuel' max_iter count' condition a'
      else ret (Some (true, a'))
  end.

Definition w5500_read_rx_rsr_stable (s : ethif dev) : M dev (bool * Z) :=
  tmp <- w5500_read_word s SOCKET0_REGISTER Sn_RX_RSR ;;
  len <- w5500_read_word s SOCKET0_REGISTER Sn_RX_RSR ;;
  ret (len =? tmp, len).

(** The first wait of [w5500_rx]:
    [WAIT_OR_FAIL(MAX_LOOP_ITERATIONS, (!w5500_read_rx_rsr_stable(s, &len)), passed)]
    with [len] initialised to 0. *)
Definition rx_wait_stable (s : ethif dev) : M dev (bool * Z) :=
  WAIT_OR_FAIL MAX_LOOP_ITERATIONS
    (fun _ => let* (stable, len) := w5500_read_rx_rsr_stable s in
              ret (negb stable, len)) 0.

(** [WAIT_OR_FAIL(MAX_LOOP_ITERATIONS, (0 != w5500_read_byte(s, SOCKET0_REGISTER, Sn_CR)), passed)],
    used after every command written to [Sn_CR]. *)
Definition wait_cr_clear (s : ethif dev) : M dev (bool * unit) :=
  WAIT_OR_FAIL MAX_LOOP_ITERATIONS
    (fun _ => c <- w5500_read_byte s SOCKET0_REGISTER Sn_CR ;;
              ret (negb (c =? 0), tt)) tt.

Definition w5500_rx (buf : list Z) (buflen : nat) (s : ethif dev)
    : M dev (nat * list Z) :=
  let* (passed, len) := rx_wait_stable s in
  if negb passed then ret (O, buf)
  else if len =? 0 then ret (O, buf)
  else
    ptr <- w5500_read_word s SOCKET0_REGISTER Sn_RX_RD ;;
    header <- w5500_read s SOCKET0_RX_BUFFER ptr
                [indeterminate 0; indeterminate 1] 2 ;;
    let frame_len := u16 (Z.lor (Z.shiftl (nth 0 header 0) 8) (nth 1 header 0)) in
    let payload_len := if frame_len >? 2 then frame_len - 2 else 0 in
    let* (payload_len, buf) :=
      if payload_len >? Z.of_nat buflen then ret (0, buf)
      else
        buf' <- w5500_read s SOCKET0_RX_BUFFER (u16 (ptr + 2)) buf
                  (Z.to_nat payload_len) ;;
        ret (payload_len, buf') in
    w5500_write_word s SOCKET0_REGISTER Sn_RX_RD (u16 (ptr + frame_len)) ;;;
    w5500_write_byte s SOCKET0_REGISTER Sn_CR Sn_CR_RECV ;;;
    let* (passed, _) := wait_cr_clear s in
    if negb passed then ret (O, buf)
    else ret (Z.to_nat payload_len, buf).

Definition w5500_read_tx_rsr_stable (s : ethif dev) : M dev (bool * Z) :=
  tmp <- w5500_read_word s SOCKET0_REGISTER Sn_TX_FSR ;;
  freesize <- w5500_read_word s SOCKET0_REGISTER Sn_TX_FSR ;;
  ret (freesize =? tmp, freesize).

Definition w5500_read_ir_and_clear (s : ethif dev) : M dev Z :=
  r <- w5500_read_byte s SOCKET0_REGISTER Sn_IR ;;
  let ir := Z.land r 0x1F in
  (if negb (ir =? 0) then w5500_write_byte s SOCKET0_REGISTER Sn_IR ir
   else ret tt) ;;;
  ret ir.

(** The first wait of [w5500_tx], with [freesize] initialised to 0. *)
Definition tx_wait_stable (s : ethif dev) : M dev (bool * Z) :=
  WAIT_OR_FAIL MAX_LOOP_ITERATIONS
    (fun _ => let* (stable, freesize) := w5500_read_tx_rsr_stable s in
              ret (negb stable, freesize)) 0.

(** The last wait of [w5500_tx]:
    [WAIT_OR_FAIL(MAX_LOOP_ITERATIONS, (0 == (w5500_read_ir_and_clear(s, &ir) & (Sn_IR_SENDOK | Sn_IR_TIMEOUT | Sn_IR_DISCON))), passed)]
    with [ir] uninitialised before the first evaluation. *)
Definition tx_wait_ir (s : ethif dev) : M dev (bool * Z) :=
  WAIT_OR_FAIL MAX_LOOP_ITERATIONS
    (fun _ => ir <- w5500_read_ir_and_clear s ;;
              ret (Z.land ir (Z.lor (Z.lor Sn_IR_SENDOK Sn_IR_TIMEOUT) Sn_IR_DISCON) =? 0,
                   ir))
    (indeterminate 2).

(** The test on [sock_status] in [w5500_tx]: closed, closing, time-wait or
    close-wait. *)
Definition socket_closed (sock_status : Z) : bool :=
  (sock_status =? SOCK_CLOSED) || (sock_status =? SOCK_CLOSING) ||
  (sock_status =? SOCK_TIME_WAIT) || (sock_status =? SOCK_CLOSE_WAIT).

Definition w5500_tx (buf : list Z) (buflen : nat) (s : ethif dev) : M dev nat :=
  let len := buflen in
  if (len =? 0)%nat then ret O
  else
    let* (passed, freesize) := tx_wait_stable s in
    if negb passed then ret O
    else if freesize <? Z.of_nat buflen then ret O
    else
      sock_status <- w5500_read_byte s SOCKET0_REGISTER Sn_SR ;;
      if socket_closed sock_status then ret O
      else
        ptr <- w5500_read_word s SOCKET0_REGISTER Sn_TX_WR ;;
        w5500_write s SOCKET0_TX_BUFFER ptr buf len ;;;
        w5500_write_word s SOCKET0_REGISTER Sn_TX_WR (u16 (ptr + Z.of_nat len)) ;;;
        w5500_write_byte s SOCKET0_REGISTER Sn_CR Sn_CR_SEND ;;;
        let* (passed, _) := wait_cr_clear s in
        if negb passed then ret O
        else
          let* (passed, ir) := tx_wait_ir s in
          (* if (!passed): a diagnostic only, control falls through *)
          let len := if negb (Z.land ir (Z.lor Sn_IR_TIMEOUT Sn_IR_DISCON) =? 0)
                     then O else len in
          ret len.

(** The first wait of [w5500_init]:
    [WAIT_OR_FAIL(MAX_LOOP_ITERATIONS, (0 != (w5500_read_byte(s, COMMON_REGISTER, MR) & MR_RST)), passed)]. *)
Definition wait_reset_clear (s : ethif dev) : M dev (bool * unit) :=
  WAIT_OR_FAIL MAX_LOOP_ITERATIONS
    (fun _ => m <- w5500_read_byte s COMMON_REGISTER MR ;;
              ret (negb (Z.land m MR_RST =? 0), tt)) tt.

Definition w5500_init (s : ethif dev) : M dev bool :=
  do_end s ;;;
  w5500_write_byte s COMMON_REGISTER MR MR_RST ;;;
  let* (passed, _) := wait_reset_clear s in
  if negb passed then ret false
  else
    w5500_write_byte s COMMON_REGISTER PHYCFGR 0 ;;;
    w5500_write_byte s COMMON_REGISTER PHYCFGR
      (Z.lor (Z.lor (Z.lnot PHYCFGR_RST) PHYCFGR_OPMD) PHYCFGR_OPMDC_ALLA) ;;;
    w5500_write_byte s SOCKET0_REGISTER Sn_RXBUF_SIZE 16 ;;;
    w5500_write_byte s SOCKET0_REGISTER Sn_TXBUF_SIZE 16 ;;;
    match ethaddr s with
    | Some addr =>
        w5500_write s COMMON_REGISTER SHAR addr 6 ;;;
        w5500_write_byte s SOCKET0_REGISTER Sn_MR (Z.lor Sn_MR_MFEN Sn_MR_MACRAW)
    | None =>
        w5500_write_byte s SOCKET0_REGISTER Sn_MR Sn_MR_MACRAW
    end ;;;
    w5500_write_byte s SOCKET0_REGISTER Sn_CR Sn_CR_OPEN ;;;
    let* (passed, _) := wait_cr_clear s in
    if negb passed then ret false
    else
      st <- w5500_read_byte s SOCKET0_REGISTER Sn_SR ;;
      ret (st =? SOCK_MACRAW).

Definition w5500_poll (s : ethif dev) (s1 : bool) : M dev bool :=
  if s1 then
    r <- w5500_read_byte s COMMON_REGISTER PHYCFGR ;;
    ret (negb (Z.land r PHYCFGR_LNK_ON =? 0))
  else ret false.

(** [struct ethif_driver] and its W5500 instance, [ethif_driver_w5500]. *)
Record ethif_driver : Type := Ethif_driver {
  init : ethif dev -> M dev bool;
  tx : list Z -> nat -> ethif dev -> M dev nat;
  rx : list Z -> nat -> ethif dev -> M dev (nat * list Z);
  poll : ethif dev -> bool -> M dev bool
}.

Definition ethif_driver_w5500 : ethif_driver :=
  {| init := w5500_init; tx := w5500_tx; rx := w5500_rx; poll := w5500_poll |}.

(** ** [ethif.c]: the output callback *)

(** The fields of lwIP's [struct pbuf] that [ethif_output] reads;
    [tot_len] is a [u16_t].  [payload] is the data of the buffer itself,
    the first segment when the buffer is chained, so its length stands for
    [p->len]; [ethif_output] never follows [p->next], and a buffer whose
    [tot_len] exceeds that length is one whose frame goes on in further
    segments. *)
Record pbuf : Type := Pbuf { payload : list Z; tot_len : Z }.

Inductive err_t : Type := ERR_OK | ERR_IF.

Definition sys_arch_protect : M dev unit := fun d => (tt, d, [IrqProtect]).
Definition sys_arch_unprotect (irq_state : unit) : M dev unit :=
  fun d => (tt, d, [IrqUnprotect]).

(** [ethif_output(netif, p)], with [netif->state] resolved to the interface
    context and its driver.  The statistics macros expand to nothing under
    [lwipopts.h] ([LWIP_STATS 0], no MIB2), so the unicast test on
    [payload[0]] has no effect. *)
Definition ethif_output (driver : ethif_driver) (s : ethif dev) (p : pbuf)
    : M dev err_t :=
  irq_state <- sys_arch_protect ;;
  sent <- tx driver (payload p) (Z.to_nat (u16 (tot_len p))) s ;;
  sys_arch_unprotect irq_state ;;;
  if negb (Z.of_nat sent =? u16 (tot_len p)) then ret ERR_IF
  else ret ERR_OK.

End Frame_io.

(** * Reading the wire: bus transactions *)

(** One chip-select frame, given its byte exchanges as (sent, received). *)
Definition frame (xs : list (Z * Z)) : trace :=
  CsAssert :: map (fun x => Xfer x.1 x.2) xs ++ [CsDeassert].

(** The three header bytes of a transaction, as [w5500_spi_io] builds them. *)
Definition cmd_bytes (block addr : Z) (wr : bool) : list Z :=
  [ u8 (Z.shiftr addr 8); u8 (Z.land addr 255);
    u8 (Z.lor (Z.shiftl block 3) (if wr then 4 else 0)) ].

(** The payload bytes a transaction of [len] bytes sends from [buf]. *)
Definition sent_bytes (buf : list Z) (i len : nat) : list Z :=
  map (fun k => u8 (nth k buf 0)) (seq i len).

(** A transaction as the chip sees it: the block and offset of the header,
    and the payload bytes that matter for the direction (the bytes sent on a
    write, the bytes answered on a read). *)
Inductive access : Type :=
  | Read (block addr : Z) (vals : list Z)
  | Write (block addr : Z) (vals : list Z)
  | Runt (xs : list (Z * Z)).          (* a frame shorter than its header *)

Definition access_of (xs : list (Z * Z)) : access :=
  match xs with
  | (hi, _) :: (lo, _) :: (ctl, _) :: pl =>
      if Z.testbit ctl 2
      then Write (Z.shiftr ctl 3) (hi * 256 + lo) (map fst pl)
      else Read (Z.shiftr ctl 3) (hi * 256 + lo) (map snd pl)
  | _ => Runt xs
  end.

(** Splits a trace at the chip-select edges and decodes every frame.
    [cur] holds the exchanges of the frame being collected, newest first;
    exchanges and deassertions outside a frame are not transactions. *)
Fixpoint decode_from (cur : option (list (Z * Z))) (t : trace) : list access :=
  match t with
  | [] => []
  | CsAssert :: t' => decode_from (Some []) t'
  | Xfer a b :: t' =>
      decode_from (match cur with Some xs => Some ((a, b) :: xs) | None => None end) t'
  | CsDeassert :: t' =>
      match cur with
      | Some xs => access_of (rev xs) :: decode_from None t'
      | None => decode_from None t'
      end
  | _ :: t' => decode_from cur t'
  end.

Definition decode (t : trace) : list access := decode_from None t.

(** A trace after which the bus is idle: decoding what follows does not
    depend on it. *)
Definition complete (t : trace) : Prop :=
  forall t', decode (t ++ t') = decode t ++ decode t'.

(** ** Vocabulary of the statements *)

Definition is_byte (x : Z) : Prop := 0 <= x < 256.

Definition xfers (sent recv : list Z) : trace :=
  map (fun x => Xfer x.1 x.2) (zip sent recv).

(** The exchanges of one transaction: header, then payload. *)
Definition exchanges (block addr : Z) (wr : bool) (buf : list Z) (len : nat)
    (hs rs : list Z) : list (Z * Z) :=
  zip (cmd_bytes block addr wr) hs ++ zip (sent_bytes buf 0 len) rs.

(** The access is a read of the register at [(block, addr)]. *)
Definition is_read_of (block addr : Z) (a : access) : Prop :=
  match a with
  | Read b x _ => b = block /\ x = addr
  | _ => False
  end.

(** The access touches the register at [(block, addr)], in either
    direction. *)
Definition on_register (block addr : Z) (a : access) : Prop :=
  match a with
  | Read b x _ | Write b x _ => b = block /\ x = addr
  | Runt _ => False
  end.

(** A trace of whole transactions that all satisfy [P]. *)
Definition quiet (P : access -> Prop) (t : trace) : Prop :=
  complete t /\ Forall P (decode t).

(** [payload_len = frame_len > 2 ? frame_len - 2 : 0] *)
Definition payload_len_of (prefix : Z) : Z :=
  if prefix >? 2 then prefix - 2 else 0.

Definition IR_DONE : Z := Z.lor (Z.lor Sn_IR_SENDOK Sn_IR_TIMEOUT) Sn_IR_DISCON.
Definition IR_FAILED : Z := Z.lor Sn_IR_TIMEOUT Sn_IR_DISCON.

(** The configuration writes of [w5500_init] between the reset wait and the
    wait for the open command, as the chip sees them. *)
Definition init_config (mac : option (list Z)) : list access :=
  [ Write COMMON_REGISTER PHYCFGR [0];
    Write COMMON_REGISTER PHYCFGR [0xF8];
    Write SOCKET0_REGISTER Sn_RXBUF_SIZE [16];
    Write SOCKET0_REGISTER Sn_TXBUF_SIZE [16] ]
  ++ match mac with
     | Some addr => [ Write COMMON_REGISTER SHAR (sent_bytes addr 0 6);
                      Write SOCKET0_REGISTER Sn_MR [0x84] ]
     | None => [ Write SOCKET0_REGISTER Sn_MR [Sn_MR_MACRAW] ]
     end
  ++ [ Write SOCKET0_REGISTER Sn_CR [Sn_CR_OPEN] ].

Section Specification.

Context {dev : Type}.

(** The answers of the device to a sequence of bytes sent in one go, and
    the state it is left in. *)
Fixpoint exchange (s : ethif dev) (d : dev) (bs : list Z) : list Z * dev :=
  match bs with
  | [] => ([], d)
  | b :: bs' =>
      let '(r, d1) := txn s d b in
      let '(rs, d2) := exchange s d1 bs' in
      (u8 r :: rs, d2)
  end.

(** Every run of [m] emits only whole transactions satisfying [P]. *)
Definition only (P : access -> Prop) {A} (m : M dev A) : Prop :=
  forall d, quiet P (emitted (m d)).

(** The condition of a wait, made to count its own evaluations in the
    local it threads through. *)
Definition counted {A} (condition : A -> M dev (bool * A))
    : nat * A -> M dev (bool * (nat * A)) :=
  fun '(k, a) => bind (condition a) (fun '(c, a') => ret (c, (S k, a'))).

(** Every run of [m] puts at most [n] events on the bus. *)
Definition bounded (n : nat) {A} (m : M dev A) : Prop :=
  forall d, (length (emitted (m d)) <= n)%nat.

End Specification.

(** * Test devices *)

(** A scripted chip: every byte exchange answers with the next byte of the
    script, and with 0 once the script is used up. *)
Definition scripted (mac : option (list Z)) : ethif (list Z) :=
  {| begin := fun d => d; end_ := fun d => d;
     txn := fun d _ => (hd 0 d, tl d); ethaddr := mac |}.

(** The answer bytes of one transaction: three for the header, then the
    payload answers. *)
Definition answers (vals : list Z) : list Z := [0; 0; 0] ++ vals.

(** A chip that answers with a running counter, so that no two reads of a
    register agree. *)
Definition counting : ethif Z :=
  {| begin := fun d => d; end_ := fun d => d;
     txn := fun d _ => (d, d + 1); ethaddr := None |}.

Definition no_junk : nat -> Z := fun _ => 0.

(** A chip with one 6-byte frame (prefix 6, payload DE AD BE EF) at ring
    offset 0x1234, acknowledging the receive command at once. *)
Definition rx_script : list Z :=
  answers [0; 6] ++ answers [0; 6]           (* Sn_RX_RSR, twice *)
  ++ answers [0x12; 0x34]                    (* Sn_RX_RD *)
  ++ answers [0; 6]                          (* length prefix *)
  ++ answers [0xDE; 0xAD; 0xBE; 0xEF]        (* payload *)
  ++ answers [0; 0] ++ answers [0]           (* pointer and command writes *)
  ++ answers [0].                            (* Sn_CR reads back 0 *)

(** A chip that reports [free_hi * 256 + free_lo] bytes of free space, an
    open MACRAW socket and write pointer 0, takes [n] payload bytes and lets
    [Sn_CR] read back 0 after SEND.  What it answers afterwards is what the
    script continues with (0 for ever when nothing follows). *)
Definition tx_script (free_hi free_lo : Z) (n : nat) : list Z :=
  answers [free_hi; free_lo] ++ answers [free_hi; free_lo]   (* Sn_TX_FSR, twice *)
  ++ answers [SOCK_MACRAW]                                   (* Sn_SR *)
  ++ answers [0; 0]                                          (* Sn_TX_WR *)
  ++ answers (repeat 0 n)                                    (* payload write *)
  ++ answers [0; 0] ++ answers [0]                           (* pointer, SEND *)
  ++ answers [0].                                            (* Sn_CR *)

(** The same, with the interrupt register showing send-ok at the first
    read. *)
Definition tx_script_sendok (free_hi free_lo : Z) (n : nat) : list Z :=
  tx_script free_hi free_lo n ++ answers [Sn_IR_SENDOK] ++ answers [0].

(** A chip that is done with everything at once (all registers read 0) and
    whose socket status reads [st] at the end of initialization, for an
    interface without a MAC address. *)
Definition init_script (st : Z) : list Z := repeat 0 36 ++ answers [st].

(** The device that the round-trip property of the specification assumes: a
    register file that follows the framing of the register access layer
    (after chip select, two offset bytes, most significant first, and a
    control byte with the block in its upper five bits and the direction in
    bit 2; then one byte per exchange at consecutive offsets) and whose
    contents change only through writes over the bus.  It is not part of the
    driver; the driver functions are run against it.  The offset of a
    transaction either counts up without bound ([wrap = false], a region as
    long as the data) or wraps at 65536 as a 16-bit offset does
    ([wrap = true]). *)
Inductive phase : Type :=
  | Idle
  | Header (seen : list Z)
  | Stream (block addr : Z) (wr : bool).

Record regfile : Type := Regfile {
  mem : gmap (Z * Z) Z;
  ph : phase
}.

Definition next_offset (wrap : bool) (addr : Z) : Z :=
  if wrap then (addr + 1) mod 65536 else addr + 1.

Definition regfile_txn (wrap : bool) (c : regfile) (b : Z) : Z * regfile :=
  match ph c with
  | Idle => (0, c)
  | Header [hi; lo] =>
      (0, {| mem := mem c;
             ph := Stream (Z.shiftr b 3) (hi * 256 + lo) (Z.testbit b 2) |})
  | Header seen => (0, {| mem := mem c; ph := Header (seen ++ [b]) |})
  | Stream block addr true =>
      (0, {| mem := <[(block, addr) := b]> (mem c);
             ph := Stream block (next_offset wrap addr) true |})
  | Stream block addr false =>
      (default 0 (mem c !! (block, addr)),
       {| mem := mem c; ph := Stream block (next_offset wrap addr) false |})
  end.

Definition passive (wrap : bool) (mac : option (list Z)) : ethif regfile :=
  {| begin := fun c => {| mem := mem c; ph := Header [] |};
     end_ := fun c => {| mem := mem c; ph := Idle |};
     txn := regfile_txn wrap;
     ethaddr := mac |}.

(** The contents after [bs] has been written from offset [addr] on, and the
    bytes that [n] reads from offset [addr] on return. *)
Fixpoint store (wrap : bool) (block addr : Z) (bs : list Z) (m : gmap (Z * Z) Z)
    : gmap (Z * Z) Z :=
  match bs with
  | [] => m
  | b :: bs' =>
      store wrap block (next_offset wrap addr) bs' (<[(block, addr) := b]> m)
  end.

Fixpoint load (wrap : bool) (block addr : Z) (n : nat) (m : gmap (Z * Z) Z)
    : list Z :=
  match n with
  | O => []
  | S n' => u8 (default 0 (m !! (block, addr)))
            :: load wrap block (next_offset wrap addr) n' m
  end.

(** The offset [k] bytes into a transaction that starts at [addr]. *)
Definition offset_at (wrap : bool) (addr : Z) (k : nat) : Z :=
  Nat.iter k (next_offset wrap) addr.

(** The offsets of a transaction of [n] bytes are pairwise different. *)
Definition distinct_offsets (wrap : bool) (addr : Z) (n : nat) : Prop :=
  forall i j : nat, (i < j < n)%nat -> offset_at wrap addr i <> offset_at wrap addr j.

Definition empty_regfile : regfile := {| mem := ∅; ph := Idle |}.

(** * The adapter's receive and setup side ([ethif.c]) *)

(** [lwipopts.h] *)
Definition ETHERNET_MTU : Z := 1500.

Inductive netif_flag : Type :=
  | NETIF_FLAG_BROADCAST
  | NETIF_FLAG_ETHARP
  | NETIF_FLAG_ETHERNET.

(** The fields of lwIP's [struct netif] that [ethif_init] assigns, and the
    hardware address it reads.  [output] and [linkoutput] are function
    pointers into lwIP and to [ethif_output]; they are left out. *)
Record netif : Type := Netif {
  hostname : string;
  name : ascii * ascii;
  mtu : Z;
  flags : list netif_flag;
  hwaddr : list Z;
  hwaddr_len : nat
}.

(** The fields of the [struct pbuf] that [ethif_poll] gets from
    [pbuf_alloc]: the payload storage, [len] and [tot_len] (both [u16_t]),
    and whether [next] is non-null (a chained buffer). *)
Record pool_pbuf : Type := Pool_pbuf {
  p_payload : list Z;
  p_len : Z;
  p_tot_len : Z;
  p_next : bool
}.

(** The calls that [ethif_poll] makes into lwIP, in program order. *)
Inductive stack_call : Type :=
  | Netif_set_link_up
  | Netif_set_link_down
  | Pbuf_alloc (p : option pool_pbuf)        (* what pbuf_alloc returned *)
  | Netif_input (p : pool_pbuf) (r : err_t)  (* netif->input(p, netif) returned r *)
  | Pbuf_free (p : pool_pbuf).

Section Adapter.

Context {dev : Type}.
Local Open Scope drv_scope.

(** [ethif_poll(netif)], with [netif->state] resolved to the interface
    context and its driver.  What lwIP answers is given: [link_is_up] is
    [netif_is_link_up(netif)] and [alloc] is the result of
    [pbuf_alloc(PBUF_RAW, PBUF_POOL_BUFSIZE, PBUF_POOL)] ([None] for NULL).
    Two of the calls into lwIP can use the bus before they return, and are
    computations over the device for that reason: [set_link up] is
    [netif_set_link_up(netif)] for [up = true] and
    [netif_set_link_down(netif)] for [up = false], from which lwIP runs the
    link callback ([LWIP_NETIF_LINK_CALLBACK 1]; in the sketch
    [netif_link_callback], whose DHCP calls may transmit through
    [linkoutput = ethif_output]); [input] is [netif->input], from which the
    stack answers some frames at once, again through [ethif_output].
    [ERR_IF] stands for any result of [input] other than [ERR_OK].  The
    result is the list of calls made into lwIP. *)
Definition ethif_poll (driver : ethif_driver) (s : ethif dev)
    (link_is_up : bool) (set_link : bool -> M dev unit)
    (alloc : option pool_pbuf) (input : pool_pbuf -> M dev err_t)
    : M dev (list stack_call) :=
  connected <- poll driver s true ;;
  link <- (if negb (Bool.eqb connected link_is_up) then
             if connected
             then set_link true ;;; ret [Netif_set_link_up]
             else set_link false ;;; ret [Netif_set_link_down]
           else ret []) ;;
  match alloc with
  | Some p =>
      if negb (p_next p) then
        let* (len, data) := rx driver (p_payload p) (Z.to_nat (u16 (p_len p))) s in
        if (0 <? len)%nat then
          let p := {| p_payload := data; p_len := u16 (Z.of_nat len);
                      p_tot_len := u16 (Z.of_nat len); p_next := false |} in
          r <- input p ;;
          match r with
          | ERR_OK => ret (link ++ [Pbuf_alloc alloc; Netif_input p r])
          | _ => ret (link ++ [Pbuf_alloc alloc; Netif_input p r; Pbuf_free p])
          end
        else
          ret (link ++ [Pbuf_alloc alloc;
                        Pbuf_free {| p_payload := data; p_len := p_len p;
                                     p_tot_len := p_tot_len p; p_next := p_next p |}])
      else ret (link ++ [Pbuf_alloc alloc; Pbuf_free p])
  | None => ret (link ++ [Pbuf_alloc alloc])
  end.

(** [ethif_init(netif)]: the interface fields are assigned, the context's
    address pointer is aimed at [netif->hwaddr], and the driver's [init] is
    run on that context.  The result is the error code together with the
    interface and the context as they are left. *)
Definition ethif_init (driver : ethif_driver) (s : ethif dev) (n : netif)
    : M dev (err_t * netif * ethif dev) :=
  let n := {| hostname := "lwip"; name := ("e"%char, "n"%char);
              mtu := ETHERNET_MTU;
              flags := [NETIF_FLAG_BROADCAST; NETIF_FLAG_ETHARP; NETIF_FLAG_ETHERNET];
              hwaddr := hwaddr n; hwaddr_len := length (hwaddr n) |} in
  let s := {| begin := begin s; end_ := end_ s; txn := txn s;
              ethaddr := Some (hwaddr n) |} in
  success <- init driver s ;;
  if success then ret (ERR_OK, n, s) else ret (ERR_IF, n, s).

End Adapter.

(** ** Polling again and again *)

(** lwIP's link flag as far as [ethif_poll] is concerned:
    [netif_set_link_up] and [netif_set_link_down] set and clear what
    [netif_is_link_up] returns, and no other call made by [ethif_poll]
    changes it.  This is the behaviour of lwIP that the link handling of
    [ethif_poll] is written against; it is not part of the port. *)
Definition link_after (link_is_up : bool) (calls : list stack_call) : bool :=
  fold_left (fun up c =>
               match c with
               | Netif_set_link_up => true
               | Netif_set_link_down => false
               | _ => up
               end) calls link_is_up.

Section Polling.

Context {dev : Type}.
Local Open Scope drv_scope.

(** [ethif_poll] called once per entry of [env], as [loop()] does pass
    after pass; an entry is what [pbuf_alloc] and [netif->input] answer in
    that pass.  The result is all calls into lwIP, in order. *)
Fixpoint ethif_poll_loop (driver : ethif_driver) (s : ethif dev)
    (link_is_up : bool) (set_link : bool -> M dev unit)
    (env : list (option pool_pbuf * (pool_pbuf -> M dev err_t)))
    : M dev (list stack_call) :=
  match env with
  | [] => ret []
  | (alloc, input) :: env' =>
      calls <- ethif_poll driver s link_is_up set_link alloc input ;;
      rest <- ethif_poll_loop driver s (link_after link_is_up calls) set_link env' ;;
      ret (calls ++ rest)
  end.

End Polling.


(** * The sketch's main loop ([main.cpp]) *)

(** The two flags of the sketch. *)
Record app : Type := App {
  dhcp_bound : bool;
  http_server_started : bool
}.

Inductive app_call : Type :=
  | Dhcp_release
  | Dhcp_stop
  | Dhcp_start
  | Start_http_server.

(** [netif_link_callback(netif)] with [USE_STATIC_IP 0]; [link_up] is
    [netif_is_link_up(netif)]. *)
Definition netif_link_callback (link_up : bool) (a : app) : app * list app_call :=
  if link_up then
    ({| dhcp_bound := false; http_server_started := http_server_started a |},
     [Dhcp_release; Dhcp_stop; Dhcp_start])
  else
    ({| dhcp_bound := false; http_server_started := http_server_started a |},
     [Dhcp_stop]).

(** The part of [loop()] after [ethif_poll] and [sys_check_timeouts]:
    [is_up] is [netif_is_up(&netif)] and [addr] is [netif.ip_addr.addr]. *)
Definition loop_flags (is_up : bool) (addr : Z) (a : app) : app * list app_call :=
  let a :=
    if negb (dhcp_bound a) && is_up && negb (addr =? 0)
    then {| dhcp_bound := true; http_server_started := http_server_started a |}
    else a in
  if negb (http_server_started a) && dhcp_bound a && is_up && negb (addr =? 0)
  then ({| dhcp_bound := dhcp_bound a; http_server_started := true |},
        [Start_http_server])
  else (a, []).

(** What happens to the sketch between two looks at it: the link callback
    fires (from [netif_set_link_up] or [netif_set_link_down] inside
    [ethif_poll]), or the flag part of [loop()] runs. *)
Inductive app_step : Type :=
  | Link_changed (link_up : bool)
  | Loop_pass (is_up : bool) (addr : Z).

Definition app_do (st : app_step) (a : app) : app * list app_call :=
  match st with
  | Link_changed up => netif_link_callback up a
  | Loop_pass is_up addr => loop_flags is_up addr a
  end.

Fixpoint app_run (steps : list app_step) (a : app) : app * list app_call :=
  match steps with
  | [] => (a, [])
  | st :: steps' =>
      let '(a1, c1) := app_do st a in
      let '(a2, c2) := app_run steps' a1 in
      (a2, c1 ++ c2)
  end.

(** * The hex dump of [sys_arch.cpp] *)

(** The calls that [hex_dump_lwip] makes to [lwip_dump_printf], by format
    string, with their arguments.  The lengths and offsets are passed as
    [(unsigned int)]; on the two platforms of [sys_arch.cpp] that is as wide
    as [size_t], so the cast changes nothing. *)
Inductive dump_call : Type :=
  | Dump_header (label : string) (len : nat)   (* "%s (%u bytes):\n", label, len *)
  | Dump_offset (i : nat)                      (* "%04x: ", i *)
  | Dump_byte (b : Z)                          (* "%02x ", d[i] *)
  | Dump_newline.                              (* "\n" *)

(** [for (size_t i = 0; i < len; i++) { ... }] with [n] the iterations left;
    [d[i]] is read as a [uint8_t]. *)
Fixpoint hex_dump_loop (d : list Z) (len : nat) (n i : nat) : list dump_call :=
  match n with
  | O => []
  | S n' =>
      (if (i mod 16 =? 0)%nat then [Dump_offset i] else [])
      ++ [Dump_byte (u8 (nth i d 0))]
      ++ (if ((i mod 16 =? 15) || (i =? len - 1))%nat then [Dump_newline] else [])
      ++ hex_dump_loop d len n' (S i)
  end.

Definition hex_dump_lwip (label : string) (data : list Z) (len : nat)
    : list dump_call :=
  Dump_header label len :: hex_dump_loop data len len 0.

(** Line [k] of a dump of [len] bytes: its offset, its bytes (sixteen, or
    what is left), a newline. *)
Definition dump_line (data : list Z) (len : nat) (k : nat) : list dump_call :=
  Dump_offset (16 * k)
  :: map Dump_byte (sent_bytes data (16 * k) (Nat.min 16 (len - 16 * k)))
  ++ [Dump_newline].

(** * Further vocabulary: chip-select discipline and register footprints *)

(** A trace that is a sequence of whole chip-select frames, each with the
    three header bytes or more: nothing is exchanged while the chip is
    deselected, no frame is left open, none is opened twice. *)
Inductive framed : trace -> Prop :=
  | framed_nil : framed []
  | framed_frame xs t :
      (3 <= length xs)%nat -> framed t -> framed (frame xs ++ t).

Section Discipline.

Context {dev : Type}.

(** Every run of [m] leaves such a trace. *)
Definition tidy {A} (m : M dev A) : Prop :=
  forall d, framed (emitted (m d)).

End Discipline.

(** The transactions [w5500_rx] may issue. *)
Definition rx_access (a : access) : Prop :=
  match a with
  | Read b x _ =>
      (b = SOCKET0_REGISTER /\ (x = Sn_RX_RSR \/ x = Sn_RX_RD \/ x = Sn_CR))
      \/ b = SOCKET0_RX_BUFFER
  | Write b x v =>
      b = SOCKET0_REGISTER /\
      ((x = Sn_RX_RD /\ length v = 2%nat) \/ (x = Sn_CR /\ v = [Sn_CR_RECV]))
  | Runt _ => False
  end.


(** The calls of [ethif_poll] that give up the packet buffer: a free, or an
    input that the stack accepted. *)
Definition releases (c : stack_call) : bool :=
  match c with
  | Pbuf_free _ | Netif_input _ ERR_OK => true
  | _ => false
  end.

Definition is_link_call (c : stack_call) : bool :=
  match c with
  | Netif_set_link_up | Netif_set_link_down => true
  | _ => false
  end.

Definition is_http_start (c : app_call) : bool :=
  match c with Start_http_server => true | _ => false end.

Ltac run_step H :=
  unfold bind at 1; rewrite H; cbv beta iota.

(** * Facts about the decoder *)

Lemma decode_from_xfers (xs acc : list (Z * Z)) (t : trace) :
  decode_from (Some acc) (map (fun x => Xfer x.1 x.2) xs ++ CsDeassert :: t)
  = access_of (rev acc ++ xs) :: decode t.
Proof.
  revert acc. induction xs as [|[a b] xs IH]; intros acc; simpl.
  - by rewrite app_nil_r.
  - rewrite IH. simpl. by rewrite <- app_assoc.
Qed.

Lemma decode_frame (xs : list (Z * Z)) (t : trace) : decode (frame xs ++ t) = access_of xs :: decode t.
Proof.
  unfold frame, decode. simpl. rewrite <- app_assoc. simpl.
  by rewrite decode_from_xfers.
Qed.

Lemma decode_frame_only (xs : list (Z * Z)) : decode (frame xs) = [access_of xs].
Proof. rewrite <- (app_nil_r (frame xs)). by rewrite decode_frame. Qed.

Lemma complete_nil : complete [].
Proof. by intros t'. Qed.

Lemma complete_frame (xs : list (Z * Z)) : complete (frame xs).
Proof. intros t'. by rewrite decode_frame, decode_frame_only. Qed.

Lemma complete_app t1 t2 : complete t1 -> complete t2 -> complete (t1 ++ t2).
Proof.
  intros H1 H2 t'. rewrite <- app_assoc, H1, H2, H1. by rewrite app_assoc.
Qed.

Lemma complete_deassert : complete [CsDeassert].
Proof. by intros t'. Qed.

Lemma complete_protect : complete [IrqProtect].
Proof. by intros t'. Qed.

Lemma complete_unprotect : complete [IrqUnprotect].
Proof. by intros t'. Qed.

Lemma decode_app t1 t2 : complete t1 -> decode (t1 ++ t2) = decode t1 ++ decode t2.
Proof. intros H. apply H. Qed.

(** ** Header arithmetic *)

Lemma u8_range x : 0 <= u8 x < 256.
Proof. unfold u8. apply Z.mod_pos_bound. lia. Qed.

Lemma u16_range x : 0 <= u16 x < 65536.
Proof. unfold u16. apply Z.mod_pos_bound. lia. Qed.

Lemma u8_small x : 0 <= x < 256 -> u8 x = x.
Proof. intros. unfold u8. by apply Z.mod_small. Qed.

Lemma u16_small x : 0 <= x < 65536 -> u16 x = x.
Proof. intros. unfold u16. by apply Z.mod_small. Qed.

Lemma u16_idemp x : u16 (u16 x) = u16 x.
Proof. apply u16_small, u16_range. Qed.

(** High byte and low byte, most significant first, make the word again. *)
Lemma hi_lo_word x : u8 (Z.shiftr x 8) * 256 + u8 (Z.land x 255) = u16 x.
Proof.
  unfold u8, u16. rewrite Z.shiftr_div_pow2 by lia.
  change 255 with (Z.ones 8). rewrite Z.land_ones by lia.
  change (2 ^ 8) with 256.
  rewrite Z.mod_mod by lia.
  change 65536 with (256 * 256).
  rewrite Z.rem_mul_r by lia. lia.
Qed.

Lemma word_of_bytes b0 b1 :
  0 <= b0 < 256 -> 0 <= b1 < 256 ->
  u16 (Z.lor (Z.shiftl b0 8) b1) = b0 * 256 + b1.
Proof.
  intros H0 H1.
  assert (E : Z.lor (Z.shiftl b0 8) b1 = b0 * 256 + b1).
  { rewrite Z.shiftl_mul_pow2 by lia. change (2 ^ 8) with 256.
    rewrite <- Z.lxor_lor.
    - rewrite <- Z.add_nocarry_lxor; [done|].
      apply Z.bits_inj'. intros n Hn. rewrite Z.land_spec, Z.bits_0.
      destruct (decide (n < 8)).
      + replace (b0 * 256) with (b0 * 2 ^ 8) by lia.
        rewrite Z.mul_pow2_bits_low by lia. done.
      + replace b1 with (b1 mod 2 ^ 8) by (apply Z.mod_small; lia).
        rewrite (Z.mod_pow2_bits_high _ 8 n) by lia. apply andb_false_r.
    - apply Z.bits_inj'. intros n Hn. rewrite Z.land_spec, Z.bits_0.
      destruct (decide (n < 8)).
      + replace (b0 * 256) with (b0 * 2 ^ 8) by lia.
        rewrite Z.mul_pow2_bits_low by lia. done.
      + replace b1 with (b1 mod 2 ^ 8) by (apply Z.mod_small; lia).
        rewrite (Z.mod_pow2_bits_high _ 8 n) by lia. apply andb_false_r. }
  rewrite E. apply u16_small. lia.
Qed.

Lemma ctl_byte_wr (block : Z) (wr : bool) :
  Z.testbit (u8 (Z.lor (Z.shiftl block 3) (if wr then 4 else 0))) 2 = wr.
Proof.
  unfold u8. change 256 with (2 ^ 8).
  rewrite Z.mod_pow2_bits_low by lia.
  rewrite Z.lor_spec, Z.shiftl_spec_low by lia. by destruct wr.
Qed.

Lemma ctl_byte_block (block : Z) (wr : bool) :
  Z.shiftr (u8 (Z.lor (Z.shiftl block 3) (if wr then 4 else 0))) 3 = block mod 32.
Proof.
  apply Z.bits_inj'. intros n Hn.
  rewrite Z.shiftr_spec by lia. unfold u8.
  change 256 with (2 ^ 8). change 32 with (2 ^ 5).
  destruct (decide (n < 5)).
  - rewrite !Z.mod_pow2_bits_low by lia.
    rewrite Z.lor_spec, Z.shiftl_spec by lia.
    replace (n + 3 - 3) with n by lia.
    assert (Z.testbit (if wr then 4 else 0) (n + 3) = false) as ->.
    { destruct wr; [|apply Z.bits_0].
      change 4 with (2 ^ 2). rewrite Z.pow2_bits_eqb by lia.
      apply Z.eqb_neq. lia. }
    apply orb_false_r.
  - rewrite !Z.mod_pow2_bits_high by lia. done.
Qed.

(** * What one register transaction does *)

Section Register_access_facts.

Context {dev : Type}.
Implicit Types (s : ethif dev) (d : dev) (p buf : list Z).

Lemma map_fst_zip (l k : list Z) :
  (length l <= length k)%nat -> map fst (zip l k) = l.
Proof.
  revert k. induction l as [|x l IH]; intros [|y k] Hl; simpl in *;
    try done; try lia.
  f_equal. apply IH. lia.
Qed.

Lemma map_snd_zip (l k : list Z) :
  (length k <= length l)%nat -> map snd (zip l k) = k.
Proof.
  revert k. induction l as [|x l IH]; intros [|y k] Hl; simpl in *;
    try done; try lia.
  f_equal. apply IH. lia.
Qed.

Lemma bind_run {A B} (m : M dev A) (f : A -> M dev B) d a d1 t1 b d2 t2 :
  m d = (a, d1, t1) -> f a d1 = (b, d2, t2) -> bind m f d = (b, d2, t1 ++ t2).
Proof. intros H1 H2. unfold bind. by rewrite H1, H2. Qed.

Lemma sent_bytes_insert p (i j n : nat) x :
  (i < j)%nat -> sent_bytes (<[i := x]> p) j n = sent_bytes p j n.
Proof.
  intros Hij. unfold sent_bytes. apply map_ext_in. intros k Hk.
  apply in_seq in Hk. rewrite !nth_lookup.
  rewrite list_lookup_insert_ne by lia. done.
Qed.

Lemma stored_step p (i n : nat) r rs :
  take (S i) (<[i := r]> p) ++ take (length (<[i := r]> p) - S i) rs
    ++ drop (S i + n) (<[i := r]> p)
  = take i p ++ take (length p - i) (r :: rs) ++ drop (i + S n) p.
Proof.
  rewrite length_insert.
  destruct (decide (i < length p)%nat) as [Hi|Hi].
  - rewrite drop_insert_lt by lia.
    replace (length p - i)%nat with (S (length p - S i)) by lia.
    rewrite (take_S_r _ i r) by (by apply list_lookup_insert_eq).
    rewrite take_insert_ge by lia. simpl. rewrite <- app_assoc. simpl.
    by replace (S (i + n)) with (i + S n)%nat by lia.
  - rewrite list_insert_ge by lia.
    replace (length p - i)%nat with O by lia.
    replace (length p - S i)%nat with O by lia.
    rewrite (take_ge p (S i)), (take_ge p i) by lia.
    rewrite (drop_ge p (S i + n)), (drop_ge p (i + S n)) by lia. done.
Qed.

Lemma exchange_length s d bs : length (exchange s d bs).1 = length bs.
Proof.
  revert d. induction bs as [|b bs IH]; intros d; simpl; [done|].
  destruct (txn s d b) as [r d1]. specialize (IH d1).
  destruct (exchange s d1 bs) as [rs d2]. simpl in *. lia.
Qed.

Lemma exchange_bytes s d bs : Forall is_byte (exchange s d bs).1.
Proof.
  revert d. induction bs as [|b bs IH]; intros d; simpl; [constructor|].
  destruct (txn s d b) as [r d1]. specialize (IH d1).
  destruct (exchange s d1 bs) as [rs d2]. simpl in *.
  constructor; [apply u8_range|done].
Qed.

Lemma sent_bytes_S p (i n : nat) :
  sent_bytes p i (S n) = u8 (nth i p 0) :: sent_bytes p (S i) n.
Proof. reflexivity. Qed.

(** The payload loop sends [p[i..i+n)] and, on a read, stores the answers
    over the same positions. *)
Lemma payload_loop_exchange s (wr : bool) (n i : nat) p d :
  payload_loop s wr n i p d =
    let '(rs, d') := exchange s d (sent_bytes p i n) in
    (if wr then p
     else take i p ++ take (length p - i) rs ++ drop (i + n) p,
     d', xfers (sent_bytes p i n) rs).
Proof.
  revert i p d. induction n as [|n IH]; intros i p d.
  - simpl. unfold ret. destruct wr; [done|].
    rewrite Nat.add_0_r, take_nil. simpl. by rewrite take_drop.
  - rewrite sent_bytes_S. simpl. unfold bind, do_txn.
    destruct (txn s d (u8 (nth i p 0))) as [r d1].
    rewrite IH.
    assert (sent_bytes (if wr then p else <[i := u8 r]> p) (S i) n
            = sent_bytes p (S i) n) as ->.
    { destruct wr; [done|]. apply sent_bytes_insert. lia. }
    destruct (exchange s d1 (sent_bytes p (S i) n)) as [rs d2].
    f_equal. f_equal. destruct wr; [done|]. apply stored_step.
Qed.

Lemma payload_loop_run s (wr : bool) (n i : nat) p d :
  exists rs d',
    length rs = n /\ Forall is_byte rs /\
    payload_loop s wr n i p d =
      (if wr then p
       else take i p ++ take (length p - i) rs ++ drop (i + n) p,
       d', xfers (sent_bytes p i n) rs).
Proof.
  pose proof (exchange_length s d (sent_bytes p i n)) as Hl.
  pose proof (exchange_bytes s d (sent_bytes p i n)) as Hb.
  rewrite payload_loop_exchange.
  destruct (exchange s d (sent_bytes p i n)) as [rs d'].
  exists rs, d'. simpl in *. split; [|done].
  rewrite Hl. unfold sent_bytes. by rewrite length_map, length_seq.
Qed.

Lemma cmd_loop_exchange s (cmd : list Z) d :
  cmd_loop s cmd d =
    let '(rs, d') := exchange s d cmd in (tt, d', xfers cmd rs).
Proof.
  revert d. induction cmd as [|c cmd IH]; intros d; [done|].
  simpl. unfold bind, do_txn. destruct (txn s d c) as [r d1].
  rewrite IH. by destruct (exchange s d1 cmd) as [rs d2].
Qed.

Lemma cmd_loop_run s (cmd : list Z) d :
  exists rs d',
    length rs = length cmd /\ cmd_loop s cmd d = (tt, d', xfers cmd rs).
Proof.
  pose proof (exchange_length s d cmd) as Hl.
  rewrite cmd_loop_exchange. destruct (exchange s d cmd) as [rs d'].
  by exists rs, d'.
Qed.

(** A transaction, in terms of what the device answers. *)
Lemma w5500_spi_io_exchange s block addr wr buf len d :
  w5500_spi_io s block addr wr buf len d =
    let '(hs, d1) := exchange s (begin s d) (cmd_bytes block addr wr) in
    let '(rs, d2) := exchange s d1 (sent_bytes buf 0 len) in
    (if wr then buf else take (length buf) rs ++ drop len buf,
     end_ s d2, frame (exchanges block addr wr buf len hs rs)).
Proof.
  unfold w5500_spi_io.
  unfold bind at 1. unfold do_begin at 1.
  unfold bind at 1. fold (cmd_bytes block addr wr). rewrite cmd_loop_exchange.
  destruct (exchange s (begin s d) (cmd_bytes block addr wr)) as [hs d1].
  unfold bind at 1. rewrite payload_loop_exchange.
  destruct (exchange s d1 (sent_bytes buf 0 len)) as [rs d2].
  unfold bind, do_end, ret. simpl.
  f_equal; [f_equal|].
  - destruct wr; [done|]. by rewrite Nat.sub_0_r.
  - unfold frame, exchanges, xfers. rewrite map_app.
    by rewrite <- app_assoc.
Qed.

Lemma w5500_spi_io_run s block addr wr buf len d :
  exists hs rs d',
    length hs = 3%nat /\ length rs = len /\ Forall is_byte rs /\
    w5500_spi_io s block addr wr buf len d =
      (if wr then buf else take (length buf) rs ++ drop len buf,
       d', frame (exchanges block addr wr buf len hs rs)).
Proof.
  rewrite w5500_spi_io_exchange.
  pose proof (exchange_length s (begin s d) (cmd_bytes block addr wr)) as Hh.
  destruct (exchange s (begin s d) (cmd_bytes block addr wr)) as [hs d1].
  pose proof (exchange_length s d1 (sent_bytes buf 0 len)) as Hl.
  pose proof (exchange_bytes s d1 (sent_bytes buf 0 len)) as Hb.
  destruct (exchange s d1 (sent_bytes buf 0 len)) as [rs d2].
  exists hs, rs, (end_ s d2). simpl in *. split; [done|].
  split; [|done]. rewrite Hl. unfold sent_bytes.
  by rewrite length_map, length_seq.
Qed.

(** What the chip decodes from such a frame. *)
Lemma access_of_exchanges block addr wr buf len hs rs :
  length hs = 3%nat -> length rs = len ->
  access_of (exchanges block addr wr buf len hs rs) =
    if wr then Write (block mod 32) (u16 addr) (sent_bytes buf 0 len)
    else Read (block mod 32) (u16 addr) rs.
Proof.
  intros Hhs Hrs.
  destruct hs as [|h1 [|h2 [|h3 [|]]]]; try discriminate.
  change (exchanges block addr wr buf len [h1; h2; h3] rs)
    with ((u8 (Z.shiftr addr 8), h1) :: (u8 (Z.land addr 255), h2)
          :: (u8 (Z.lor (Z.shiftl block 3) (if wr then 4 else 0)), h3)
          :: zip (sent_bytes buf 0 len) rs).
  unfold access_of.
  rewrite ctl_byte_wr, ctl_byte_block, hi_lo_word.
  assert (length (sent_bytes buf 0 len) = length rs) as Hl.
  { unfold sent_bytes. by rewrite length_map, length_seq. }
  destruct wr.
  - by rewrite map_fst_zip by lia.
  - by rewrite map_snd_zip by lia.
Qed.

End Register_access_facts.

Section Wrapper_facts.

Context {dev : Type}.
Implicit Types (s : ethif dev) (d : dev) (buf : list Z).

Lemma sent_bytes_bytes buf (len : nat) :
  Forall is_byte buf -> (len <= length buf)%nat ->
  sent_bytes buf 0 len = take len buf.
Proof.
  intros Hb Hlen. unfold sent_bytes. apply list_eq. intros i.
  change (map ?f ?l) with (f <$> l). rewrite list_lookup_fmap.
  destruct (decide (i < len)%nat) as [Hi|Hi].
  - rewrite lookup_seq_lt, lookup_take_lt by lia. simpl.
    rewrite nth_lookup.
    destruct (lookup_lt_is_Some_2 buf i) as [b Hbi]; [lia|].
    rewrite Hbi. simpl. f_equal. apply u8_small.
    by apply (Forall_lookup_1 _ _ _ _ Hb Hbi).
  - rewrite lookup_seq_ge, lookup_take_ge by lia. done.
Qed.

Lemma w5500_read_obs s block addr buf len d :
  exists rs d' t,
    length rs = len /\ Forall is_byte rs /\
    w5500_read s block addr buf len d =
      (take (length buf) rs ++ drop len buf, d', t) /\
    complete t /\ decode t = [Read (block mod 32) (u16 addr) rs].
Proof.
  destruct (w5500_spi_io_run s block addr false buf len d)
    as (hs & rs & d' & Hhs & Hrs & Hb & Hrun).
  exists rs, d', (frame (exchanges block addr false buf len hs rs)).
  repeat split; try done.
  - apply complete_frame.
  - by rewrite decode_frame_only, access_of_exchanges.
Qed.

Lemma w5500_write_obs s block addr buf len d :
  exists d' t,
    w5500_write s block addr buf len d = (tt, d', t) /\
    complete t /\
    decode t = [Write (block mod 32) (u16 addr) (sent_bytes buf 0 len)].
Proof.
  destruct (w5500_spi_io_run s block addr true buf len d)
    as (hs & rs & d' & Hhs & Hrs & Hb & Hrun).
  exists d', (frame (exchanges block addr true buf len hs rs)).
  repeat split.
  - unfold w5500_write, bind, ret. rewrite Hrun. by rewrite app_nil_r.
  - apply complete_frame.
  - by rewrite decode_frame_only, access_of_exchanges.
Qed.

Lemma w5500_write_byte_obs s block addr val d :
  exists d' t,
    w5500_write_byte s block addr val d = (tt, d', t) /\
    complete t /\ decode t = [Write (block mod 32) (u16 addr) [u8 val]].
Proof.
  destruct (w5500_write_obs s block addr [u8 val] 1 d) as (d' & t & ? & ? & Ht).
  exists d', t. repeat split; try done.
  rewrite Ht. unfold sent_bytes. simpl.
  by rewrite (u8_small (u8 val)) by apply u8_range.
Qed.

Lemma w5500_write_word_obs s block addr val d :
  exists d' t,
    w5500_write_word s block addr val d = (tt, d', t) /\
    complete t /\
    decode t = [Write (block mod 32) (u16 addr)
                  [u8 (Z.shiftr val 8); u8 (Z.land val 255)]].
Proof.
  destruct (w5500_write_obs s block addr
              [u8 (Z.shiftr val 8); u8 (Z.land val 255)] 2 d)
    as (d' & t & ? & ? & Ht).
  exists d', t. repeat split; try done.
  rewrite Ht. unfold sent_bytes. simpl.
  by rewrite !(u8_small (u8 _)) by apply u8_range.
Qed.

Lemma w5500_read_byte_obs s block addr d :
  exists r d' t,
    is_byte r /\ w5500_read_byte s block addr d = (r, d', t) /\
    complete t /\ decode t = [Read (block mod 32) (u16 addr) [r]].
Proof.
  destruct (w5500_read_obs s block addr [0] 1 d)
    as (rs & d' & t & Hlen & Hb & Hrun & Hc & Ht).
  destruct rs as [|r [|]]; try discriminate.
  apply Forall_cons in Hb as [Hr _].
  exists r, d', t. repeat split; try done; try apply Hr.
  unfold w5500_read_byte, bind, ret. rewrite Hrun. simpl.
  by rewrite app_nil_r.
Qed.

Lemma w5500_read_word_obs s block addr d :
  exists r0 r1 d' t,
    is_byte r0 /\ is_byte r1 /\
    w5500_read_word s block addr d = (r0 * 256 + r1, d', t) /\
    complete t /\ decode t = [Read (block mod 32) (u16 addr) [r0; r1]].
Proof.
  destruct (w5500_read_obs s block addr [0; 0] 2 d)
    as (rs & d' & t & Hlen & Hb & Hrun & Hc & Ht).
  destruct rs as [|r0 [|r1 [|]]]; try discriminate.
  apply Forall_cons in Hb as [H0 Hb]. apply Forall_cons in Hb as [H1 _].
  exists r0, r1, d', t. repeat split; try done; try apply H0; try apply H1.
  unfold w5500_read_word, bind, ret. rewrite Hrun. simpl.
  rewrite app_nil_r. by rewrite word_of_bytes.
Qed.

End Wrapper_facts.

(** * Waiting loops *)

Lemma quiet_nil P : quiet P [].
Proof. split; [apply complete_nil|constructor]. Qed.

Lemma quiet_app P t1 t2 : quiet P t1 -> quiet P t2 -> quiet P (t1 ++ t2).
Proof.
  intros [C1 F1] [C2 F2]. split; [by apply complete_app|].
  rewrite decode_app by done. by apply Forall_app.
Qed.

Lemma quiet_single P t a : complete t -> decode t = [a] -> P a -> quiet P t.
Proof. intros C E Ha. split; [done|]. rewrite E. by constructor. Qed.

Section Loop_facts.

Context {dev : Type}.
Implicit Types (s : ethif dev) (d : dev).

Lemma only_ret P {A} (a : A) : only (dev := dev) P (ret a).
Proof. intros d. apply quiet_nil. Qed.

Lemma only_bind P {A B} (m : M dev A) (f : A -> M dev B) :
  only P m -> (forall a, only P (f a)) -> only P (bind m f).
Proof.
  intros Hm Hf d. unfold bind.
  specialize (Hm d). destruct (m d) as [[a d1] t1].
  specialize (Hf a d1). destruct (f a d1) as [[b d2] t2].
  by apply quiet_app.
Qed.

Lemma WAIT_OR_FAIL_eq {A} (n : nat) (condition : A -> M dev (bool * A)) a :
  WAIT_OR_FAIL n condition a =
  bind (condition a) (fun '(c, a') =>
    if c then
      match n with
      | O => ret (false, a')
      | S n' => WAIT_OR_FAIL n' condition a'
      end
    else ret (true, a')).
Proof. by destruct n. Qed.

(** A wait ends with one last evaluation of its condition: the wait passed
    exactly when that evaluation was false, the local it assigned is the
    one the caller sees, and all that happened before is earlier
    evaluations, whose traces any invariant [I] of the condition covers. *)
Lemma WAIT_OR_FAIL_inv {A} (I : trace -> Prop) (n : nat)
    (condition : A -> M dev (bool * A)) :
  I [] -> (forall t1 t2, I t1 -> I t2 -> I (t1 ++ t2)) ->
  (forall a d, I (emitted (condition a d))) ->
  forall a d, exists a0 d0 t0 c a' d' t1,
    condition a0 d0 = ((c, a'), d', t1) /\ I t0 /\
    WAIT_OR_FAIL n condition a d = ((negb c, a'), d', t0 ++ t1).
Proof.
  intros Inil Iapp Icond. induction n as [|n IH]; intros a d.
  - rewrite WAIT_OR_FAIL_eq. unfold bind.
    destruct (condition a d) as [[[c a'] d1] t1] eqn:E.
    exists a, d, [], c, a', d1, t1. split; [done|]. split; [done|].
    destruct c; unfold ret; simpl; by rewrite app_nil_r.
  - rewrite WAIT_OR_FAIL_eq. unfold bind.
    destruct (condition a d) as [[[c a'] d1] t1] eqn:E.
    destruct c.
    + destruct (IH a' d1) as (a0 & d0 & t0 & c' & a'' & d' & t1' & Hc & Ht0 & Hw).
      exists a0, d0, (t1 ++ t0), c', a'', d', t1'.
      split; [done|]. split.
      * apply Iapp; [|done]. specialize (Icond a d). by rewrite E in Icond.
      * rewrite Hw. by rewrite app_assoc.
    + exists a, d, [], false, a', d1, t1. split; [done|]. split; [done|].
      unfold ret; simpl; by rewrite app_nil_r.
Qed.

Lemma only_WAIT_OR_FAIL P {A} (n : nat) (condition : A -> M dev (bool * A)) a :
  (forall a, only P (condition a)) -> only P (WAIT_OR_FAIL n condition a).
Proof.
  intros Hc. revert a. induction n as [|n IH]; intros a;
    rewrite WAIT_OR_FAIL_eq; apply only_bind; try done;
    intros [[] a']; try apply only_ret; try apply IH.
Qed.

Lemma only_read_word P s block addr :
  (forall vals, P (Read (block mod 32) (u16 addr) vals)) ->
  only P (w5500_read_word s block addr).
Proof.
  intros HP d.
  destruct (w5500_read_word_obs s block addr d)
    as (r0 & r1 & d' & t & _ & _ & Hrun & Hc & Ht).
  rewrite Hrun. by apply (quiet_single _ _ _ Hc Ht).
Qed.

Lemma only_read_byte P s block addr :
  (forall vals, P (Read (block mod 32) (u16 addr) vals)) ->
  only P (w5500_read_byte s block addr).
Proof.
  intros HP d.
  destruct (w5500_read_byte_obs s block addr d)
    as (r & d' & t & _ & Hrun & Hc & Ht).
  rewrite Hrun. by apply (quiet_single _ _ _ Hc Ht).
Qed.

Lemma only_write_byte P s block addr val :
  (forall vals, P (Write (block mod 32) (u16 addr) vals)) ->
  only P (w5500_write_byte s block addr val).
Proof.
  intros HP d.
  destruct (w5500_write_byte_obs s block addr val d) as (d' & t & Hrun & Hc & Ht).
  rewrite Hrun. by apply (quiet_single _ _ _ Hc Ht).
Qed.

(** The two stability waits only read their size register. *)
Lemma rx_wait_stable_only s :
  only (is_read_of SOCKET0_REGISTER Sn_RX_RSR) (rx_wait_stable s).
Proof.
  apply only_WAIT_OR_FAIL. intros _.
  apply only_bind; [|intros [stable len]; apply only_ret].
  apply only_bind; [by apply only_read_word|]. intros tmp.
  apply only_bind; [by apply only_read_word|]. intros len. apply only_ret.
Qed.

(** A word read is one transaction of exactly two bytes. *)
Lemma only_read_word_exact P s block addr :
  (forall r0 r1, P (Read (block mod 32) (u16 addr) [r0; r1])) ->
  only P (w5500_read_word s block addr).
Proof.
  intros HP d.
  destruct (w5500_read_word_obs s block addr d)
    as (r0 & r1 & d' & t & _ & _ & Hrun & Hc & Ht).
  rewrite Hrun. by apply (quiet_single _ _ _ Hc Ht).
Qed.

(** The receive size wait reads the two bytes of [Sn_RX_RSR] and no byte
    beyond them. *)
Lemma rx_wait_stable_word_reads s :
  only (fun a => exists r0 r1, a = Read SOCKET0_REGISTER Sn_RX_RSR [r0; r1])
       (rx_wait_stable s).
Proof.
  apply only_WAIT_OR_FAIL. intros _.
  apply only_bind; [|intros [stable len]; apply only_ret].
  apply only_bind; [apply only_read_word_exact; intros r0 r1; by exists r0, r1|].
  intros tmp.
  apply only_bind; [apply only_read_word_exact; intros r0 r1; by exists r0, r1|].
  intros len.
  apply only_ret.
Qed.

Lemma tx_wait_stable_only s :
  only (is_read_of SOCKET0_REGISTER Sn_TX_FSR) (tx_wait_stable s).
Proof.
  apply only_WAIT_OR_FAIL. intros _.
  apply only_bind; [|intros [stable len]; apply only_ret].
  apply only_bind; [by apply only_read_word|]. intros tmp.
  apply only_bind; [by apply only_read_word|]. intros len. apply only_ret.
Qed.

(** The size a stability wait hands back is a 16-bit value: the wait
    evaluates its condition at least once. *)
Lemma tx_wait_stable_range s d passed freesize d1 t1 :
  tx_wait_stable s d = ((passed, freesize), d1, t1) -> 0 <= freesize < 65536.
Proof.
  unfold tx_wait_stable. intros Hw.
  destruct (WAIT_OR_FAIL_inv (fun _ => True) MAX_LOOP_ITERATIONS
              (fun _ : Z => bind (w5500_read_tx_rsr_stable s)
                 (fun '(stable, freesize) => ret (negb stable, freesize)))
              I (fun _ _ _ _ => I) (fun _ _ => I) 0 d)
    as (a0 & d0 & t0 & c & a' & d' & t & Hc & _ & Hw').
  rewrite Hw' in Hw. injection Hw as _ <- _ _.
  unfold bind, w5500_read_tx_rsr_stable, bind in Hc.
  destruct (w5500_read_word_obs s SOCKET0_REGISTER Sn_TX_FSR d0)
    as (q0 & q1 & d2 & t2 & _ & _ & R2 & _).
  rewrite R2 in Hc.
  destruct (w5500_read_word_obs s SOCKET0_REGISTER Sn_TX_FSR d2)
    as (r0 & r1 & d3 & t3 & Hr0 & Hr1 & R3 & _).
  rewrite R3 in Hc. unfold ret in Hc. simpl in Hc.
  injection Hc as _ <- _ _. unfold is_byte in *. lia.
Qed.

(** The command-register wait: reads of [Sn_CR] only, and it passed
    exactly when the last of them returned 0. *)
Lemma wait_cr_clear_obs s d :
  exists pre r d' t,
    wait_cr_clear s d = ((r =? 0, tt), d', t) /\ is_byte r /\
    complete t /\ decode t = pre ++ [Read SOCKET0_REGISTER Sn_CR [r]] /\
    Forall (is_read_of SOCKET0_REGISTER Sn_CR) pre.
Proof.
  unfold wait_cr_clear.
  destruct (WAIT_OR_FAIL_inv (quiet (is_read_of SOCKET0_REGISTER Sn_CR))
              MAX_LOOP_ITERATIONS
              (fun _ : unit => bind (w5500_read_byte s SOCKET0_REGISTER Sn_CR)
                                 (fun c => ret (negb (c =? 0), tt)))
              (quiet_nil _) (quiet_app _)) with (a := tt) (d := d)
    as (a0 & d0 & t0 & c & [] & d' & t1 & Hc & [Ct0 Ft0] & Hw).
  { intros _ d0. apply only_bind; [by apply only_read_byte|].
    intros c. apply only_ret. }
  unfold bind in Hc.
  destruct (w5500_read_byte_obs s SOCKET0_REGISTER Sn_CR d0)
    as (r & d1 & t & Hr & Hrun & Ct & Ht).
  rewrite Hrun in Hc. unfold ret in Hc. simpl in Hc.
  rewrite app_nil_r in Hc. injection Hc as <- <- <-.
  exists (decode t0), r, d1, (t0 ++ t).
  rewrite Hw, negb_involutive. repeat split; try done; try apply Hr.
  - apply complete_app; done.
  - rewrite decode_app by done. by rewrite Ht.
Qed.

End Loop_facts.

(** * Receive *)

Section Receive_facts.

Context {dev : Type}.
Variable indeterminate : nat -> Z.
Implicit Types (s : ethif dev) (d : dev) (buf : list Z).

(** Nothing pending, or no stable size: the function is its first wait. *)
Lemma w5500_rx_idle buf buflen s d passed len d1 t1 :
  rx_wait_stable s d = ((passed, len), d1, t1) ->
  passed = false \/ len = 0 ->
  w5500_rx indeterminate buf buflen s d = ((O, buf), d1, t1).
Proof.
  intros Hw Hidle. unfold w5500_rx. run_step Hw.
  destruct Hidle as [-> | ->].
  - unfold ret. simpl. by rewrite app_nil_r.
  - destruct passed; unfold ret; simpl; by rewrite app_nil_r.
Qed.

(** A frame is pending: everything the function does, transaction by
    transaction. *)
Lemma w5500_rx_pending buf buflen s d len d1 t1 :
  rx_wait_stable s d = ((true, len), d1, t1) -> len <> 0 ->
  exists p0 p1 h0 h1 vals pre r d' t,
    let ptr := p0 * 256 + p1 in
    let prefix := h0 * 256 + h1 in
    let plen := payload_len_of prefix in
    let fits := negb (plen >? Z.of_nat buflen) in
    let new := u16 (ptr + prefix) in
    (is_byte p0 /\ is_byte p1 /\ is_byte h0 /\ is_byte h1 /\ is_byte r) /\
    length vals = (if fits then Z.to_nat plen else O) /\
    Forall (is_read_of SOCKET0_REGISTER Sn_CR) pre /\
    w5500_rx indeterminate buf buflen s d =
      ((if fits && (r =? 0) then Z.to_nat plen else O,
        if fits then take (length buf) vals ++ drop (Z.to_nat plen) buf
        else buf), d', t) /\
    decode t =
      decode t1
      ++ [Read SOCKET0_REGISTER Sn_RX_RD [p0; p1];
          Read SOCKET0_RX_BUFFER ptr [h0; h1]]
      ++ (if fits then [Read SOCKET0_RX_BUFFER (u16 (ptr + 2)) vals] else [])
      ++ [Write SOCKET0_REGISTER Sn_RX_RD
            [u8 (Z.shiftr new 8); u8 (Z.land new 255)];
          Write SOCKET0_REGISTER Sn_CR [Sn_CR_RECV]]
      ++ pre ++ [Read SOCKET0_REGISTER Sn_CR [r]].
Proof.
  intros Hw Hlen.
  destruct (rx_wait_stable_only s d) as [C1 _]. rewrite Hw in C1. simpl in C1.
  destruct (w5500_read_word_obs s SOCKET0_REGISTER Sn_RX_RD d1)
    as (p0 & p1 & d2 & t2 & Hp0 & Hp1 & R2 & C2 & T2).
  set (ptr := p0 * 256 + p1) in *.
  assert (Hptr : 0 <= ptr < 65536) by (unfold ptr, is_byte in *; lia).
  destruct (w5500_read_obs s SOCKET0_RX_BUFFER ptr
              [indeterminate 0%nat; indeterminate 1%nat] 2 d2)
    as (hdr & d3 & t3 & Hhl & Hhb & R3 & C3 & T3).
  destruct hdr as [|h0 [|h1 [|]]]; try discriminate.
  apply Forall_cons in Hhb as [Hh0 Hhb]. apply Forall_cons in Hhb as [Hh1 _].
  simpl in R3.
  set (prefix := h0 * 256 + h1) in *.
  set (new := u16 (ptr + prefix)).
  destruct (payload_len_of prefix >? Z.of_nat buflen) eqn:Hfit.
  - (* the frame does not fit: no payload read *)
    destruct (w5500_write_word_obs s SOCKET0_REGISTER Sn_RX_RD new d3)
      as (d4 & t4 & R4 & C4 & T4).
    destruct (w5500_write_byte_obs s SOCKET0_REGISTER Sn_CR Sn_CR_RECV d4)
      as (d5 & t5 & R5 & C5 & T5).
    destruct (wait_cr_clear_obs s d5) as (pre & r & d6 & t6 & R6 & Hr & C6 & T6 & Hpre).
    exists p0, p1, h0, h1, [], pre, r, d6,
      (t1 ++ t2 ++ t3 ++ [] ++ t4 ++ t5 ++ t6 ++ []).
    cbv zeta. fold ptr prefix new. rewrite Hfit. cbn [negb]. cbv iota.
    split; [done|]. split; [done|]. split; [done|]. split.
    + unfold w5500_rx. run_step Hw.
      destruct (len =? 0) eqn:E; [apply Z.eqb_eq in E; done|]. cbn [negb]. cbv iota.
      run_step R2. run_step R3. simpl nth.
      rewrite word_of_bytes by done. fold prefix.
      fold (payload_len_of prefix). rewrite Hfit.
      unfold bind at 1. unfold ret at 1. cbv beta iota.
      fold new. run_step R4. run_step R5. run_step R6.
      unfold ret. by destruct (r =? 0).
    + rewrite !decode_app by done.
      rewrite T2, T3, T4, T5, T6. rewrite (u16_small ptr) by done.
      simpl. by rewrite app_nil_r.
  - (* the frame fits: payload read, then the same commit *)
    destruct (w5500_read_obs s SOCKET0_RX_BUFFER (u16 (ptr + 2)) buf
                (Z.to_nat (payload_len_of prefix)) d3)
      as (vals & d3' & t3' & Hvl & Hvb & R3' & C3' & T3').
    destruct (w5500_write_word_obs s SOCKET0_REGISTER Sn_RX_RD new d3')
      as (d4 & t4 & R4 & C4 & T4).
    destruct (w5500_write_byte_obs s SOCKET0_REGISTER Sn_CR Sn_CR_RECV d4)
      as (d5 & t5 & R5 & C5 & T5).
    destruct (wait_cr_clear_obs s d5) as (pre & r & d6 & t6 & R6 & Hr & C6 & T6 & Hpre).
    exists p0, p1, h0, h1, vals, pre, r, d6,
      (t1 ++ t2 ++ t3 ++ (t3' ++ []) ++ t4 ++ t5 ++ t6 ++ []).
    cbv zeta. fold ptr prefix new. rewrite Hfit. cbn [negb]. cbv iota.
    split; [done|]. split; [done|]. split; [done|]. split.
    + unfold w5500_rx. run_step Hw.
      destruct (len =? 0) eqn:E; [apply Z.eqb_eq in E; done|]. cbn [negb]. cbv iota.
      run_step R2. run_step R3. simpl nth.
      rewrite word_of_bytes by done. fold prefix.
      fold (payload_len_of prefix). rewrite Hfit.
      unfold bind at 1. run_step R3'. unfold ret at 1. cbv beta iota.
      fold new. run_step R4. run_step R5. run_step R6.
      unfold ret. by destruct (r =? 0).
    + rewrite app_nil_r.
      rewrite !decode_app by done.
      rewrite T2, T3, T3', T4, T5, T6. rewrite (u16_small ptr) by done.
      rewrite u16_idemp.
      simpl. by rewrite app_nil_r.
Qed.

End Receive_facts.

Section Receive_theorems.

Context {dev : Type}.
Variable indeterminate : nat -> Z.
Implicit Types (s : ethif dev) (d : dev) (buf : list Z).

(** C6. When the stable received size is zero, and when no stable size is
    obtained within the bounded wait, [w5500_rx] returns 0 with the
    caller's buffer as it was, and its whole bus activity is that of the
    size wait: every transaction is a read of exactly two bytes that starts
    at [Sn_RX_RSR] in the socket register block, so it covers offsets 0x26
    and 0x27 and nothing else.  There is no read of the RX read pointer
    (0x28, 0x29), no RX buffer read, no pointer write, no command. *)
Theorem w5500_rx_idle_touches_only_rsr buf buflen s d passed len d1 t1 :
  rx_wait_stable s d = ((passed, len), d1, t1) ->
  passed = false \/ len = 0 ->
  w5500_rx indeterminate buf buflen s d = ((O, buf), d1, t1) /\
  Forall (fun a => exists r0 r1, a = Read SOCKET0_REGISTER Sn_RX_RSR [r0; r1])
         (decode t1).
Proof.
  intros Hw Hidle. split; [by apply w5500_rx_idle with passed len|].
  pose proof (rx_wait_stable_word_reads s d) as [_ HF]. by rewrite Hw in HF.
Qed.

(** C2. When a frame is pending (stable size non-zero), [w5500_rx] reads
    the RX read pointer [ptr] and the 2-byte prefix at [ptr], then writes
    [Sn_RX_RD] with [(ptr + prefix) mod 65536], most significant byte
    first, and only then issues RECV and waits for [Sn_CR]; after the
    pointer write nothing but that command and reads of [Sn_CR] follows,
    whether the wait passes (the last read [c] is 0) or not.  The payload
    length is [prefix - 2] for [prefix >= 2] and 0 below; it is the value
    returned when it fits the buffer and the wait passed, else 0 is
    returned. *)
Theorem w5500_rx_advances_by_prefix buf buflen s d len d1 t1 :
  rx_wait_stable s d = ((true, len), d1, t1) -> len <> 0 ->
  exists p0 p1 h0 h1 payload_read acks c,
    let ptr := p0 * 256 + p1 in
    let prefix := h0 * 256 + h1 in
    let new := (ptr + prefix) mod 65536 in
    decode (emitted (w5500_rx indeterminate buf buflen s d)) =
      decode t1
      ++ [Read SOCKET0_REGISTER Sn_RX_RD [p0; p1];
          Read SOCKET0_RX_BUFFER ptr [h0; h1]]
      ++ payload_read
      ++ [Write SOCKET0_REGISTER Sn_RX_RD [new / 256; new mod 256];
          Write SOCKET0_REGISTER Sn_CR [Sn_CR_RECV]]
      ++ acks ++ [Read SOCKET0_REGISTER Sn_CR [c]] /\
    Forall is_byte [p0; p1; h0; h1] /\
    Forall (is_read_of SOCKET0_REGISTER Sn_CR) acks /\
    Forall (is_read_of SOCKET0_RX_BUFFER (u16 (ptr + 2))) payload_read /\
    (result (w5500_rx indeterminate buf buflen s d)).1 =
      (if negb (payload_len_of prefix >? Z.of_nat buflen) && (c =? 0)
       then Z.to_nat (payload_len_of prefix) else O) /\
    (2 <= prefix -> payload_len_of prefix = prefix - 2) /\
    (prefix < 2 -> payload_len_of prefix = 0).
Proof.
  intros Hw Hlen.
  destruct (w5500_rx_pending indeterminate buf buflen s d len d1 t1 Hw Hlen)
    as (p0 & p1 & h0 & h1 & vals & pre & r & d' & t & H).
  cbv zeta in H. destruct H as (Hb & Hvl & Hpre & Hrun & Hdec).
  set (prefix := h0 * 256 + h1) in *.
  set (fits := negb (payload_len_of prefix >? Z.of_nat buflen)) in *.
  exists p0, p1, h0, h1,
    (if fits then [Read SOCKET0_RX_BUFFER (u16 (p0 * 256 + p1 + 2)) vals] else []),
    pre, r.
  cbv zeta. fold prefix. rewrite Hrun. unfold emitted, result. simpl fst. simpl snd.
  split; [|split; [|split; [|split; [|split; [|split]]]]].
  - rewrite Hdec. unfold u16 at 2 3.
    set (new := (p0 * 256 + p1 + prefix) mod 65536).
    assert (Hn : 0 <= new < 65536) by (apply Z.mod_pos_bound; lia).
    assert (u8 (Z.shiftr new 8) = new / 256) as ->.
    { unfold u8. rewrite Z.shiftr_div_pow2 by lia. change (2 ^ 8) with 256.
      apply Z.mod_small. split; [apply Z.div_pos; lia|].
      apply Z.div_lt_upper_bound; lia. }
    assert (u8 (Z.land new 255) = new mod 256) as ->.
    { unfold u8. change 255 with (Z.ones 8). rewrite Z.land_ones by lia.
      change (2 ^ 8) with 256. by rewrite Z.mod_mod by lia. }
    done.
  - destruct Hb as (? & ? & ? & ? & _). by repeat apply Forall_cons_2.
  - done.
  - destruct fits; by repeat constructor.
  - done.
  - intros Hp. unfold payload_len_of. destruct (Z.gtb_spec prefix 2); lia.
  - intros Hp. unfold payload_len_of. destruct (Z.gtb_spec prefix 2); lia.
Qed.

(** C3. [w5500_rx] never returns more than [buflen], leaves every buffer
    position from [buflen] on as it was, and reads a payload from the ring
    only when it fits: an oversized frame gives 0 and an untouched buffer,
    its prefix is still consumed (the pointer write and RECV follow the
    prefix read directly), and no part of it is read. *)
Theorem w5500_rx_within_capacity buf buflen s d :
  let r := w5500_rx indeterminate buf buflen s d in
  ((result r).1 <= buflen)%nat /\
  length (result r).2 = length buf /\
  drop buflen (result r).2 = drop buflen buf /\
  forall len d1 t1,
    rx_wait_stable s d = ((true, len), d1, t1) -> len <> 0 ->
    exists p0 p1 h0 h1 payload_read acks,
      let ptr := p0 * 256 + p1 in
      let prefix := h0 * 256 + h1 in
      let new := u16 (ptr + prefix) in
      decode (emitted r) =
        decode t1
        ++ [Read SOCKET0_REGISTER Sn_RX_RD [p0; p1];
            Read SOCKET0_RX_BUFFER ptr [h0; h1]]
        ++ payload_read
        ++ [Write SOCKET0_REGISTER Sn_RX_RD
              [u8 (Z.shiftr new 8); u8 (Z.land new 255)];
            Write SOCKET0_REGISTER Sn_CR [Sn_CR_RECV]]
        ++ acks /\
      Forall (is_read_of SOCKET0_REGISTER Sn_CR) acks /\
      (payload_len_of prefix > Z.of_nat buflen ->
         payload_read = [] /\ result r = (O, buf)) /\
      (payload_len_of prefix <= Z.of_nat buflen ->
         exists vals,
           payload_read = [Read SOCKET0_RX_BUFFER (u16 (ptr + 2)) vals] /\
           length vals = Z.to_nat (payload_len_of prefix) /\
           (result r).2 = take (length buf) vals
                          ++ drop (Z.to_nat (payload_len_of prefix)) buf).
Proof.
  intros r.
  assert (Hgen : forall len d1 t1,
    rx_wait_stable s d = ((true, len), d1, t1) -> len <> 0 ->
    ((result r).1 <= buflen)%nat /\ length (result r).2 = length buf /\
    drop buflen (result r).2 = drop buflen buf /\
    exists p0 p1 h0 h1 payload_read acks,
      let ptr := p0 * 256 + p1 in
      let prefix := h0 * 256 + h1 in
      let new := u16 (ptr + prefix) in
      decode (emitted r) =
        decode t1
        ++ [Read SOCKET0_REGISTER Sn_RX_RD [p0; p1];
            Read SOCKET0_RX_BUFFER ptr [h0; h1]]
        ++ payload_read
        ++ [Write SOCKET0_REGISTER Sn_RX_RD
              [u8 (Z.shiftr new 8); u8 (Z.land new 255)];
            Write SOCKET0_REGISTER Sn_CR [Sn_CR_RECV]]
        ++ acks /\
      Forall (is_read_of SOCKET0_REGISTER Sn_CR) acks /\
      (payload_len_of prefix > Z.of_nat buflen ->
         payload_read = [] /\ result r = (O, buf)) /\
      (payload_len_of prefix <= Z.of_nat buflen ->
         exists vals,
           payload_read = [Read SOCKET0_RX_BUFFER (u16 (ptr + 2)) vals] /\
           length vals = Z.to_nat (payload_len_of prefix) /\
           (result r).2 = take (length buf) vals
                          ++ drop (Z.to_nat (payload_len_of prefix)) buf)).
  { intros len d1 t1 Hw Hlen.
    destruct (w5500_rx_pending indeterminate buf buflen s d len d1 t1 Hw Hlen)
      as (p0 & p1 & h0 & h1 & vals & pre & c & d' & t & H).
    cbv zeta in H. destruct H as (Hb & Hvl & Hpre & Hrun & Hdec).
    set (prefix := h0 * 256 + h1) in *.
    assert (Hpl : 0 <= payload_len_of prefix).
    { unfold payload_len_of. destruct (Z.gtb_spec prefix 2); lia. }
    subst r. rewrite Hrun. unfold result, emitted. simpl fst. simpl snd.
    destruct (payload_len_of prefix >? Z.of_nat buflen) eqn:Hfit; cbn [negb andb] in *.
    - rewrite Z.gtb_ltb in Hfit. apply Z.ltb_lt in Hfit.
      split; [lia|]. split; [done|]. split; [done|].
      exists p0, p1, h0, h1, [], (pre ++ [Read SOCKET0_REGISTER Sn_CR [c]]).
      cbv zeta. fold prefix. split; [done|]. split.
      { apply Forall_app. split; [done|]. by repeat constructor. }
      split; [done|]. intros ?. lia.
    - rewrite Z.gtb_ltb in Hfit. apply Z.ltb_ge in Hfit.
      split; [destruct (c =? 0); lia|].
      split.
      { rewrite length_app, length_take, length_drop. lia. }
      split.
      { rewrite drop_app, length_take, drop_drop.
        rewrite (drop_ge (take _ _)) by (rewrite length_take; lia).
        simpl.
        destruct (decide (length buf <= Z.to_nat (payload_len_of prefix))%nat).
        - rewrite !drop_ge by lia. done.
        - f_equal. lia. }
      exists p0, p1, h0, h1,
        [Read SOCKET0_RX_BUFFER (u16 (p0 * 256 + p1 + 2)) vals],
        (pre ++ [Read SOCKET0_REGISTER Sn_CR [c]]).
      cbv zeta. fold prefix. split; [done|]. split.
      { apply Forall_app. split; [done|]. by repeat constructor. }
      split; [intros ?; lia|]. intros _. by exists vals. }
  destruct (rx_wait_stable s d) as [[[passed len] d1] t1] eqn:Hw.
  destruct (decide (passed = true /\ len <> 0)) as [[-> Hlen]|Hidle].
  - destruct (Hgen len d1 t1 eq_refl Hlen) as (H1 & H2 & H3 & _).
    split; [done|]. split; [done|]. split; [done|].
    intros len' d1' t1' E. injection E as <- <- <-. intros Hl.
    by destruct (Hgen len d1 t1 eq_refl Hl) as (_ & _ & _ & H4).
  - assert (passed = false \/ len = 0) as Hor.
    { destruct passed; [|by left]. right.
      destruct (decide (len = 0)); [done|]. exfalso. by apply Hidle. }
    subst r. rewrite (w5500_rx_idle indeterminate buf buflen s d _ _ _ _ Hw Hor).
    unfold result. simpl. split; [lia|]. split; [done|]. split; [done|].
    intros len' d1' t1' E. injection E as -> <- <- <-. intros Hl.
    destruct Hor; done.
Qed.

End Receive_theorems.

(** ** The receive theorems at concrete chips *)

Lemma w5500_rx_idle_touches_only_rsr_witness :
  rx_wait_stable (scripted None) [] =
    ((true, 0), [], emitted (rx_wait_stable (scripted None) [])) /\
  w5500_rx no_junk [1; 2; 3] 3 (scripted None) [] =
    ((O, [1; 2; 3]), [], emitted (rx_wait_stable (scripted None) [])).
Proof.
  assert (H : rx_wait_stable (scripted None) [] =
              ((true, 0), [], emitted (rx_wait_stable (scripted None) [])))
    by (vm_compute; reflexivity).
  split; [exact H|].
  exact (proj1 (w5500_rx_idle_touches_only_rsr no_junk [1; 2; 3] 3
                  (scripted None) [] true 0 [] _ H (or_intror eq_refl))).
Defined.

(** The other idle case: on the counting chip the two size reads never
    agree, the wait gives up after 1001 attempts and nothing else is done. *)
Example w5500_rx_never_stable :
  result (w5500_rx no_junk [1; 2; 3] 3 counting 0) = (O, [1; 2; 3]) /\
  decode (emitted (w5500_rx no_junk [1; 2; 3] 3 counting 0)) =
    flat_map (fun k => [Read SOCKET0_REGISTER Sn_RX_RSR [u8 (10 * k + 3); u8 (10 * k + 4)];
                        Read SOCKET0_REGISTER Sn_RX_RSR [u8 (10 * k + 8); u8 (10 * k + 9)]])
             (map Z.of_nat (seq 0 1001)).
Proof. split; vm_compute; reflexivity. Qed.

Lemma w5500_rx_advances_by_prefix_witness :
  rx_wait_stable (scripted None) rx_script =
    ((true, 6), final (rx_wait_stable (scripted None) rx_script),
     emitted (rx_wait_stable (scripted None) rx_script)) /\
  6 <> 0 /\
  exists pre w post,
    decode (emitted (w5500_rx no_junk [0; 0; 0; 0; 0; 0; 0; 0] 8
                       (scripted None) rx_script)) =
    pre ++ Write SOCKET0_REGISTER Sn_RX_RD w
        :: Write SOCKET0_REGISTER Sn_CR [Sn_CR_RECV] :: post.
Proof.
  assert (H : rx_wait_stable (scripted None) rx_script =
    ((true, 6), final (rx_wait_stable (scripted None) rx_script),
     emitted (rx_wait_stable (scripted None) rx_script)))
    by (vm_compute; reflexivity).
  assert (H6 : 6 <> 0) by lia.
  split; [exact H|]. split; [exact H6|].
  destruct (w5500_rx_advances_by_prefix no_junk [0; 0; 0; 0; 0; 0; 0; 0] 8
              (scripted None) rx_script 6 _ _ H H6)
    as (p0 & p1 & h0 & h1 & payload_read & acks & c & Hdec & _).
  rewrite Hdec.
  exists (decode (emitted (rx_wait_stable (scripted None) rx_script))
          ++ [Read SOCKET0_REGISTER Sn_RX_RD [p0; p1];
              Read SOCKET0_RX_BUFFER (p0 * 256 + p1) [h0; h1]] ++ payload_read).
  eexists _, (acks ++ [Read SOCKET0_REGISTER Sn_CR [c]]).
  rewrite <- !app_assoc. reflexivity.
Defined.

Example w5500_rx_delivers_frame :
  result (w5500_rx no_junk [0; 0; 0; 0; 0; 0; 0; 0] 8 (scripted None) rx_script)
    = (4%nat, [0xDE; 0xAD; 0xBE; 0xEF; 0; 0; 0; 0]) /\
  decode (emitted (w5500_rx no_junk [0; 0; 0; 0; 0; 0; 0; 0] 8
                     (scripted None) rx_script)) =
    [ Read SOCKET0_REGISTER Sn_RX_RSR [0; 6];
      Read SOCKET0_REGISTER Sn_RX_RSR [0; 6];
      Read SOCKET0_REGISTER Sn_RX_RD [0x12; 0x34];
      Read SOCKET0_RX_BUFFER 0x1234 [0; 6];
      Read SOCKET0_RX_BUFFER 0x1236 [0xDE; 0xAD; 0xBE; 0xEF];
      Write SOCKET0_REGISTER Sn_RX_RD [0x12; 0x3A];
      Write SOCKET0_REGISTER Sn_CR [Sn_CR_RECV];
      Read SOCKET0_REGISTER Sn_CR [0] ].
Proof. split; vm_compute; reflexivity. Qed.

(** The same frame at ring offset 0xFFFE: the payload is read from offset 0
    and the read pointer wraps to 4. *)
Example w5500_rx_pointer_wraps :
  decode (emitted (w5500_rx no_junk [0; 0; 0; 0] 4 (scripted None)
                     (answers [0; 6] ++ answers [0; 6] ++ answers [0xFF; 0xFE]
                      ++ answers [0; 6] ++ answers [0xDE; 0xAD; 0xBE; 0xEF]))) =
    [ Read SOCKET0_REGISTER Sn_RX_RSR [0; 6];
      Read SOCKET0_REGISTER Sn_RX_RSR [0; 6];
      Read SOCKET0_REGISTER Sn_RX_RD [0xFF; 0xFE];
      Read SOCKET0_RX_BUFFER 0xFFFE [0; 6];
      Read SOCKET0_RX_BUFFER 0 [0xDE; 0xAD; 0xBE; 0xEF];
      Write SOCKET0_REGISTER Sn_RX_RD [0x00; 0x04];
      Write SOCKET0_REGISTER Sn_CR [Sn_CR_RECV];
      Read SOCKET0_REGISTER Sn_CR [0] ].
Proof. vm_compute. reflexivity. Qed.

(** The same frame offered to a 3-byte buffer: skipped, nothing delivered. *)
Lemma w5500_rx_within_capacity_witness :
  rx_wait_stable (scripted None) rx_script =
    ((true, 6), final (rx_wait_stable (scripted None) rx_script),
     emitted (rx_wait_stable (scripted None) rx_script)) /\
  6 <> 0 /\
  Nat.le (result (w5500_rx no_junk [7; 7; 7] 3 (scripted None) rx_script)).1 3 /\
  exists pre w post,
    decode (emitted (w5500_rx no_junk [7; 7; 7] 3 (scripted None) rx_script)) =
    pre ++ Write SOCKET0_REGISTER Sn_RX_RD w :: post.
Proof.
  assert (H : rx_wait_stable (scripted None) rx_script =
    ((true, 6), final (rx_wait_stable (scripted None) rx_script),
     emitted (rx_wait_stable (scripted None) rx_script)))
    by (vm_compute; reflexivity).
  assert (H6 : 6 <> 0) by lia.
  split; [exact H|]. split; [exact H6|].
  destruct (w5500_rx_within_capacity no_junk [7; 7; 7] 3 (scripted None) rx_script)
    as (Hle & _ & _ & Hpend).
  split; [exact Hle|].
  destruct (Hpend 6 _ _ H H6)
    as (p0 & p1 & h0 & h1 & payload_read & acks & Hdec & _).
  rewrite Hdec.
  exists (decode (emitted (rx_wait_stable (scripted None) rx_script))
          ++ [Read SOCKET0_REGISTER Sn_RX_RD [p0; p1];
              Read SOCKET0_RX_BUFFER (p0 * 256 + p1) [h0; h1]] ++ payload_read).
  eexists _, (Write SOCKET0_REGISTER Sn_CR [Sn_CR_RECV] :: acks).
  rewrite <- !app_assoc. reflexivity.
Defined.

Example w5500_rx_skips_oversized :
  result (w5500_rx no_junk [7; 7; 7] 3 (scripted None) rx_script) = (O, [7; 7; 7]) /\
  decode (emitted (w5500_rx no_junk [7; 7; 7] 3 (scripted None) rx_script)) =
    [ Read SOCKET0_REGISTER Sn_RX_RSR [0; 6];
      Read SOCKET0_REGISTER Sn_RX_RSR [0; 6];
      Read SOCKET0_REGISTER Sn_RX_RD [0x12; 0x34];
      Read SOCKET0_RX_BUFFER 0x1234 [0; 6];
      Write SOCKET0_REGISTER Sn_RX_RD [0x12; 0x3A];
      Write SOCKET0_REGISTER Sn_CR [Sn_CR_RECV];
      Read SOCKET0_REGISTER Sn_CR [0] ].
Proof. split; vm_compute; reflexivity. Qed.

(** * Transmit *)

Section Transmit_facts.

Context {dev : Type}.
Variable indeterminate : nat -> Z.
Implicit Types (s : ethif dev) (d : dev) (buf : list Z).

Lemma w5500_read_ir_and_clear_only s :
  only (on_register SOCKET0_REGISTER Sn_IR) (w5500_read_ir_and_clear s).
Proof.
  apply only_bind; [by apply only_read_byte|]. intros r.
  apply only_bind; [|intros _; apply only_ret].
  destruct (negb (Z.land r 31 =? 0)); [by apply only_write_byte|apply only_ret].
Qed.

Lemma land_0x1F_byte r : is_byte r -> u8 (Z.land r 0x1F) = Z.land r 0x1F.
Proof.
  intros Hr. apply u8_small. change 0x1F with (Z.ones 5).
  rewrite Z.land_ones by lia.
  pose proof (Z.mod_pos_bound r (2 ^ 5)). lia.
Qed.

(** One evaluation of [w5500_read_ir_and_clear]: the register is read,
    and the flags found in its low five bits, if any, are written back. *)
Lemma w5500_read_ir_and_clear_obs s d :
  exists r d' t,
    w5500_read_ir_and_clear s d = (Z.land r 0x1F, d', t) /\ complete t /\
    decode t =
      Read SOCKET0_REGISTER Sn_IR [r]
      :: (if negb (Z.land r 0x1F =? 0)
          then [Write SOCKET0_REGISTER Sn_IR [Z.land r 0x1F]] else []).
Proof.
  destruct (w5500_read_byte_obs s SOCKET0_REGISTER Sn_IR d)
    as (r & d1 & t1 & Hr & R1 & C1 & T1).
  unfold w5500_read_ir_and_clear.
  destruct (negb (Z.land r 0x1F =? 0)) eqn:E.
  - destruct (w5500_write_byte_obs s SOCKET0_REGISTER Sn_IR (Z.land r 0x1F) d1)
      as (d2 & t2 & R2 & C2 & T2).
    exists r, d2, (t1 ++ t2 ++ []). split; [|split].
    + run_step R1. unfold bind at 1. rewrite E, R2. reflexivity.
    + rewrite app_nil_r. by apply complete_app.
    + rewrite app_nil_r, decode_app, T1, T2 by done.
      rewrite E, land_0x1F_byte by done. done.
  - exists r, d1, (t1 ++ [] ++ []). split; [|split].
    + run_step R1. unfold bind at 1. rewrite E. reflexivity.
    + by rewrite !app_nil_r.
    + simpl. by rewrite !app_nil_r, T1, E.
Qed.

(** The interrupt wait touches [Sn_IR] only.  Its last evaluation read
    [r]; the [ir] the caller goes on with is [r & 0x1F], and the wait
    passed exactly when that shows one of send-ok, timeout and
    disconnect. *)
Lemma tx_wait_ir_obs s d :
  exists irs r d' t,
    tx_wait_ir indeterminate s d =
      ((negb (Z.land (Z.land r 0x1F) IR_DONE =? 0), Z.land r 0x1F), d', t) /\
    complete t /\
    decode t =
      irs ++ Read SOCKET0_REGISTER Sn_IR [r]
      :: (if negb (Z.land r 0x1F =? 0)
          then [Write SOCKET0_REGISTER Sn_IR [Z.land r 0x1F]] else []) /\
    Forall (on_register SOCKET0_REGISTER Sn_IR) irs.
Proof.
  unfold tx_wait_ir.
  destruct (WAIT_OR_FAIL_inv (quiet (on_register SOCKET0_REGISTER Sn_IR))
              MAX_LOOP_ITERATIONS
              (fun _ : Z => bind (w5500_read_ir_and_clear s)
                 (fun ir => ret (Z.land ir IR_DONE =? 0, ir)))
              (quiet_nil _) (quiet_app _)) with (a := indeterminate 2%nat) (d := d)
    as (a0 & d0 & t0 & c & ir & d' & t1 & Hc & [C0 F0] & Hw).
  { intros _ d0. apply only_bind; [apply w5500_read_ir_and_clear_only|].
    intros c. apply only_ret. }
  destruct (w5500_read_ir_and_clear_obs s d0) as (r & d1 & t & R & C & T).
  unfold bind in Hc. rewrite R in Hc.
  unfold ret in Hc. simpl in Hc. rewrite app_nil_r in Hc.
  injection Hc as <- <- <- <-.
  exists (decode t0), r, d1, (t0 ++ t). split; [exact Hw|].
  split; [by apply complete_app|]. split; [|done].
  by rewrite decode_app, T.
Qed.

(** A value without send-ok, timeout and disconnect has in particular
    neither timeout nor disconnect: when the interrupt wait gives up, the
    test that clears [len] in [w5500_tx] does not fire. *)
Lemma ir_failed_within_done (ir : Z) :
  Z.land ir IR_DONE = 0 -> Z.land ir IR_FAILED = 0.
Proof.
  intros H. change IR_FAILED with (Z.land IR_DONE IR_FAILED).
  by rewrite Z.land_assoc, H.
Qed.

(** Too little free space, or no stable value: the function is its first
    wait. *)
Lemma w5500_tx_no_space buf buflen s d passed freesize d1 t1 :
  buflen <> O ->
  tx_wait_stable s d = ((passed, freesize), d1, t1) ->
  passed = false \/ freesize < Z.of_nat buflen ->
  w5500_tx indeterminate buf buflen s d = (O, d1, t1).
Proof.
  intros Hn Hw Hno. unfold w5500_tx.
  destruct (Nat.eqb_spec buflen 0) as [|_]; [done|].
  run_step Hw. destruct Hno as [-> | Hlt].
  - unfold ret. simpl. by rewrite app_nil_r.
  - apply Z.ltb_lt in Hlt. rewrite Hlt.
    destruct passed; unfold ret; simpl; by rewrite app_nil_r.
Qed.

(** Enough free space: everything the function does from the socket
    status check on.  [c] is the last value read from [Sn_CR] after SEND,
    [r] the last value read from [Sn_IR]; what is not reached is absent
    from the trace. *)
Lemma w5500_tx_sending buf buflen s d freesize d1 t1 :
  buflen <> O ->
  tx_wait_stable s d = ((true, freesize), d1, t1) ->
  Z.of_nat buflen <= freesize ->
  exists st p0 p1 acks c irs r d' t,
    let ptr := p0 * 256 + p1 in
    let new := u16 (ptr + Z.of_nat buflen) in
    let ir := Z.land r 0x1F in
    w5500_tx indeterminate buf buflen s d =
      (if socket_closed st then O
       else if negb (c =? 0) then O
       else if negb (Z.land ir IR_FAILED =? 0) then O else buflen,
       d', t) /\
    decode t =
      decode t1 ++ Read SOCKET0_REGISTER Sn_SR [st]
      :: (if socket_closed st then []
          else [Read SOCKET0_REGISTER Sn_TX_WR [p0; p1];
                Write SOCKET0_TX_BUFFER ptr (sent_bytes buf 0 buflen);
                Write SOCKET0_REGISTER Sn_TX_WR
                  [u8 (Z.shiftr new 8); u8 (Z.land new 255)];
                Write SOCKET0_REGISTER Sn_CR [Sn_CR_SEND]]
               ++ acks ++ [Read SOCKET0_REGISTER Sn_CR [c]]
               ++ (if c =? 0
                   then irs ++ Read SOCKET0_REGISTER Sn_IR [r]
                        :: (if negb (ir =? 0)
                            then [Write SOCKET0_REGISTER Sn_IR [ir]] else [])
                   else [])) /\
    Forall (is_read_of SOCKET0_REGISTER Sn_CR) acks /\
    Forall (on_register SOCKET0_REGISTER Sn_IR) irs.
Proof.
  intros Hn Hw Hfree.
  destruct (tx_wait_stable_only s d) as [C1 _]. rewrite Hw in C1. simpl in C1.
  destruct (w5500_read_byte_obs s SOCKET0_REGISTER Sn_SR d1)
    as (st & d2 & t2 & Hst & R2 & C2 & T2).
  assert (Hpre : w5500_tx indeterminate buf buflen s d =
    (let '(b, d0, t0) :=
       (if socket_closed st then ret O
        else
          bind (w5500_read_word s SOCKET0_REGISTER Sn_TX_WR) (fun ptr =>
          bind (w5500_write s SOCKET0_TX_BUFFER ptr buf buflen) (fun _ =>
          bind (w5500_write_word s SOCKET0_REGISTER Sn_TX_WR
                  (u16 (ptr + Z.of_nat buflen))) (fun _ =>
          bind (w5500_write_byte s SOCKET0_REGISTER Sn_CR Sn_CR_SEND) (fun _ =>
          bind (wait_cr_clear s) (fun '(passed, _) =>
            if negb passed then ret O
            else bind (tx_wait_ir indeterminate s) (fun '(passed, ir) =>
              ret (if negb (Z.land ir IR_FAILED =? 0) then O else buflen)))))))) d2
     in (b, d0, t1 ++ t2 ++ t0))).
  { unfold w5500_tx. destruct (Nat.eqb_spec buflen 0) as [|_]; [done|].
    run_step Hw. cbn [negb]. cbv iota.
    destruct (Z.ltb_spec freesize (Z.of_nat buflen)) as [|_]; [lia|].
    run_step R2. unfold IR_FAILED.
    match goal with
    | |- context [(if socket_closed st then ?x else ?y) d2] =>
        by destruct ((if socket_closed st then x else y) d2) as [[b d0] t0]
    end. }
  destruct (socket_closed st) eqn:Hclosed.
  { exists st, 0, 0, [], 0, [], 0, d2, (t1 ++ t2 ++ []).
    cbv zeta. rewrite Hclosed. split; [exact Hpre|]. split; [|split; constructor].
    rewrite app_nil_r, decode_app, T2 by done. done. }
  destruct (w5500_read_word_obs s SOCKET0_REGISTER Sn_TX_WR d2)
    as (p0 & p1 & d3 & t3 & Hp0 & Hp1 & R3 & C3 & T3).
  set (ptr := p0 * 256 + p1) in *.
  assert (Hptr : 0 <= ptr < 65536) by (unfold ptr, is_byte in *; lia).
  destruct (w5500_write_obs s SOCKET0_TX_BUFFER ptr buf buflen d3)
    as (d4 & t4 & R4 & C4 & T4).
  set (new := u16 (ptr + Z.of_nat buflen)) in *.
  destruct (w5500_write_word_obs s SOCKET0_REGISTER Sn_TX_WR new d4)
    as (d5 & t5 & R5 & C5 & T5).
  destruct (w5500_write_byte_obs s SOCKET0_REGISTER Sn_CR Sn_CR_SEND d5)
    as (d6 & t6 & R6 & C6 & T6).
  destruct (wait_cr_clear_obs s d6)
    as (acks & c & d7 & t7 & R7 & Hc & C7 & T7 & Hacks).
  destruct (tx_wait_ir_obs s d7) as (irs & r & d8 & t8 & R8 & C8 & T8 & F8).
  rewrite (u16_small ptr) in T4 by done.
  destruct (c =? 0) eqn:Hc0.
  - exists st, p0, p1, acks, c, irs, r, d8,
      (t1 ++ t2 ++ t3 ++ t4 ++ t5 ++ t6 ++ t7 ++ t8 ++ []).
    cbv zeta. fold ptr new. rewrite Hclosed, Hc0. cbn [negb]. cbv iota.
    split; [|split; [|done]].
    + rewrite Hpre. run_step R3. run_step R4. fold new. run_step R5.
      run_step R6. run_step R7. cbn [negb]. cbv iota. run_step R8.
      unfold ret. reflexivity.
    + rewrite app_nil_r. rewrite !decode_app by done.
      rewrite T2, T3, T4, T5, T6, T7, T8. simpl. by rewrite <- ?app_assoc.
  - exists st, p0, p1, acks, c, [], 0, d7,
      (t1 ++ t2 ++ t3 ++ t4 ++ t5 ++ t6 ++ t7 ++ []).
    cbv zeta. fold ptr new. rewrite Hclosed, Hc0. cbn [negb]. cbv iota.
    split; [|split; [|split; [done|constructor]]].
    + rewrite Hpre. run_step R3. run_step R4. fold new. run_step R5.
      run_step R6. run_step R7. cbn [negb]. cbv iota.
      unfold ret. reflexivity.
    + rewrite app_nil_r. rewrite !decode_app by done.
      rewrite T2, T3, T4, T5, T6, T7. simpl. by rewrite <- ?app_assoc.
Qed.

End Transmit_facts.

Section Transmit_theorems.

Context {dev : Type}.
Variable indeterminate : nat -> Z.
Implicit Types (s : ethif dev) (d : dev) (buf : list Z).

(** C4. With a stable free size [freesize]: if [freesize < buflen],
    [w5500_tx] returns 0 and its whole bus activity is the reads of
    [Sn_TX_FSR] of the size wait (so no payload write, no write of
    [Sn_TX_WR], no SEND).  If [buflen <= freesize], equality included,
    the transmit goes on to the socket status; unless the socket is
    closed it writes the payload at the write pointer, advances the
    pointer by [buflen] modulo 65536 and issues SEND, and it returns
    [buflen] when [Sn_CR] clears and the last interrupt value read has
    neither timeout nor disconnect set. *)
Theorem w5500_tx_respects_free_space buf buflen s d freesize d1 t1 :
  tx_wait_stable s d = ((true, freesize), d1, t1) ->
  (freesize < Z.of_nat buflen ->
     w5500_tx indeterminate buf buflen s d = (O, d1, t1) /\
     Forall (is_read_of SOCKET0_REGISTER Sn_TX_FSR) (decode t1)) /\
  (Z.of_nat buflen <= freesize -> buflen <> O ->
     exists st p0 p1 acks c irs r,
       let ptr := p0 * 256 + p1 in
       let new := u16 (ptr + Z.of_nat buflen) in
       let ir := Z.land r 0x1F in
       result (w5500_tx indeterminate buf buflen s d) =
         (if socket_closed st then O
          else if negb (c =? 0) then O
          else if negb (Z.land ir IR_FAILED =? 0) then O else buflen) /\
       decode (emitted (w5500_tx indeterminate buf buflen s d)) =
         decode t1 ++ Read SOCKET0_REGISTER Sn_SR [st]
         :: (if socket_closed st then []
             else [Read SOCKET0_REGISTER Sn_TX_WR [p0; p1];
                   Write SOCKET0_TX_BUFFER ptr (sent_bytes buf 0 buflen);
                   Write SOCKET0_REGISTER Sn_TX_WR
                     [u8 (Z.shiftr new 8); u8 (Z.land new 255)];
                   Write SOCKET0_REGISTER Sn_CR [Sn_CR_SEND]]
                  ++ acks ++ [Read SOCKET0_REGISTER Sn_CR [c]]
                  ++ (if c =? 0
                      then irs ++ Read SOCKET0_REGISTER Sn_IR [r]
                           :: (if negb (ir =? 0)
                               then [Write SOCKET0_REGISTER Sn_IR [ir]] else [])
                      else [])) /\
       Forall (is_read_of SOCKET0_REGISTER Sn_CR) acks /\
       Forall (on_register SOCKET0_REGISTER Sn_IR) irs).
Proof.
  intros Hw. split.
  - intros Hlt. split.
    + pose proof (tx_wait_stable_range s d _ _ _ _ Hw).
      apply w5500_tx_no_space with true freesize; [lia|done|by right].
    + pose proof (tx_wait_stable_only s d) as [_ HF]. by rewrite Hw in HF.
  - intros Hle Hn.
    destruct (w5500_tx_sending indeterminate buf buflen s d freesize d1 t1 Hn Hw Hle)
      as (st & p0 & p1 & acks & c & irs & r & d' & t & H).
    cbv zeta in H. destruct H as (Hrun & Hdec & Hacks & Hirs).
    exists st, p0, p1, acks, c, irs, r. cbv zeta.
    rewrite Hrun. unfold result, emitted. simpl fst. simpl snd. done.
Qed.

End Transmit_theorems.

(** ** The transmit theorems at concrete chips *)

(** Scenario of the specification: free space 1500, payload 1500, send-ok. *)
Example w5500_tx_exact_fit :
  result (w5500_tx no_junk (repeat 0xA5 1500) 1500 (scripted None)
            (tx_script_sendok 0x05 0xDC 1500)) = 1500%nat.
Proof. vm_compute. reflexivity. Qed.

(** One byte more than the free space: nothing but the two size reads. *)
Example w5500_tx_one_too_many :
  result (w5500_tx no_junk (repeat 0xA5 1501) 1501 (scripted None)
            (tx_script_sendok 0x05 0xDC 1501)) = O /\
  decode (emitted (w5500_tx no_junk (repeat 0xA5 1501) 1501 (scripted None)
                     (tx_script_sendok 0x05 0xDC 1501))) =
    [ Read SOCKET0_REGISTER Sn_TX_FSR [0x05; 0xDC];
      Read SOCKET0_REGISTER Sn_TX_FSR [0x05; 0xDC] ].
Proof. split; vm_compute; reflexivity. Qed.

Lemma w5500_tx_respects_free_space_witness :
  tx_wait_stable (scripted None) (tx_script_sendok 0x05 0xDC 1500) =
    ((true, 1500), final (tx_wait_stable (scripted None) (tx_script_sendok 0x05 0xDC 1500)),
     emitted (tx_wait_stable (scripted None) (tx_script_sendok 0x05 0xDC 1500))) /\
  Z.of_nat 1500 <= 1500 /\
  exists pre post,
    decode (emitted (w5500_tx no_junk (repeat 0xA5 1500) 1500 (scripted None)
                       (tx_script_sendok 0x05 0xDC 1500))) =
    pre ++ Write SOCKET0_REGISTER Sn_CR [Sn_CR_SEND] :: post.
Proof.
  assert (H : tx_wait_stable (scripted None) (tx_script_sendok 0x05 0xDC 1500) =
    ((true, 1500), final (tx_wait_stable (scripted None) (tx_script_sendok 0x05 0xDC 1500)),
     emitted (tx_wait_stable (scripted None) (tx_script_sendok 0x05 0xDC 1500))))
    by (vm_compute; reflexivity).
  assert (Hle : Z.of_nat 1500 <= 1500) by lia.
  assert (Hn : 1500%nat <> O) by lia.
  split; [exact H|]. split; [exact Hle|].
  destruct (w5500_tx_respects_free_space no_junk (repeat 0xA5 1500) 1500
              (scripted None) _ 1500 _ _ H) as [_ Hsend].
  destruct (Hsend Hle Hn) as (st & p0 & p1 & acks & c & irs & r & Hsent).
  cbv zeta in Hsent. destruct Hsent as (Hres & Hdec & _).
  rewrite w5500_tx_exact_fit in Hres.
  destruct (socket_closed st); [discriminate Hres|].
  rewrite Hdec.
  eexists (_ ++ [_; _; _; _]), _. rewrite <- app_assoc. reflexivity.
Defined.

(** C1 (the code departs from it).  A transmit of one byte reaches the wait
    on the interrupt register; the register reads 0 on each of the 1001
    evaluations, so none of send-ok, timeout and disconnect is ever seen and
    the bounded wait gives up, and [w5500_tx] still returns the full length
    1, not 0: after the failed wait only a diagnostic is printed, and [len]
    is cleared only for timeout or disconnect. *)
Theorem w5500_tx_exhausted_ir_wait_reports_sent :
  let r := w5500_tx no_junk [0xAB] 1 (scripted None) (tx_script 0x40 0x00 1) in
  result r = 1%nat /\
  decode (emitted r) =
    [ Read SOCKET0_REGISTER Sn_TX_FSR [0x40; 0x00];
      Read SOCKET0_REGISTER Sn_TX_FSR [0x40; 0x00];
      Read SOCKET0_REGISTER Sn_SR [SOCK_MACRAW];
      Read SOCKET0_REGISTER Sn_TX_WR [0; 0];
      Write SOCKET0_TX_BUFFER 0 [0xAB];
      Write SOCKET0_REGISTER Sn_TX_WR [0; 1];
      Write SOCKET0_REGISTER Sn_CR [Sn_CR_SEND];
      Read SOCKET0_REGISTER Sn_CR [0] ]
    ++ repeat (Read SOCKET0_REGISTER Sn_IR [0]) 1001 /\
  result (tx_wait_ir no_junk (scripted None) []) = (false, 0).
Proof. repeat split; vm_compute; reflexivity. Qed.

(** * Initialization *)

Section Init_facts.

Context {dev : Type}.
Implicit Types (s : ethif dev) (d : dev).

(** The reset wait: reads of [MR] only, and it passed exactly when the
    last of them had the reset bit clear. *)
Lemma wait_reset_clear_obs s d :
  exists pre m d' t,
    wait_reset_clear s d = ((Z.land m MR_RST =? 0, tt), d', t) /\
    complete t /\ decode t = pre ++ [Read COMMON_REGISTER MR [m]] /\
    Forall (is_read_of COMMON_REGISTER MR) pre.
Proof.
  unfold wait_reset_clear.
  destruct (WAIT_OR_FAIL_inv (quiet (is_read_of COMMON_REGISTER MR))
              MAX_LOOP_ITERATIONS
              (fun _ : unit => bind (w5500_read_byte s COMMON_REGISTER MR)
                                 (fun m => ret (negb (Z.land m MR_RST =? 0), tt)))
              (quiet_nil _) (quiet_app _)) with (a := tt) (d := d)
    as (a0 & d0 & t0 & c & [] & d' & t1 & Hc & [Ct0 Ft0] & Hw).
  { intros _ d0. apply only_bind; [by apply only_read_byte|].
    intros c. apply only_ret. }
  unfold bind in Hc.
  destruct (w5500_read_byte_obs s COMMON_REGISTER MR d0)
    as (r & d1 & t & Hr & Hrun & Ct & Ht).
  rewrite Hrun in Hc. unfold ret in Hc. simpl in Hc.
  rewrite app_nil_r in Hc. injection Hc as <- <- <-.
  exists (decode t0), r, d1, (t0 ++ t).
  rewrite Hw, negb_involutive. repeat split; try done.
  - apply complete_app; done.
  - rewrite decode_app by done. by rewrite Ht.
Qed.

(** The three ways [w5500_init] can end, with all it put on the bus. *)
Lemma w5500_init_cases s d :
  exists resets m,
    Forall (is_read_of COMMON_REGISTER MR) resets /\
    let reset := Write COMMON_REGISTER MR [MR_RST]
                 :: resets ++ [Read COMMON_REGISTER MR [m]] in
    (Z.land m MR_RST <> 0 /\
     result (w5500_init s d) = false /\
     decode (emitted (w5500_init s d)) = reset)
    \/
    (Z.land m MR_RST = 0 /\
     exists acks c,
       Forall (is_read_of SOCKET0_REGISTER Sn_CR) acks /\
       ((c <> 0 /\
         result (w5500_init s d) = false /\
         decode (emitted (w5500_init s d)) =
           reset ++ init_config (ethaddr s)
           ++ acks ++ [Read SOCKET0_REGISTER Sn_CR [c]])
        \/
        (c = 0 /\
         exists st,
           result (w5500_init s d) = (st =? SOCK_MACRAW) /\
           decode (emitted (w5500_init s d)) =
             reset ++ init_config (ethaddr s)
             ++ acks ++ [Read SOCKET0_REGISTER Sn_CR [c];
                         Read SOCKET0_REGISTER Sn_SR [st]]))).
Proof.
  destruct (w5500_write_byte_obs s COMMON_REGISTER MR MR_RST (end_ s d))
    as (d1 & t1 & R1 & C1 & T1).
  destruct (wait_reset_clear_obs s d1)
    as (resets & m & d2 & t2 & R2 & C2 & T2 & F2).
  exists resets, m. split; [done|]. cbv zeta.
  assert (C0 : complete ([CsDeassert] ++ t1))
    by (apply complete_app; [apply complete_deassert|done]).
  destruct (Z.land m MR_RST =? 0) eqn:Hm.
  2:{ left. split; [by apply Z.eqb_neq in Hm|].
      assert (Hrun : w5500_init s d = (false, d2, [CsDeassert] ++ t1 ++ t2 ++ [])).
      { unfold w5500_init. unfold bind at 1. unfold do_end at 1.
        run_step R1. run_step R2. done. }
      rewrite Hrun. unfold result, emitted. cbn [fst snd].
      split; [done|]. rewrite app_nil_r.
      rewrite (decode_app [CsDeassert]) by apply complete_deassert.
      rewrite decode_app, T1, T2 by done. done. }
  right. split; [by apply Z.eqb_eq in Hm|].
  destruct (w5500_write_byte_obs s COMMON_REGISTER PHYCFGR 0 d2)
    as (d3 & t3 & R3 & C3 & T3).
  destruct (w5500_write_byte_obs s COMMON_REGISTER PHYCFGR
              (Z.lor (Z.lor (Z.lnot PHYCFGR_RST) PHYCFGR_OPMD) PHYCFGR_OPMDC_ALLA) d3)
    as (d4 & t4 & R4 & C4 & T4).
  destruct (w5500_write_byte_obs s SOCKET0_REGISTER Sn_RXBUF_SIZE 16 d4)
    as (d5 & t5 & R5 & C5 & T5).
  destruct (w5500_write_byte_obs s SOCKET0_REGISTER Sn_TXBUF_SIZE 16 d5)
    as (d6 & t6 & R6 & C6 & T6).
  assert (exists d7 t7,
    (match ethaddr s with
     | Some addr =>
         bind (w5500_write s COMMON_REGISTER SHAR addr 6) (fun _ =>
           w5500_write_byte s SOCKET0_REGISTER Sn_MR (Z.lor Sn_MR_MFEN Sn_MR_MACRAW))
     | None => w5500_write_byte s SOCKET0_REGISTER Sn_MR Sn_MR_MACRAW
     end) d6 = (tt, d7, t7) /\ complete t7 /\
    decode t7 = match ethaddr s with
                | Some addr => [ Write COMMON_REGISTER SHAR (sent_bytes addr 0 6);
                                 Write SOCKET0_REGISTER Sn_MR [0x84] ]
                | None => [ Write SOCKET0_REGISTER Sn_MR [Sn_MR_MACRAW] ]
                end) as (d7 & t7 & R7 & C7 & T7).
  { destruct (ethaddr s) as [addr|].
    - destruct (w5500_write_obs s COMMON_REGISTER SHAR addr 6 d6)
        as (da & ta & Ra & Ca & Ta).
      destruct (w5500_write_byte_obs s SOCKET0_REGISTER Sn_MR
                  (Z.lor Sn_MR_MFEN Sn_MR_MACRAW) da)
        as (db & tb & Rb & Cb & Tb).
      exists db, (ta ++ tb). split; [|split].
      + run_step Ra. by rewrite Rb.
      + by apply complete_app.
      + by rewrite decode_app, Ta, Tb.
    - destruct (w5500_write_byte_obs s SOCKET0_REGISTER Sn_MR Sn_MR_MACRAW d6)
        as (db & tb & Rb & Cb & Tb).
      by exists db, tb. }
  destruct (w5500_write_byte_obs s SOCKET0_REGISTER Sn_CR Sn_CR_OPEN d7)
    as (d8 & t8 & R8 & C8 & T8).
  destruct (wait_cr_clear_obs s d8)
    as (acks & c & d9 & t9 & R9 & Hc & C9 & T9 & F9).
  exists acks, c. split; [done|].
  assert (Hcfg : decode t3 ++ decode t4 ++ decode t5 ++ decode t6
                 ++ decode t7 ++ decode t8 = init_config (ethaddr s)).
  { rewrite T3, T4, T5, T6, T7, T8. unfold init_config.
    by destruct (ethaddr s). }
  destruct (c =? 0) eqn:Hc0.
  - right. apply Z.eqb_eq in Hc0. split; [done|].
    destruct (w5500_read_byte_obs s SOCKET0_REGISTER Sn_SR d9)
      as (st & d10 & t10 & Hst & R10 & C10 & T10).
    exists st.
    assert (Hrun : w5500_init s d =
              (st =? SOCK_MACRAW, d10,
               [CsDeassert] ++ t1 ++ t2 ++ t3 ++ t4 ++ t5 ++ t6 ++ t7 ++ t8
               ++ t9 ++ t10 ++ [])).
    { unfold w5500_init. unfold bind at 1. unfold do_end at 1.
      run_step R1. run_step R2. cbn [negb]. cbv iota.
      run_step R3. run_step R4. run_step R5. run_step R6.
      unfold bind at 1. rewrite R7. cbv beta iota.
      run_step R8. run_step R9. cbn [negb]. cbv iota.
      run_step R10. done. }
    rewrite Hrun. unfold result, emitted. cbn [fst snd].
    split; [done|]. rewrite app_nil_r.
    rewrite (decode_app [CsDeassert]) by apply complete_deassert.
    rewrite !decode_app by done.
    rewrite T1, T2, T9, T10, <- Hcfg. simpl. by rewrite <- ?app_assoc.
  - left. split; [by apply Z.eqb_neq in Hc0|].
    assert (Hrun : w5500_init s d =
              (false, d9,
               [CsDeassert] ++ t1 ++ t2 ++ t3 ++ t4 ++ t5 ++ t6 ++ t7 ++ t8
               ++ t9 ++ [])).
    { unfold w5500_init. unfold bind at 1. unfold do_end at 1.
      run_step R1. run_step R2. cbn [negb]. cbv iota.
      run_step R3. run_step R4. run_step R5. run_step R6.
      unfold bind at 1. rewrite R7. cbv beta iota.
      run_step R8. run_step R9. done. }
    rewrite Hrun. unfold result, emitted. cbn [fst snd].
    split; [done|]. rewrite app_nil_r.
    rewrite (decode_app [CsDeassert]) by apply complete_deassert.
    rewrite !decode_app by done.
    rewrite T1, T2, T9, <- Hcfg. simpl. by rewrite <- ?app_assoc.
Qed.

End Init_facts.

Lemma last_two {A} (l : list A) (a b : A) : last (l ++ [a; b]) = Some b.
Proof.
  change [a; b] with ([a] ++ [b]). rewrite app_assoc. apply last_snoc.
Qed.

Section Init_theorems.

Context {dev : Type}.
Implicit Types (s : ethif dev) (d : dev).

(** C5. [w5500_init] returns true exactly when its bus activity ends with
    the open command, reads of [Sn_CR] the last of which returns 0 (the
    command register cleared within the bounded wait), and then one read
    of [Sn_SR] that returns 0x42.  So a final status other than 0x42 gives
    false although no wait ran out. *)
Theorem w5500_init_true_iff_macraw s d :
  result (w5500_init s d) = true <->
  exists pre acks,
    Forall (is_read_of SOCKET0_REGISTER Sn_CR) acks /\
    decode (emitted (w5500_init s d)) =
      pre ++ Write SOCKET0_REGISTER Sn_CR [Sn_CR_OPEN]
      :: acks ++ [Read SOCKET0_REGISTER Sn_CR [0];
                  Read SOCKET0_REGISTER Sn_SR [SOCK_MACRAW]].
Proof.
  destruct (w5500_init_cases s d) as (resets & m & Fr & Hcases).
  cbv zeta in Hcases. split.
  - intros Htrue.
    destruct Hcases as [(_ & Hres & _)|(_ & acks & c & Fa & [(_ & Hres & _)|(-> & st & Hres & Hdec)])];
      try (rewrite Hres in Htrue; discriminate Htrue).
    rewrite Hres in Htrue. apply Z.eqb_eq in Htrue. subst st.
    exists ((Write COMMON_REGISTER MR [MR_RST]
             :: resets ++ [Read COMMON_REGISTER MR [m]])
            ++ removelast (init_config (ethaddr s))), acks.
    split; [done|]. rewrite Hdec. unfold init_config.
    by destruct (ethaddr s); simpl; rewrite <- ?app_assoc.
  - intros (pre & acks' & _ & Hend).
    assert (Hlast : last (decode (emitted (w5500_init s d)))
                    = Some (Read SOCKET0_REGISTER Sn_SR [SOCK_MACRAW])).
    { rewrite Hend. rewrite app_comm_cons, app_assoc. apply last_two. }
    destruct Hcases as [(_ & _ & Hdec)|(_ & acks & c & Fa & [(_ & _ & Hdec)|(-> & st & Hres & Hdec)])].
    + rewrite Hdec, app_comm_cons, last_snoc in Hlast. discriminate Hlast.
    + rewrite Hdec, !app_assoc, last_snoc in Hlast. discriminate Hlast.
    + rewrite Hdec, !app_assoc, last_two in Hlast.
      injection Hlast as ->. rewrite Hres. done.
Qed.

End Init_theorems.

Lemma w5500_init_true_iff_macraw_witness :
  result (w5500_init (scripted None) (init_script SOCK_MACRAW)) = true.
Proof.
  apply w5500_init_true_iff_macraw.
  exists [ Write COMMON_REGISTER MR [MR_RST]; Read COMMON_REGISTER MR [0];
           Write COMMON_REGISTER PHYCFGR [0]; Write COMMON_REGISTER PHYCFGR [0xF8];
           Write SOCKET0_REGISTER Sn_RXBUF_SIZE [16];
           Write SOCKET0_REGISTER Sn_TXBUF_SIZE [16];
           Write SOCKET0_REGISTER Sn_MR [Sn_MR_MACRAW] ], [].
  split; [constructor|]. vm_compute. reflexivity.
Defined.

(** The scenario of the specification: every wait passes at its first
    attempt, the status read at the end is [SOCK_INIT] (0x13), and
    initialization fails. *)
Example w5500_init_wrong_status :
  result (w5500_init (scripted None) (init_script 0x13)) = false /\
  decode (emitted (w5500_init (scripted None) (init_script 0x13))) =
    [ Write COMMON_REGISTER MR [MR_RST]; Read COMMON_REGISTER MR [0];
      Write COMMON_REGISTER PHYCFGR [0]; Write COMMON_REGISTER PHYCFGR [0xF8];
      Write SOCKET0_REGISTER Sn_RXBUF_SIZE [16];
      Write SOCKET0_REGISTER Sn_TXBUF_SIZE [16];
      Write SOCKET0_REGISTER Sn_MR [Sn_MR_MACRAW];
      Write SOCKET0_REGISTER Sn_CR [Sn_CR_OPEN];
      Read SOCKET0_REGISTER Sn_CR [0];
      Read SOCKET0_REGISTER Sn_SR [0x13] ].
Proof. split; vm_compute; reflexivity. Qed.

(** With a MAC address the filter bit is set and the address is written. *)
Example w5500_init_with_mac :
  decode (emitted (w5500_init (scripted (Some [2; 0; 0; 0xAA; 0xBB; 0xCC]))
                     (repeat 0 45 ++ answers [SOCK_MACRAW]))) =
    [ Write COMMON_REGISTER MR [MR_RST]; Read COMMON_REGISTER MR [0];
      Write COMMON_REGISTER PHYCFGR [0]; Write COMMON_REGISTER PHYCFGR [0xF8];
      Write SOCKET0_REGISTER Sn_RXBUF_SIZE [16];
      Write SOCKET0_REGISTER Sn_TXBUF_SIZE [16];
      Write COMMON_REGISTER SHAR [2; 0; 0; 0xAA; 0xBB; 0xCC];
      Write SOCKET0_REGISTER Sn_MR [0x84];
      Write SOCKET0_REGISTER Sn_CR [Sn_CR_OPEN];
      Read SOCKET0_REGISTER Sn_CR [0];
      Read SOCKET0_REGISTER Sn_SR [SOCK_MACRAW] ].
Proof. vm_compute. reflexivity. Qed.

(** * The register transaction on the wire *)

Section Bus_theorems.

Context {dev : Type}.
Implicit Types (s : ethif dev) (d : dev) (buf : list Z).

(** C8. One call of [w5500_spi_io] puts exactly this on the bus: chip
    select asserted; the address high byte, the address low byte and the
    control byte [(block << 3) | (wr ? 4 : 0)], whose bit 2 is set exactly
    for a write and whose upper five bits are the block; then [len]
    payload exchanges, the [i]-th one sending [buf[i]]; chip select
    deasserted.  On a write the buffer is returned as it was; on a read
    its first [len] positions hold the bytes answered, in order.  The
    function has no error result. *)
Theorem w5500_spi_io_bus_sequence s (block addr : Z) (wr : bool) buf (len : nat) d :
  let ctl := u8 (Z.lor (Z.shiftl block 3) (if wr then 4 else 0)) in
  exists h1 h2 h3 rs,
    length rs = len /\
    emitted (w5500_spi_io s block addr wr buf len d) =
      [ CsAssert;
        Xfer (u8 (Z.shiftr addr 8)) h1;
        Xfer (u8 (Z.land addr 255)) h2;
        Xfer ctl h3 ]
      ++ xfers (sent_bytes buf 0 len) rs ++ [CsDeassert] /\
    length (xfers (sent_bytes buf 0 len) rs) = len /\
    u8 (Z.shiftr addr 8) * 256 + u8 (Z.land addr 255) = addr mod 65536 /\
    Z.testbit ctl 2 = wr /\
    Z.shiftr ctl 3 = block mod 32 /\
    result (w5500_spi_io s block addr wr buf len d) =
      (if wr then buf else take (length buf) rs ++ drop len buf).
Proof.
  intros ctl.
  destruct (w5500_spi_io_run s block addr wr buf len d)
    as (hs & rs & d' & Hhs & Hrs & _ & Hrun).
  destruct hs as [|h1 [|h2 [|h3 [|]]]]; try discriminate.
  exists h1, h2, h3, rs. rewrite Hrun. unfold emitted, result. cbn [fst snd].
  split; [done|]. split.
  { unfold frame, exchanges. rewrite map_app. by rewrite <- app_assoc. }
  split.
  { unfold xfers, sent_bytes.
    rewrite length_map, length_zip, length_map, length_seq. lia. }
  split; [apply hi_lo_word|]. split; [apply ctl_byte_wr|].
  split; [apply ctl_byte_block|done].
Qed.

End Bus_theorems.

(** A write of three bytes to the TX buffer at 0x1234 and a read of two
    bytes from the socket registers, byte for byte. *)
Example w5500_spi_io_write_on_the_wire :
  w5500_spi_io (scripted None) SOCKET0_TX_BUFFER 0x1234 true [0xDE; 0xAD; 0xBF] 3
    [9; 9; 9; 9; 9; 9; 9] =
  ([0xDE; 0xAD; 0xBF], [9],
   [ CsAssert; Xfer 0x12 9; Xfer 0x34 9; Xfer 0x14 9;
     Xfer 0xDE 9; Xfer 0xAD 9; Xfer 0xBF 9; CsDeassert ]).
Proof. vm_compute. reflexivity. Qed.

Example w5500_spi_io_read_on_the_wire :
  w5500_spi_io (scripted None) SOCKET0_REGISTER Sn_RX_RSR false [7; 8; 9] 2
    [1; 2; 3; 4; 5; 6] =
  ([4; 5; 9], [6],
   [ CsAssert; Xfer 0x00 1; Xfer 0x26 2; Xfer 0x08 3;
     Xfer 7 4; Xfer 8 5; CsDeassert ]).
Proof. vm_compute. reflexivity. Qed.

(** * The output callback *)

Section Output_theorems.

Context {dev : Type}.
Variable indeterminate : nat -> Z.
Implicit Types (s : ethif dev) (d : dev).

(** C9. [ethif_output] reports [ERR_OK] exactly when the number of bytes
    the driver says it sent equals the total length of the frame.  For a
    frame of total length 0, [w5500_tx] returns 0 without touching the bus,
    0 equals 0, and [ethif_output] returns [ERR_OK]: all that happens is the
    critical section being entered and left, and nothing is transmitted. *)
Theorem ethif_output_zero_length_ok s (pl : list Z) d :
  (forall (driver : ethif_driver) (p : pbuf),
     result (ethif_output driver s p d) =
       if Z.of_nat (result (tx driver (payload p) (Z.to_nat (u16 (tot_len p))) s d))
          =? u16 (tot_len p)
       then ERR_OK else ERR_IF) /\
  w5500_tx indeterminate pl 0 s d = (O, d, []) /\
  ethif_output (ethif_driver_w5500 indeterminate) s
    {| payload := pl; tot_len := 0 |} d
  = (ERR_OK, d, [IrqProtect; IrqUnprotect]).
Proof.
  split; [|split; reflexivity].
  intros driver p. unfold ethif_output, bind, sys_arch_protect, sys_arch_unprotect.
  destruct (tx driver (payload p) (Z.to_nat (u16 (tot_len p))) s d)
    as [[sent d'] t].
  unfold result. cbn [fst].
  by destruct (Z.of_nat sent =? u16 (tot_len p)).
Qed.

End Output_theorems.

(** A frame that the chip has no room for is reported as [ERR_IF]. *)
Example ethif_output_no_room :
  result (ethif_output (ethif_driver_w5500 no_junk) (scripted None)
            {| payload := [1; 2; 3]; tot_len := 3 |}
            (tx_script 0x00 0x02 3)) = ERR_IF.
Proof. vm_compute. reflexivity. Qed.

(** * Termination and the cost of waiting *)

Section Termination_facts.

Context {dev : Type}.
Implicit Types (s : ethif dev) (d : dev).

Lemma counted_run {A} (condition : A -> M dev (bool * A)) (k : nat) a d :
  counted condition (k, a) d =
  let '((c, a'), d1, t1) := condition a d in ((c, (S k, a')), d1, t1).
Proof.
  unfold counted, bind. destruct (condition a d) as [[[c a'] d1] t1].
  unfold ret. by rewrite app_nil_r.
Qed.

Lemma WAIT_OR_FAIL_counted {A} (n : nat) (condition : A -> M dev (bool * A))
    (k : nat) a d :
  exists evals : nat,
    (1 <= evals <= S n)%nat /\
    let '((passed, a'), d', t) := WAIT_OR_FAIL n condition a d in
    WAIT_OR_FAIL n (counted condition) (k, a) d
      = ((passed, ((k + evals)%nat, a')), d', t) /\
    (passed = true \/ evals = S n).
Proof.
  revert k a d. induction n as [|n IH]; intros k a d.
  - exists 1%nat. split; [lia|].
    rewrite !WAIT_OR_FAIL_eq. unfold bind. rewrite counted_run.
    destruct (condition a d) as [[[c a'] d1] t1].
    destruct c; unfold ret; simpl; rewrite Nat.add_1_r; auto.
  - rewrite !WAIT_OR_FAIL_eq. unfold bind. rewrite counted_run.
    destruct (condition a d) as [[[c a'] d1] t1].
    destruct c.
    + destruct (IH (S k) a' d1) as (evals & Hev & H).
      exists (S evals). split; [lia|].
      destruct (WAIT_OR_FAIL n condition a' d1) as [[[passed a''] d2] t2].
      destruct H as [-> Hp]. replace (k + S evals)%nat with (S k + evals)%nat by lia.
      split; [done|]. destruct Hp; [by left|right; lia].
    + exists 1%nat. split; [lia|]. unfold ret. simpl.
      rewrite Nat.add_1_r. auto.
Qed.

(** The [while] of the macro, with its counter at [count] and
    [max_iter - count] increments left, leaves the loop within the fuel
    and agrees with [WAIT_OR_FAIL]. *)
Lemma WAIT_OR_FAIL_while_from {A} (budget : nat)
    (condition : A -> M dev (bool * A)) (extra : nat) (count : Z) a d :
  0 <= count ->
  WAIT_OR_FAIL_while (S budget + extra) (count + Z.of_nat budget) count condition a d
  = let '(r, d', t) := WAIT_OR_FAIL budget condition a d in (Some r, d', t).
Proof.
  revert count a d. induction budget as [|n IH]; intros count a d Hc.
  - rewrite WAIT_OR_FAIL_eq. simpl. unfold bind.
    destruct (condition a d) as [[[c a'] d1] t1]. destruct c; [|done].
    destruct (Z.gtb_spec (count + 1) (count + Z.of_nat 0)); [done|lia].
  - rewrite WAIT_OR_FAIL_eq.
    change (WAIT_OR_FAIL_while (S (S n) + extra) ?m ?c condition a)
      with (bind (condition a) (fun '(c0, a') =>
              if c0 then
                if c + 1 >? m then ret (Some (false, a'))
                else WAIT_OR_FAIL_while (S n + extra) m (c + 1) condition a'
              else ret (Some (true, a')))).
    unfold bind. destruct (condition a d) as [[[c a'] d1] t1].
    destruct c; [|done].
    destruct (Z.gtb_spec (count + 1) (count + Z.of_nat (S n))); [lia|].
    replace (count + Z.of_nat (S n)) with (count + 1 + Z.of_nat n) by lia.
    rewrite IH by lia.
    by destruct (WAIT_OR_FAIL n condition a' d1) as [[r d2] t2].
Qed.

Lemma bounded_ret {A} (a : A) : bounded (dev := dev) 0 (ret a).
Proof. intros d. simpl. lia. Qed.

Lemma bounded_weaken (n n' : nat) {A} (m : M dev A) :
  bounded n m -> (n <= n')%nat -> bounded n' m.
Proof. intros H Hn d. specialize (H d). lia. Qed.

Lemma bounded_bind (n1 n2 : nat) {A B} (m : M dev A) (f : A -> M dev B) :
  bounded n1 m -> (forall a, bounded n2 (f a)) -> bounded (n1 + n2) (bind m f).
Proof.
  intros Hm Hf d. unfold bind.
  specialize (Hm d). destruct (m d) as [[a d1] t1].
  specialize (Hf a d1). destruct (f a d1) as [[b d2] t2].
  unfold emitted in *. simpl in *. rewrite length_app. lia.
Qed.

Lemma bounded_if (n : nat) {A} (c : bool) (x y : M dev A) :
  bounded n x -> bounded n y -> bounded n (if c then x else y).
Proof. by destruct c. Qed.

Lemma bounded_WAIT_OR_FAIL (k n : nat) {A} (condition : A -> M dev (bool * A)) a :
  (forall a, bounded k (condition a)) ->
  bounded (S n * k) (WAIT_OR_FAIL n condition a).
Proof.
  intros Hc. revert a. induction n as [|n IH]; intros a;
    rewrite WAIT_OR_FAIL_eq.
  - eapply bounded_weaken; [apply (bounded_bind k 0); [done|]|lia].
    intros [[] a']; apply bounded_ret.
  - eapply bounded_weaken; [apply (bounded_bind k (S n * k)); [done|]|lia].
    intros [[] a']; [apply IH|].
    eapply bounded_weaken; [apply bounded_ret|lia].
Qed.

Lemma bounded_spi_io s block addr wr buf len :
  bounded (5 + len) (w5500_spi_io s block addr wr buf len).
Proof.
  intros d.
  destruct (w5500_spi_io_run s block addr wr buf len d)
    as (hs & rs & d' & Hhs & Hrs & _ & Hrun).
  rewrite Hrun. unfold emitted, frame, exchanges, sent_bytes, cmd_bytes.
  cbn [snd length]. rewrite length_app, length_map, length_app, !length_zip.
  rewrite length_map, length_seq. cbn [length]. lia.
Qed.

Lemma bounded_write s block addr buf len :
  bounded (5 + len) (w5500_write s block addr buf len).
Proof.
  apply (bounded_weaken (5 + len + 0)); [|lia].
  apply bounded_bind; [apply bounded_spi_io|]. intros _. apply bounded_ret.
Qed.

Lemma bounded_write_byte s block addr val :
  bounded 6 (w5500_write_byte s block addr val).
Proof. apply (bounded_write s block addr [u8 val] 1). Qed.

Lemma bounded_write_word s block addr val :
  bounded 7 (w5500_write_word s block addr val).
Proof. apply (bounded_write s block addr [_; _] 2). Qed.

Lemma bounded_read_byte s block addr :
  bounded 6 (w5500_read_byte s block addr).
Proof.
  apply (bounded_bind 6 0); [apply (bounded_spi_io s block addr false [0] 1)|].
  intros p. apply bounded_ret.
Qed.

Lemma bounded_read_word s block addr :
  bounded 7 (w5500_read_word s block addr).
Proof.
  apply (bounded_bind 7 0); [apply (bounded_spi_io s block addr false [0; 0] 2)|].
  intros p. apply bounded_ret.
Qed.

Lemma bounded_read_twice s block addr :
  bounded 14
    (bind (bind (w5500_read_word s block addr) (fun tmp =>
           bind (w5500_read_word s block addr) (fun len =>
           ret (len =? tmp, len))))
       (fun '(stable, len) => ret (negb stable, len))).
Proof.
  apply (bounded_bind 14 0); [|intros [stable len]; apply bounded_ret].
  apply (bounded_bind 7 7); [apply bounded_read_word|]. intros tmp.
  apply (bounded_bind 7 0); [apply bounded_read_word|]. intros len.
  apply bounded_ret.
Qed.

Lemma bounded_rx_wait_stable s : bounded (1001 * 14) (rx_wait_stable s).
Proof.
  apply (bounded_WAIT_OR_FAIL 14 1000). intros _. apply bounded_read_twice.
Qed.

Lemma bounded_tx_wait_stable s : bounded (1001 * 14) (tx_wait_stable s).
Proof.
  apply (bounded_WAIT_OR_FAIL 14 1000). intros _. apply bounded_read_twice.
Qed.

Lemma bounded_wait_cr_clear s : bounded (1001 * 6) (wait_cr_clear s).
Proof.
  apply (bounded_WAIT_OR_FAIL 6 1000). intros _.
  apply (bounded_bind 6 0); [apply bounded_read_byte|].
  intros c. apply bounded_ret.
Qed.

Lemma bounded_wait_reset_clear s : bounded (1001 * 6) (wait_reset_clear s).
Proof.
  apply (bounded_WAIT_OR_FAIL 6 1000). intros _.
  apply (bounded_bind 6 0); [apply bounded_read_byte|].
  intros c. apply bounded_ret.
Qed.

Lemma bounded_tx_wait_ir ind s : bounded (1001 * 12) (tx_wait_ir ind s).
Proof.
  apply (bounded_WAIT_OR_FAIL 12 1000). intros _.
  apply (bounded_bind 12 0); [|intros ir; apply bounded_ret].
  apply (bounded_bind 6 6); [apply bounded_read_byte|]. intros r.
  apply (bounded_bind 6 0); [|intros _; apply bounded_ret].
  apply bounded_if; [apply bounded_write_byte|].
  apply (bounded_weaken 0); [apply bounded_ret|lia].
Qed.

End Termination_facts.

Section Termination_theorems.

Context {dev : Type}.
Variable indeterminate : nat -> Z.
Implicit Types (s : ethif dev) (d : dev) (buf : list Z).

Lemma bounded_ret_any (n : nat) {A} (a : A) : bounded (dev := dev) n (ret a).
Proof. apply (bounded_weaken 0); [apply bounded_ret|lia]. Qed.

Lemma bounded_w5500_rx buf buflen s :
  bounded (1001 * 20 + 32 + buflen) (w5500_rx indeterminate buf buflen s).
Proof.
  unfold w5500_rx.
  apply (bounded_weaken (1001 * 14 + (7 + (7 + ((5 + buflen)
                          + (7 + (6 + (1001 * 6 + 0)))))))); [|lia].
  apply bounded_bind; [apply bounded_rx_wait_stable|]. intros [passed len].
  apply bounded_if; [apply bounded_ret_any|].
  apply bounded_if; [apply bounded_ret_any|].
  apply bounded_bind; [apply bounded_read_word|]. intros ptr.
  apply bounded_bind; [apply (bounded_spi_io s _ _ false _ 2)|]. intros header.
  apply bounded_bind.
  { match goal with |- context [Z.to_nat ?p] => set (pl := p) end.
    destruct (Z.gtb_spec pl (Z.of_nat buflen)); [apply bounded_ret_any|].
    apply (bounded_weaken (5 + Z.to_nat pl + 0)); [|lia].
    apply bounded_bind; [apply bounded_spi_io|]. intros buf'. apply bounded_ret. }
  intros [payload_len buf'].
  apply bounded_bind; [apply bounded_write_word|]. intros _.
  apply bounded_bind; [apply bounded_write_byte|]. intros _.
  apply bounded_bind; [apply bounded_wait_cr_clear|]. intros [passed' []].
  apply bounded_if; apply bounded_ret.
Qed.

Lemma bounded_w5500_tx buf buflen s :
  bounded (1001 * 32 + 31 + buflen) (w5500_tx indeterminate buf buflen s).
Proof.
  unfold w5500_tx.
  apply bounded_if; [apply bounded_ret_any|].
  apply (bounded_weaken (1001 * 14 + (6 + (7 + ((5 + buflen)
                          + (7 + (6 + (1001 * 6 + (1001 * 12 + 0))))))))); [|lia].
  apply bounded_bind; [apply bounded_tx_wait_stable|]. intros [passed freesize].
  apply bounded_if; [apply bounded_ret_any|].
  apply bounded_if; [apply bounded_ret_any|].
  apply bounded_bind; [apply bounded_read_byte|]. intros sock_status.
  apply bounded_if; [apply bounded_ret_any|].
  apply bounded_bind; [apply bounded_read_word|]. intros ptr.
  apply bounded_bind; [apply bounded_write|]. intros _.
  apply bounded_bind; [apply bounded_write_word|]. intros _.
  apply bounded_bind; [apply bounded_write_byte|]. intros _.
  apply bounded_bind; [apply bounded_wait_cr_clear|]. intros [passed' []].
  apply bounded_if; [apply bounded_ret_any|].
  apply bounded_bind; [apply bounded_tx_wait_ir|]. intros [passed'' ir].
  apply bounded_ret.
Qed.

Lemma bounded_w5500_init s : bounded (1001 * 12 + 60) (w5500_init s).
Proof.
  unfold w5500_init.
  apply (bounded_weaken (1 + (6 + (1001 * 6 + (6 + (6 + (6 + (6 + (17
                          + (6 + (1001 * 6 + (6 + 0)))))))))))); [|lia].
  apply bounded_bind; [intros d; simpl; lia|]. intros _.
  apply bounded_bind; [apply bounded_write_byte|]. intros _.
  apply bounded_bind; [apply bounded_wait_reset_clear|]. intros [passed []].
  apply bounded_if; [apply bounded_ret_any|].
  apply bounded_bind; [apply bounded_write_byte|]. intros _.
  apply bounded_bind; [apply bounded_write_byte|]. intros _.
  apply bounded_bind; [apply bounded_write_byte|]. intros _.
  apply bounded_bind; [apply bounded_write_byte|]. intros _.
  apply bounded_bind.
  { destruct (ethaddr s) as [addr|].
    - apply (bounded_bind 11 6); [apply (bounded_write s _ _ addr 6)|].
      intros _. apply bounded_write_byte.
    - apply (bounded_weaken 6); [apply bounded_write_byte|lia]. }
  intros _.
  apply bounded_bind; [apply bounded_write_byte|]. intros _.
  apply bounded_bind; [apply bounded_wait_cr_clear|]. intros [passed' []].
  apply bounded_if; [apply bounded_ret_any|].
  apply bounded_bind; [apply bounded_read_byte|]. intros st. apply bounded_ret.
Qed.

Lemma bounded_w5500_poll s (s1 : bool) : bounded 6 (w5500_poll s s1).
Proof.
  unfold w5500_poll. apply bounded_if; [|apply bounded_ret_any].
  apply (bounded_bind 6 0); [apply bounded_read_byte|].
  intros r. apply bounded_ret.
Qed.

(** C10. Every driver operation ends, whatever the chip answers.  The
    [while] loop of [WAIT_OR_FAIL] with cap [MAX_LOOP_ITERATIONS], run with
    fuel for 1001 evaluations of its condition or more, leaves the loop
    with the result of the driver's wait; a wait evaluates its condition
    between 1 and 1001 times, and 1001 times when it fails.  The
    operations contain no other open-ended loop, so the number of bus
    events of each is bounded by a constant plus the length of the
    caller's buffer. *)
Theorem driver_operations_terminate :
  (forall A (condition : A -> M dev (bool * A)) a d (extra : nat),
     WAIT_OR_FAIL_while (S MAX_LOOP_ITERATIONS + extra)
       (Z.of_nat MAX_LOOP_ITERATIONS) 0 condition a d
     = let '(r, d', t) := WAIT_OR_FAIL MAX_LOOP_ITERATIONS condition a d in
       (Some r, d', t)) /\
  (forall A (condition : A -> M dev (bool * A)) a d,
     exists evals : nat,
       (1 <= evals <= 1001)%nat /\
       let '((passed, a'), d', t) := WAIT_OR_FAIL MAX_LOOP_ITERATIONS condition a d in
       WAIT_OR_FAIL MAX_LOOP_ITERATIONS (counted condition) (O, a) d
         = ((passed, (evals, a')), d', t) /\
       (passed = true \/ evals = 1001%nat)) /\
  (forall s d, (length (emitted (w5500_init s d)) <= 1001 * 12 + 60)%nat) /\
  (forall buf buflen s d,
     (length (emitted (w5500_tx indeterminate buf buflen s d))
      <= 1001 * 32 + 31 + buflen)%nat) /\
  (forall buf buflen s d,
     (length (emitted (w5500_rx indeterminate buf buflen s d))
      <= 1001 * 20 + 32 + buflen)%nat) /\
  (forall s (link : bool) d, (length (emitted (w5500_poll s link d)) <= 6)%nat).
Proof.
  split; [|split; [|split; [|split; [|split]]]].
  - intros A condition a d extra.
    apply (WAIT_OR_FAIL_while_from MAX_LOOP_ITERATIONS condition extra 0 a d).
    lia.
  - intros A condition a d.
    apply (WAIT_OR_FAIL_counted MAX_LOOP_ITERATIONS condition 0 a d).
  - intros s d. apply bounded_w5500_init.
  - intros buf buflen s d. apply bounded_w5500_tx.
  - intros buf buflen s d. apply bounded_w5500_rx.
  - intros s link d. apply bounded_w5500_poll.
Qed.

End Termination_theorems.

(** On the counting chip the receive wait uses up all of its 1001
    evaluations, each of two 7-event register reads. *)
Example rx_wait_stable_gives_up :
  let counted_wait :=
    WAIT_OR_FAIL MAX_LOOP_ITERATIONS
      (counted (fun _ : Z => bind (w5500_read_rx_rsr_stable counting)
                  (fun '(stable, len) => ret (negb stable, len))))
      (O, 0) 0 in
  (result counted_wait).1 = false /\
  (result counted_wait).2.1 = 1001%nat /\
  length (emitted (rx_wait_stable counting 0)) = (1001 * 14)%nat.
Proof. repeat split; vm_compute; reflexivity. Qed.

(** * Round trip through a passive register file *)

Section Roundtrip_facts.

Implicit Types (m : gmap (Z * Z) Z) (bs : list Z) (wrap : bool).

Lemma offset_at_next wrap addr (k : nat) :
  offset_at wrap (next_offset wrap addr) k = offset_at wrap addr (S k).
Proof. unfold offset_at. by rewrite Nat.iter_succ_r. Qed.

Lemma offset_at_counting addr (k : nat) :
  offset_at false addr k = addr + Z.of_nat k.
Proof.
  unfold offset_at. induction k as [|k IH]; [simpl; lia|].
  rewrite Nat.iter_succ, IH. unfold next_offset. lia.
Qed.

Lemma offset_at_wrapping addr (k : nat) :
  0 <= addr < 65536 ->
  offset_at true addr k = (addr + Z.of_nat k) mod 65536.
Proof.
  intros Ha. unfold offset_at. induction k as [|k IH].
  - simpl. by rewrite Z.add_0_r, Z.mod_small.
  - rewrite Nat.iter_succ, IH. unfold next_offset.
    rewrite Zplus_mod_idemp_l. f_equal. lia.
Qed.

Lemma distinct_offsets_counting addr n : distinct_offsets false addr n.
Proof. intros i j Hij. rewrite !offset_at_counting. lia. Qed.

Lemma distinct_offsets_wrapping addr n :
  0 <= addr < 65536 -> Z.of_nat n <= 65536 -> distinct_offsets true addr n.
Proof.
  intros Ha Hn i j Hij. rewrite !offset_at_wrapping by done.
  intros E.
  assert (Hi : 0 <= Z.of_nat i < Z.of_nat j) by lia.
  assert (Hj : Z.of_nat j < 65536) by lia.
  revert E Hi Hj. generalize (Z.of_nat i) (Z.of_nat j). intros x y E Hx Hy.
  Z.div_mod_to_equations. lia.
Qed.

Lemma exchange_store wrap mac block addr bs m :
  (exchange (passive wrap mac) {| mem := m; ph := Stream block addr true |} bs).2
  = {| mem := store wrap block addr bs m;
       ph := Stream block (offset_at wrap addr (length bs)) true |}.
Proof.
  revert addr m. induction bs as [|b bs IH]; intros addr m; [done|].
  specialize (IH (next_offset wrap addr) (<[(block, addr) := b]> m)).
  change (exchange (passive wrap mac) ?c (b :: ?l))
    with (let '(r, d1) := regfile_txn wrap c b in
          let '(rs, d2) := exchange (passive wrap mac) d1 l in (u8 r :: rs, d2)).
  unfold regfile_txn at 1. cbn [ph mem].
  destruct (exchange (passive wrap mac) _ bs) as [rs d2] eqn:E.
  cbn [snd] in *. rewrite IH. cbn [store length]. by rewrite offset_at_next.
Qed.

Lemma exchange_load wrap mac block addr bs m :
  (exchange (passive wrap mac) {| mem := m; ph := Stream block addr false |} bs).1
  = load wrap block addr (length bs) m.
Proof.
  revert addr. induction bs as [|b bs IH]; intros addr; [done|].
  specialize (IH (next_offset wrap addr)).
  change (exchange (passive wrap mac) ?c (b :: ?l))
    with (let '(r, d1) := regfile_txn wrap c b in
          let '(rs, d2) := exchange (passive wrap mac) d1 l in (u8 r :: rs, d2)).
  unfold regfile_txn at 1. cbn [ph mem].
  destruct (exchange (passive wrap mac) _ bs) as [rs d2] eqn:E.
  cbn [fst] in *. by rewrite IH.
Qed.

Lemma store_elsewhere wrap block addr bs m x :
  (forall k : nat, (k < length bs)%nat -> offset_at wrap addr k <> x) ->
  store wrap block addr bs m !! (block, x) = m !! (block, x).
Proof.
  revert addr m. induction bs as [|b bs IH]; intros addr m Hx; [done|].
  simpl. rewrite IH.
  - apply lookup_insert_ne. intros [= E]. by apply (Hx O); [simpl; lia|].
  - intros k Hk. rewrite offset_at_next. apply Hx. simpl. lia.
Qed.

Lemma load_store wrap block addr bs m :
  distinct_offsets wrap addr (length bs) -> Forall is_byte bs ->
  load wrap block addr (length bs) (store wrap block addr bs m) = bs.
Proof.
  revert addr m. induction bs as [|b bs IH]; intros addr m Hd Hb; [done|].
  apply Forall_cons in Hb as [Hb0 Hb].
  cbn [length load store]. rewrite IH; [|..|done].
  - f_equal. rewrite store_elsewhere.
    + rewrite lookup_insert_eq. simpl. by apply u8_small.
    + intros k Hk. rewrite offset_at_next. intros E.
      apply (Hd O (S k)); [simpl; lia|]. by rewrite E.
  - intros i j Hij. rewrite !offset_at_next. apply Hd. simpl. lia.
Qed.

(** After the header the register file streams at the block and offset the
    driver meant. *)
Lemma exchange_header wrap mac (block addr : Z) (wr : bool) (c : regfile) :
  (exchange (passive wrap mac) (begin (passive wrap mac) c)
     (cmd_bytes block addr wr)).2
  = {| mem := mem c; ph := Stream (block mod 32) (u16 addr) wr |}.
Proof.
  unfold cmd_bytes.
  change ((exchange (passive wrap mac) (begin (passive wrap mac) c) [?a; ?b; ?x]).2)
    with {| mem := mem c;
            ph := Stream (Z.shiftr x 3) (a * 256 + b) (Z.testbit x 2) |}.
  by rewrite ctl_byte_block, ctl_byte_wr, hi_lo_word.
Qed.

Lemma w5500_write_regfile wrap mac block addr buf len c :
  mem (final (w5500_write (passive wrap mac) block addr buf len c))
  = store wrap (block mod 32) (u16 addr) (sent_bytes buf 0 len) (mem c).
Proof.
  unfold w5500_write, bind. rewrite w5500_spi_io_exchange.
  pose proof (exchange_header wrap mac block addr true c) as Hh.
  destruct (exchange (passive wrap mac) (begin (passive wrap mac) c)
              (cmd_bytes block addr true)) as [hs c1].
  cbn [snd] in Hh. subst c1.
  pose proof (exchange_store wrap mac (block mod 32) (u16 addr)
                (sent_bytes buf 0 len) (mem c)) as Hs.
  destruct (exchange (passive wrap mac) _ (sent_bytes buf 0 len)) as [rs c2].
  cbn [snd] in Hs. subst c2. reflexivity.
Qed.

Lemma w5500_read_regfile wrap mac block addr buf len c :
  result (w5500_read (passive wrap mac) block addr buf len c)
  = take (length buf) (load wrap (block mod 32) (u16 addr) len (mem c))
    ++ drop len buf.
Proof.
  unfold w5500_read. rewrite w5500_spi_io_exchange.
  pose proof (exchange_header wrap mac block addr false c) as Hh.
  destruct (exchange (passive wrap mac) (begin (passive wrap mac) c)
              (cmd_bytes block addr false)) as [hs c1].
  cbn [snd] in Hh. subst c1.
  pose proof (exchange_load wrap mac (block mod 32) (u16 addr)
                (sent_bytes buf 0 len) (mem c)) as Hl.
  destruct (exchange (passive wrap mac) _ (sent_bytes buf 0 len)) as [rs c2].
  cbn [fst] in Hl. subst rs. unfold result. cbn [fst].
  unfold sent_bytes. by rewrite length_map, length_seq.
Qed.

Lemma write_then_read wrap mac block addr data dst c :
  distinct_offsets wrap (u16 addr) (length data) ->
  Forall is_byte data -> length dst = length data ->
  result (w5500_read (passive wrap mac) block addr dst (length data)
            (final (w5500_write (passive wrap mac) block addr data
                      (length data) c)))
  = data.
Proof.
  intros Hdist Hb Hd. rewrite w5500_read_regfile.
  rewrite drop_ge by lia. rewrite app_nil_r.
  rewrite w5500_write_regfile.
  rewrite sent_bytes_bytes by (done || lia). rewrite firstn_all.
  rewrite load_store by done.
  apply take_ge. lia.
Qed.

Lemma distinct_offsets_short wrap addr (n : nat) :
  0 <= addr < 65536 -> (n <= 2)%nat -> distinct_offsets wrap addr n.
Proof.
  intros Ha Hn. destruct wrap.
  - apply distinct_offsets_wrapping; [done|lia].
  - apply distinct_offsets_counting.
Qed.

End Roundtrip_facts.

Lemma u8_hi_of_word (v : Z) : u8 (Z.shiftr v 8) = u16 v / 256.
Proof.
  unfold u8, u16. rewrite Z.shiftr_div_pow2 by lia. change (2 ^ 8) with 256.
  Z.div_mod_to_equations. lia.
Qed.

Lemma u8_lo_of_word (v : Z) : u8 (Z.land v 255) = u16 v mod 256.
Proof.
  unfold u8, u16. change 255 with (Z.ones 8). rewrite Z.land_ones by lia.
  change (2 ^ 8) with 256. Z.div_mod_to_equations. lia.
Qed.

(** C7. Against the passive register file: for every block, offset and
    byte sequence, a register write of the sequence followed by a register
    read of the same block, offset and length fills the destination with
    exactly the bytes written, whatever the length when the offset of a
    transaction counts up, and for up to 65536 bytes (the whole offset
    space) when it wraps at 16 bits.  In either case a byte write followed
    by a byte read returns the byte, and a word write followed by a word
    read returns the 16-bit word.  For every device: the word write puts the
    high byte of the word on the wire first, and the word read takes the
    first byte answered as the high byte. *)
Theorem register_write_read_roundtrip :
  (forall mac c (block addr : Z) (data dst : list Z),
     Forall is_byte data -> length dst = length data ->
     result (w5500_read (passive false mac) block addr dst (length data)
               (final (w5500_write (passive false mac) block addr data
                         (length data) c)))
     = data) /\
  (forall mac c (block addr : Z) (data dst : list Z),
     Forall is_byte data -> length dst = length data ->
     Z.of_nat (length data) <= 65536 ->
     result (w5500_read (passive true mac) block addr dst (length data)
               (final (w5500_write (passive true mac) block addr data
                         (length data) c)))
     = data) /\
  (forall wrap mac c (block addr v : Z),
     result (w5500_read_byte (passive wrap mac) block addr
               (final (w5500_write_byte (passive wrap mac) block addr v c)))
     = u8 v) /\
  (forall wrap mac c (block addr v : Z),
     result (w5500_read_word (passive wrap mac) block addr
               (final (w5500_write_word (passive wrap mac) block addr v c)))
     = u16 v) /\
  (forall dev (s : ethif dev) (block addr v : Z) d,
     decode (emitted (w5500_write_word s block addr v d))
     = [Write (block mod 32) (u16 addr) [u16 v / 256; u16 v mod 256]]) /\
  (forall dev (s : ethif dev) (block addr : Z) d,
     exists r0 r1,
       decode (emitted (w5500_read_word s block addr d))
       = [Read (block mod 32) (u16 addr) [r0; r1]] /\
       result (w5500_read_word s block addr d) = r0 * 256 + r1).
Proof.
  split; [|split; [|split; [|split; [|split]]]].
  - intros. apply write_then_read; [apply distinct_offsets_counting|done..].
  - intros. apply write_then_read;
      [apply distinct_offsets_wrapping; [apply u16_range|done]|done..].
  - intros wrap mac c block addr v.
    pose proof (write_then_read wrap mac block addr [u8 v] [0] c) as H.
    unfold w5500_read_byte, w5500_write_byte, bind.
    change (length [u8 v]) with 1%nat in H.
    destruct (w5500_read (passive wrap mac) block addr [0] 1 _) as [[p c'] t].
    unfold result in *. cbn [fst] in *. unfold ret. cbn [fst].
    rewrite H; [done| | |done].
    + apply distinct_offsets_short; [apply u16_range|lia].
    + repeat constructor; apply u8_range.
  - intros wrap mac c block addr v.
    pose proof (write_then_read wrap mac block addr
                  [u8 (Z.shiftr v 8); u8 (Z.land v 255)] [0; 0] c) as H.
    unfold w5500_read_word, w5500_write_word, bind.
    change (length [u8 (Z.shiftr v 8); u8 (Z.land v 255)]) with 2%nat in H.
    destruct (w5500_read (passive wrap mac) block addr [0; 0] 2 _) as [[p c'] t].
    unfold result in *. cbn [fst] in *. unfold ret. cbn [fst].
    rewrite H; [| | |done].
    + cbn [nth]. rewrite word_of_bytes by apply u8_range. apply hi_lo_word.
    + apply distinct_offsets_short; [apply u16_range|lia].
    + repeat constructor; apply u8_range.
  - intros dev s block addr v d.
    destruct (w5500_write_word_obs s block addr v d) as (d' & t & R & _ & T).
    rewrite R. unfold emitted. cbn [snd].
    by rewrite T, u8_hi_of_word, u8_lo_of_word.
  - intros dev s block addr d.
    destruct (w5500_read_word_obs s block addr d)
      as (r0 & r1 & d' & t & _ & _ & R & _ & T).
    exists r0, r1. rewrite R. by unfold emitted, result.
Qed.

(** Four bytes written across the end of the offset space and read back. *)
Lemma register_write_read_roundtrip_witness :
  Forall is_byte [1; 2; 3; 4] /\
  Z.of_nat (length [1; 2; 3; 4]) <= 65536 /\
  result (w5500_read (passive true None) SOCKET0_TX_BUFFER 0xFFFE [0; 0; 0; 0] 4
            (final (w5500_write (passive true None) SOCKET0_TX_BUFFER 0xFFFE
                      [1; 2; 3; 4] 4 empty_regfile)))
  = [1; 2; 3; 4].
Proof.
  assert (Hb : Forall is_byte [1; 2; 3; 4])
    by (repeat constructor; unfold is_byte; lia).
  assert (Hl : Z.of_nat (length [1; 2; 3; 4]) <= 65536) by (simpl; lia).
  split; [exact Hb|]. split; [exact Hl|].
  exact (proj1 (proj2 register_write_read_roundtrip) None empty_regfile
           SOCKET0_TX_BUFFER 0xFFFE [1; 2; 3; 4] [0; 0; 0; 0] Hb eq_refl Hl).
Defined.

Example register_file_after_write :
  mem (final (w5500_write (passive true None) SOCKET0_TX_BUFFER 0xFFFE
                [1; 2; 3; 4] 4 empty_regfile))
  = <[(2, 0xFFFE) := 1]> (<[(2, 0xFFFF) := 2]> (<[(2, 0) := 3]> (<[(2, 1) := 4]> ∅))).
Proof. vm_compute. reflexivity. Qed.

Example word_roundtrip_0xBEEF :
  result (w5500_read_word (passive true None) SOCKET0_REGISTER Sn_RX_RD
            (final (w5500_write_word (passive true None) SOCKET0_REGISTER Sn_RX_RD
                      0xBEEF empty_regfile))) = 0xBEEF /\
  emitted (w5500_write_word (passive true None) SOCKET0_REGISTER Sn_RX_RD
             0xBEEF empty_regfile)
  = [ CsAssert; Xfer 0x00 0; Xfer 0x28 0; Xfer 0x0C 0;
      Xfer 0xBE 0; Xfer 0xEF 0; CsDeassert ].
Proof. split; vm_compute; reflexivity. Qed.

(** * Link polling *)

Lemma bit0_of_land (r : Z) : negb (Z.land r PHYCFGR_LNK_ON =? 0) = Z.testbit r 0.
Proof.
  change PHYCFGR_LNK_ON with (Z.ones 1). rewrite Z.land_ones by lia.
  change (2 ^ 1) with 2. rewrite <- Z.bit0_mod.
  by destruct (Z.testbit r 0).
Qed.

Section Poll_theorems.

Context {dev : Type}.
Implicit Types (s : ethif dev) (d : dev).

(** X1. [w5500_poll] asked not to look ([s1] false) answers false and
    leaves the bus alone; asked to look, it reads [PHYCFGR] once, does
    nothing else, and answers with bit 0 (link on) of the byte read. *)
Theorem w5500_poll_reads_link_bit s d :
  w5500_poll s false d = (false, d, []) /\
  exists r,
    is_byte r /\
    decode (emitted (w5500_poll s true d)) = [Read COMMON_REGISTER PHYCFGR [r]] /\
    result (w5500_poll s true d) = Z.testbit r 0.
Proof.
  split; [done|].
  destruct (w5500_read_byte_obs s COMMON_REGISTER PHYCFGR d)
    as (r & d' & t & Hr & Hrun & Hc & Ht).
  exists r. split; [done|].
  unfold w5500_poll. unfold bind. rewrite Hrun. unfold ret, emitted, result.
  cbn [fst snd]. rewrite app_nil_r. split; [exact Ht|apply bit0_of_land].
Qed.

End Poll_theorems.

(** * Chip-select discipline *)

Lemma framed_app t1 t2 : framed t1 -> framed t2 -> framed (t1 ++ t2).
Proof.
  induction 1 as [|xs t Hxs Ht IH]; intros H2; [done|].
  rewrite <- app_assoc. constructor; [done|]. by apply IH.
Qed.

Lemma framed_one xs : (3 <= length xs)%nat -> framed (frame xs).
Proof.
  intros H. rewrite <- (app_nil_r (frame xs)). by repeat constructor.
Qed.

Lemma framed_complete t : framed t -> complete t.
Proof.
  induction 1 as [|xs t Hxs Ht IH]; [apply complete_nil|].
  apply complete_app; [apply complete_frame|done].
Qed.

Section Discipline_facts.

Context {dev : Type}.
Implicit Types (s : ethif dev) (d : dev).

Lemma tidy_ret {A} (a : A) : tidy (dev := dev) (ret a).
Proof. intros d. constructor. Qed.

Lemma tidy_bind {A B} (m : M dev A) (f : A -> M dev B) :
  tidy m -> (forall a, tidy (f a)) -> tidy (bind m f).
Proof.
  intros Hm Hf d. unfold bind.
  specialize (Hm d). destruct (m d) as [[a d1] t1].
  specialize (Hf a d1). destruct (f a d1) as [[b d2] t2].
  by apply framed_app.
Qed.

Lemma tidy_if {A} (c : bool) (x y : M dev A) :
  tidy x -> tidy y -> tidy (if c then x else y).
Proof. by destruct c. Qed.

Lemma tidy_WAIT_OR_FAIL {A} (n : nat) (condition : A -> M dev (bool * A)) a :
  (forall a, tidy (condition a)) -> tidy (WAIT_OR_FAIL n condition a).
Proof.
  intros Hc. revert a. induction n as [|n IH]; intros a;
    rewrite WAIT_OR_FAIL_eq; apply tidy_bind; try done;
    intros [[] a']; try apply tidy_ret; try apply IH.
Qed.

Lemma tidy_spi_io s block addr wr buf len :
  tidy (w5500_spi_io s block addr wr buf len).
Proof.
  intros d.
  destruct (w5500_spi_io_run s block addr wr buf len d)
    as (hs & rs & d' & Hhs & Hrs & _ & Hrun).
  rewrite Hrun. apply framed_one.
  unfold exchanges, cmd_bytes. rewrite length_app, length_zip.
  cbn [length]. lia.
Qed.

Lemma tidy_write s block addr buf len : tidy (w5500_write s block addr buf len).
Proof. apply tidy_bind; [apply tidy_spi_io|]. intros _. apply tidy_ret. Qed.

Lemma tidy_write_byte s block addr val : tidy (w5500_write_byte s block addr val).
Proof. apply tidy_write. Qed.

Lemma tidy_write_word s block addr val : tidy (w5500_write_word s block addr val).
Proof. apply tidy_write. Qed.

Lemma tidy_read_byte s block addr : tidy (w5500_read_byte s block addr).
Proof. apply tidy_bind; [apply tidy_spi_io|]. intros p. apply tidy_ret. Qed.

Lemma tidy_read_word s block addr : tidy (w5500_read_word s block addr).
Proof. apply tidy_bind; [apply tidy_spi_io|]. intros p. apply tidy_ret. Qed.

Lemma tidy_read_twice s block addr :
  tidy (bind (bind (w5500_read_word s block addr) (fun tmp =>
              bind (w5500_read_word s block addr) (fun len =>
              ret (len =? tmp, len))))
          (fun '(stable, len) => ret (negb stable, len))).
Proof.
  apply tidy_bind; [|intros [stable len]; apply tidy_ret].
  apply tidy_bind; [apply tidy_read_word|]. intros tmp.
  apply tidy_bind; [apply tidy_read_word|]. intros len. apply tidy_ret.
Qed.

Lemma tidy_wait_cr_clear s : tidy (wait_cr_clear s).
Proof.
  apply tidy_WAIT_OR_FAIL. intros _.
  apply tidy_bind; [apply tidy_read_byte|]. intros c. apply tidy_ret.
Qed.

Lemma tidy_w5500_rx ind buf buflen s : tidy (w5500_rx ind buf buflen s).
Proof.
  unfold w5500_rx.
  apply tidy_bind; [apply tidy_WAIT_OR_FAIL; intros _; apply tidy_read_twice|].
  intros [passed len].
  apply tidy_if; [apply tidy_ret|]. apply tidy_if; [apply tidy_ret|].
  apply tidy_bind; [apply tidy_read_word|]. intros ptr.
  apply tidy_bind; [apply tidy_spi_io|]. intros header.
  apply tidy_bind.
  { apply tidy_if; [apply tidy_ret|].
    apply tidy_bind; [apply tidy_spi_io|]. intros buf'. apply tidy_ret. }
  intros [payload_len buf'].
  apply tidy_bind; [apply tidy_write_word|]. intros _.
  apply tidy_bind; [apply tidy_write_byte|]. intros _.
  apply tidy_bind; [apply tidy_wait_cr_clear|]. intros [passed' []].
  apply tidy_if; apply tidy_ret.
Qed.

Lemma tidy_w5500_tx ind buf buflen s : tidy (w5500_tx ind buf buflen s).
Proof.
  unfold w5500_tx.
  apply tidy_if; [apply tidy_ret|].
  apply tidy_bind; [apply tidy_WAIT_OR_FAIL; intros _; apply tidy_read_twice|].
  intros [passed freesize].
  apply tidy_if; [apply tidy_ret|]. apply tidy_if; [apply tidy_ret|].
  apply tidy_bind; [apply tidy_read_byte|]. intros sock_status.
  apply tidy_if; [apply tidy_ret|].
  apply tidy_bind; [apply tidy_read_word|]. intros ptr.
  apply tidy_bind; [apply tidy_write|]. intros _.
  apply tidy_bind; [apply tidy_write_word|]. intros _.
  apply tidy_bind; [apply tidy_write_byte|]. intros _.
  apply tidy_bind; [apply tidy_wait_cr_clear|]. intros [passed' []].
  apply tidy_if; [apply tidy_ret|].
  apply tidy_bind; [|intros [passed'' ir]; apply tidy_ret].
  apply tidy_WAIT_OR_FAIL. intros _.
  apply tidy_bind; [|intros ir; apply tidy_ret].
  apply tidy_bind; [apply tidy_read_byte|]. intros r.
  apply tidy_bind; [|intros _; apply tidy_ret].
  apply tidy_if; [apply tidy_write_byte|apply tidy_ret].
Qed.

Lemma tidy_w5500_poll s (s1 : bool) : tidy (w5500_poll s s1).
Proof.
  unfold w5500_poll. apply tidy_if; [|apply tidy_ret].
  apply tidy_bind; [apply tidy_read_byte|]. intros r. apply tidy_ret.
Qed.

Lemma after_deselect {A} s (k : M dev A) d :
  tidy k ->
  exists t, emitted (bind (do_end s) (fun _ => k) d) = CsDeassert :: t /\ framed t.
Proof.
  intros Hk. unfold bind, do_end. specialize (Hk (end_ s d)).
  destruct (k (end_ s d)) as [[b d2] t2]. by exists t2.
Qed.

Lemma w5500_init_deselects_first s d :
  exists t, emitted (w5500_init s d) = CsDeassert :: t /\ framed t.
Proof.
  unfold w5500_init. apply after_deselect.
  apply tidy_bind; [apply tidy_write_byte|]. intros _.
  apply tidy_bind.
  { apply tidy_WAIT_OR_FAIL. intros _.
    apply tidy_bind; [apply tidy_read_byte|]. intros m. apply tidy_ret. }
  intros [passed []].
  apply tidy_if; [apply tidy_ret|].
  apply tidy_bind; [apply tidy_write_byte|]. intros _.
  apply tidy_bind; [apply tidy_write_byte|]. intros _.
  apply tidy_bind; [apply tidy_write_byte|]. intros _.
  apply tidy_bind; [apply tidy_write_byte|]. intros _.
  apply tidy_bind.
  { destruct (ethaddr s) as [addr|]; [|apply tidy_write_byte].
    apply tidy_bind; [apply tidy_write|]. intros _. apply tidy_write_byte. }
  intros _.
  apply tidy_bind; [apply tidy_write_byte|]. intros _.
  apply tidy_bind; [apply tidy_wait_cr_clear|]. intros [passed' []].
  apply tidy_if; [apply tidy_ret|].
  apply tidy_bind; [apply tidy_read_byte|]. intros st. apply tidy_ret.
Qed.

End Discipline_facts.

Section Discipline_theorems.

Context {dev : Type}.
Variable indeterminate : nat -> Z.
Implicit Types (s : ethif dev) (d : dev) (buf : list Z).

(** X2. Whatever the chip answers, the bus activity of [w5500_rx],
    [w5500_tx] and [w5500_poll] is a sequence of whole chip-select frames,
    each carrying the three header bytes or more: the chip is never left
    selected, never selected twice, and no byte is exchanged outside a
    frame.  [w5500_init] does the same after one leading deselect. *)
Theorem driver_frames_every_transaction :
  (forall buf buflen s d, framed (emitted (w5500_rx indeterminate buf buflen s d))) /\
  (forall buf buflen s d, framed (emitted (w5500_tx indeterminate buf buflen s d))) /\
  (forall s (s1 : bool) d, framed (emitted (w5500_poll s s1 d))) /\
  (forall s d, exists t, emitted (w5500_init s d) = CsDeassert :: t /\ framed t).
Proof.
  split; [intros; apply tidy_w5500_rx|].
  split; [intros; apply tidy_w5500_tx|].
  split; [intros; apply tidy_w5500_poll|].
  intros. apply w5500_init_deselects_first.
Qed.

End Discipline_theorems.

(** * Register footprints *)

Lemma idle_or_pending (passed : bool) (len : Z) :
  (passed = true /\ len <> 0) \/ (passed = false \/ len = 0).
Proof.
  destruct passed; [|by right; left].
  destruct (decide (len = 0)); [by right; right|by left].
Qed.

Section Footprint_theorems.

Context {dev : Type}.
Variable indeterminate : nat -> Z.
Implicit Types (s : ethif dev) (d : dev) (buf : list Z).

(** X3. Whatever the chip answers, [w5500_rx] issues no transaction other
    than reads of [Sn_RX_RSR], [Sn_RX_RD] and [Sn_CR], reads from the RX
    buffer, two-byte writes of [Sn_RX_RD] and the RECV command written to
    [Sn_CR]: it writes nothing else, so neither the common registers nor
    anything of the transmit side. *)
Theorem w5500_rx_footprint buf buflen s d :
  Forall rx_access (decode (emitted (w5500_rx indeterminate buf buflen s d))).
Proof.
  destruct (rx_wait_stable s d) as [[[passed len] d1] t1] eqn:Hw.
  pose proof (rx_wait_stable_only s d) as [_ HF]. rewrite Hw in HF.
  unfold emitted in HF. cbn [snd] in HF.
  assert (H1 : Forall rx_access (decode t1)).
  { eapply Forall_impl; [exact HF|].
    intros [b x v|b x v|xs]; simpl; [|done..]. intros [-> ->]. left. auto. }
  destruct (idle_or_pending passed len) as [[-> Hlen]|Hidle].
  - destruct (w5500_rx_pending indeterminate buf buflen s d len d1 t1 Hw Hlen)
      as (p0 & p1 & h0 & h1 & vals & pre & r & d' & t & H).
    cbv zeta in H. destruct H as (_ & _ & Hpre & Hrun & Hdec).
    rewrite Hrun. unfold emitted. cbn [snd]. rewrite Hdec.
    repeat apply Forall_app_2; try done.
    + repeat apply Forall_cons_2; simpl; auto.
    + destruct (negb _); [|constructor].
      apply Forall_cons_2; [simpl; auto|constructor].
    + repeat apply Forall_cons_2; simpl; auto.
    + eapply Forall_impl; [exact Hpre|].
      intros [b x v|b x v|xs]; simpl; [|done..]. intros [-> ->]. left. auto.
    + apply Forall_cons_2; [simpl; auto|constructor].
  - by rewrite (w5500_rx_idle indeterminate buf buflen s d _ _ _ _ Hw Hidle).
Qed.


(** A non-zero result of [w5500_tx] is reached on one path only, the one
    that wrote the payload, advanced the pointer and issued SEND. *)
Lemma w5500_tx_nonzero_means_sent buf buflen s d :
  result (w5500_tx indeterminate buf buflen s d) <> O ->
  exists pre p0 p1 post,
    let ptr := p0 * 256 + p1 in
    let new := u16 (ptr + Z.of_nat buflen) in
    decode (emitted (w5500_tx indeterminate buf buflen s d)) =
      pre ++ [Read SOCKET0_REGISTER Sn_TX_WR [p0; p1];
              Write SOCKET0_TX_BUFFER ptr (sent_bytes buf 0 buflen);
              Write SOCKET0_REGISTER Sn_TX_WR
                [u8 (Z.shiftr new 8); u8 (Z.land new 255)];
              Write SOCKET0_REGISTER Sn_CR [Sn_CR_SEND]] ++ post.
Proof.
  destruct (decide (buflen = O)) as [->|Hn]; [done|].
  destruct (tx_wait_stable s d) as [[[passed freesize] d1] t1] eqn:Hw.
  destruct (decide (passed = true /\ Z.of_nat buflen <= freesize)) as [[-> Hle]|Hno].
  - destruct (w5500_tx_sending indeterminate buf buflen s d freesize d1 t1 Hn Hw Hle)
      as (st & p0 & p1 & acks & c & irs & r & d' & t & H).
    cbv zeta in H. destruct H as (Hrun & Hdec & Hacks & Hirs).
    rewrite Hrun. unfold result, emitted. cbn [fst snd].
    intros Hres. destruct (socket_closed st); [done|].
    exists (decode t1 ++ [Read SOCKET0_REGISTER Sn_SR [st]]), p0, p1.
    eexists. cbv zeta. rewrite Hdec. rewrite <- !app_assoc. reflexivity.
  - rewrite (w5500_tx_no_space indeterminate buf buflen s d _ _ _ _ Hn Hw); [done|].
    destruct passed; [|by left]. right.
    destruct (Z.lt_ge_cases freesize (Z.of_nat buflen)); [done|].
    exfalso. by apply Hno.
Qed.

(** X5. [w5500_tx] knows no partial transmit: it returns 0 or [buflen].
    When it returns a non-zero length, the chip has been given the whole
    payload at the write pointer [ptr] it reported, the pointer advanced by
    [buflen] modulo 65536, and the SEND command, in this order. *)
Theorem w5500_tx_all_or_nothing buf buflen s d :
  let r := w5500_tx indeterminate buf buflen s d in
  (result r = O \/ result r = buflen) /\
  (result r <> O ->
   exists pre p0 p1 post,
     let ptr := p0 * 256 + p1 in
     let new := u16 (ptr + Z.of_nat buflen) in
     decode (emitted r) =
       pre ++ [Read SOCKET0_REGISTER Sn_TX_WR [p0; p1];
               Write SOCKET0_TX_BUFFER ptr (sent_bytes buf 0 buflen);
               Write SOCKET0_REGISTER Sn_TX_WR
                 [u8 (Z.shiftr new 8); u8 (Z.land new 255)];
               Write SOCKET0_REGISTER Sn_CR [Sn_CR_SEND]] ++ post).
Proof.
  intros r. subst r. split; [|apply w5500_tx_nonzero_means_sent].
  destruct (decide (buflen = O)) as [->|Hn]; [by left|].
  destruct (tx_wait_stable s d) as [[[passed freesize] d1] t1] eqn:Hw.
  destruct (decide (passed = true /\ Z.of_nat buflen <= freesize)) as [[-> Hle]|Hno].
  - destruct (w5500_tx_sending indeterminate buf buflen s d freesize d1 t1 Hn Hw Hle)
      as (st & p0 & p1 & acks & c & irs & r & d' & t & H).
    cbv zeta in H. destruct H as (Hrun & _).
    rewrite Hrun. unfold result. cbn [fst].
    destruct (socket_closed st); [by left|].
    destruct (negb (c =? 0)); [by left|].
    destruct (negb (Z.land (Z.land r 31) IR_FAILED =? 0)); [by left|by right].
  - rewrite (w5500_tx_no_space indeterminate buf buflen s d _ _ _ _ Hn Hw); [by left|].
    destruct passed; [|by left]. right.
    destruct (Z.lt_ge_cases freesize (Z.of_nat buflen)); [done|].
    exfalso. by apply Hno.
Qed.

End Footprint_theorems.

(** * Initialization, step by step *)

Section Init_script.

Context {dev : Type}.
Implicit Types (s : ethif dev) (d : dev).

(** X6. Everything [w5500_init] puts on the bus, for every chip: the reset
    command, reads of [MR] up to a last one [m]; if [m] still has the reset
    bit set (the wait ran out) nothing more, so a chip that does not leave
    reset is never configured.  Otherwise the configuration in its fixed
    order (PHY restarted in all-capable auto-negotiation, 16 KB for each
    socket-0 buffer, the MAC address and MACRAW with the filter bit when
    the context has an address, plain MACRAW when it has none, then OPEN),
    reads of [Sn_CR] up to a last one [c], and one read [st] of [Sn_SR] when
    [c] is 0.  The result is true exactly when the reset bit cleared, [c]
    is 0 and [st] is 0x42. *)
Theorem w5500_init_bus_script s d :
  exists resets m acks c st,
    Forall (is_read_of COMMON_REGISTER MR) resets /\
    Forall (is_read_of SOCKET0_REGISTER Sn_CR) acks /\
    let reset_done := Z.land m MR_RST =? 0 in
    result (w5500_init s d) = reset_done && (c =? 0) && (st =? SOCK_MACRAW) /\
    decode (emitted (w5500_init s d)) =
      Write COMMON_REGISTER MR [MR_RST] :: resets ++ [Read COMMON_REGISTER MR [m]]
      ++ (if reset_done
          then init_config (ethaddr s) ++ acks
               ++ [Read SOCKET0_REGISTER Sn_CR [c]]
               ++ (if c =? 0 then [Read SOCKET0_REGISTER Sn_SR [st]] else [])
          else []).
Proof.
  destruct (w5500_init_cases s d) as (resets & m & Fr & Hcases).
  cbv zeta in Hcases.
  destruct Hcases as [(Hm & Hres & Hdec)
                     |(Hm & acks & c & Fa & [(Hc & Hres & Hdec)|(-> & st & Hres & Hdec)])].
  - exists resets, m, [], 0, 0. split; [done|]. split; [constructor|].
    cbv zeta. apply Z.eqb_neq in Hm. rewrite Hm, Hres, Hdec.
    split; [done|]. by rewrite app_nil_r.
  - exists resets, m, acks, c, 0. split; [done|]. split; [done|].
    cbv zeta. apply Z.eqb_neq in Hc. rewrite Hm, Hc, Hres, Hdec.
    change (0 =? 0) with true. cbv iota.
    split; [done|]. by rewrite <- app_comm_cons, <- app_assoc.
  - exists resets, m, acks, 0, st. split; [done|]. split; [done|].
    cbv zeta. rewrite Hm, Hres, Hdec.
    change (0 =? 0) with true. cbv iota.
    split; [done|]. by rewrite <- app_comm_cons, <- app_assoc.
Qed.

End Init_script.

(** * Interrupt flags and stable sizes *)

Section Flag_theorems.

Context {dev : Type}.
Implicit Types (s : ethif dev) (d : dev).

(** X7. [w5500_read_ir_and_clear] reads [Sn_IR] once and hands back the low
    five bits of the byte read.  When one of them is set it writes exactly
    these bits back to [Sn_IR] (write-1-to-clear: it acknowledges the flags
    it has seen and no others); when none is set it writes nothing. *)
Theorem w5500_read_ir_and_clear_acknowledges_seen_flags s d :
  exists r,
    is_byte r /\
    result (w5500_read_ir_and_clear s d) = Z.land r 0x1F /\
    decode (emitted (w5500_read_ir_and_clear s d)) =
      Read SOCKET0_REGISTER Sn_IR [r]
      :: (if Z.land r 0x1F =? 0 then []
          else [Write SOCKET0_REGISTER Sn_IR [Z.land r 0x1F]]).
Proof.
  destruct (w5500_read_byte_obs s SOCKET0_REGISTER Sn_IR d)
    as (r & d1 & t1 & Hr & R1 & C1 & T1).
  exists r. split; [done|].
  destruct (Z.land r 0x1F =? 0) eqn:E.
  - assert (Hrun : w5500_read_ir_and_clear s d = (Z.land r 0x1F, d1, t1 ++ [] ++ [])).
    { unfold w5500_read_ir_and_clear. run_step R1. unfold bind at 1.
      rewrite E. reflexivity. }
    rewrite Hrun. unfold result, emitted. cbn [fst snd].
    by rewrite !app_nil_r.
  - destruct (w5500_write_byte_obs s SOCKET0_REGISTER Sn_IR (Z.land r 0x1F) d1)
      as (d2 & t2 & R2 & C2 & T2).
    assert (Hrun : w5500_read_ir_and_clear s d = (Z.land r 0x1F, d2, t1 ++ t2 ++ [])).
    { unfold w5500_read_ir_and_clear. run_step R1. unfold bind at 1.
      rewrite E. cbn [negb]. rewrite R2. reflexivity. }
    rewrite Hrun. unfold result, emitted. cbn [fst snd]. rewrite app_nil_r.
    split; [done|]. rewrite decode_app, T1, T2 by done.
    by rewrite land_0x1F_byte.
Qed.

(** One evaluation of a stability check on the 16-bit register at
    [(block, addr)], and the wait built on it. *)
Lemma stable_wait_obs s (block addr : Z) (n : nat) (a : Z) d :
  exists earlier a0 a1 b0 b1 d' t,
    (is_byte a0 /\ is_byte a1 /\ is_byte b0 /\ is_byte b1) /\
    WAIT_OR_FAIL n
      (fun _ : Z =>
         bind (bind (w5500_read_word s block addr) (fun tmp =>
               bind (w5500_read_word s block addr) (fun len =>
               ret (len =? tmp, len))))
           (fun '(stable, len) => ret (negb stable, len))) a d
    = ((b0 * 256 + b1 =? a0 * 256 + a1, b0 * 256 + b1), d', t) /\
    decode t = earlier ++ [Read (block mod 32) (u16 addr) [a0; a1];
                           Read (block mod 32) (u16 addr) [b0; b1]] /\
    Forall (is_read_of (block mod 32) (u16 addr)) earlier.
Proof.
  set (cond := fun _ : Z =>
         bind (bind (w5500_read_word s block addr) (fun tmp =>
               bind (w5500_read_word s block addr) (fun len =>
               ret (len =? tmp, len))))
           (fun '(stable, len) => ret (negb stable, len))).
  destruct (WAIT_OR_FAIL_inv (quiet (is_read_of (block mod 32) (u16 addr))) n cond
              (quiet_nil _) (quiet_app _)) with (a := a) (d := d)
    as (a0' & d0 & t0 & c & a' & d' & t1 & Hc & [C0 F0] & Hw).
  { intros a1 d0. unfold cond.
    apply only_bind; [|intros [stable len]; apply only_ret].
    apply only_bind; [by apply only_read_word|]. intros tmp.
    apply only_bind; [by apply only_read_word|]. intros len. apply only_ret. }
  destruct (w5500_read_word_obs s block addr d0)
    as (a0 & a1 & d2 & t2 & Ha0 & Ha1 & R2 & C2 & T2).
  destruct (w5500_read_word_obs s block addr d2)
    as (b0 & b1 & d3 & t3 & Hb0 & Hb1 & R3 & C3 & T3).
  unfold cond in Hc. unfold bind in Hc. rewrite R2, R3 in Hc.
  unfold ret in Hc. cbn in Hc. injection Hc as <- <- <- <-.
  exists (decode t0), a0, a1, b0, b1, d3, (t0 ++ (t2 ++ t3 ++ []) ++ []).
  split; [done|]. split; [by rewrite Hw, negb_involutive|]. split; [|done].
  rewrite !app_nil_r. rewrite !decode_app by (try apply complete_app; done).
  by rewrite T2, T3.
Qed.

Lemma bytes_of_equal_words (a0 a1 b0 b1 : Z) :
  is_byte a0 -> is_byte a1 -> is_byte b0 -> is_byte b1 ->
  (b0 * 256 + b1 =? a0 * 256 + a1) = true -> a0 = b0 /\ a1 = b1.
Proof. unfold is_byte. intros ???? H%Z.eqb_eq. lia. Qed.

(** X8. The size that [w5500_rx] and [w5500_tx] act on was seen twice: the
    wait for a stable [Sn_RX_RSR] (and likewise [Sn_TX_FSR]) ends with two
    successive reads of the register, it hands back the value of the last
    one, and it passes exactly when the two values are equal; all it did
    before is reads of the same register.  A value read only once is
    never reported as stable. *)
Theorem stable_size_was_read_twice s d :
  (exists earlier a0 a1 b0 b1,
     decode (emitted (rx_wait_stable s d)) =
       earlier ++ [Read SOCKET0_REGISTER Sn_RX_RSR [a0; a1];
                   Read SOCKET0_REGISTER Sn_RX_RSR [b0; b1]] /\
     Forall (is_read_of SOCKET0_REGISTER Sn_RX_RSR) earlier /\
     result (rx_wait_stable s d) = (b0 * 256 + b1 =? a0 * 256 + a1, b0 * 256 + b1) /\
     ((result (rx_wait_stable s d)).1 = true -> a0 = b0 /\ a1 = b1)) /\
  (exists earlier a0 a1 b0 b1,
     decode (emitted (tx_wait_stable s d)) =
       earlier ++ [Read SOCKET0_REGISTER Sn_TX_FSR [a0; a1];
                   Read SOCKET0_REGISTER Sn_TX_FSR [b0; b1]] /\
     Forall (is_read_of SOCKET0_REGISTER Sn_TX_FSR) earlier /\
     result (tx_wait_stable s d) = (b0 * 256 + b1 =? a0 * 256 + a1, b0 * 256 + b1) /\
     ((result (tx_wait_stable s d)).1 = true -> a0 = b0 /\ a1 = b1)).
Proof.
  split.
  - destruct (stable_wait_obs s SOCKET0_REGISTER Sn_RX_RSR MAX_LOOP_ITERATIONS 0 d)
      as (earlier & a0 & a1 & b0 & b1 & d' & t & (Ha0 & Ha1 & Hb0 & Hb1) & Hrun & Hdec & HF).
    exists earlier, a0, a1, b0, b1.
    unfold rx_wait_stable, w5500_read_rx_rsr_stable. rewrite Hrun.
    unfold result, emitted. cbn [fst snd].
    split; [exact Hdec|]. split; [exact HF|]. split; [done|].
    by apply bytes_of_equal_words.
  - destruct (stable_wait_obs s SOCKET0_REGISTER Sn_TX_FSR MAX_LOOP_ITERATIONS 0 d)
      as (earlier & a0 & a1 & b0 & b1 & d' & t & (Ha0 & Ha1 & Hb0 & Hb1) & Hrun & Hdec & HF).
    exists earlier, a0, a1, b0, b1.
    unfold tx_wait_stable, w5500_read_tx_rsr_stable. rewrite Hrun.
    unfold result, emitted. cbn [fst snd].
    split; [exact Hdec|]. split; [exact HF|]. split; [done|].
    by apply bytes_of_equal_words.
Qed.

End Flag_theorems.

Section Transmit_giving_up.

Context {dev : Type}.
Variable indeterminate : nat -> Z.
Implicit Types (s : ethif dev) (d : dev) (buf : list Z).

(** X9. When the free size never reads the same twice in a row within the
    bounded wait, [w5500_tx] of a non-empty frame returns 0 and has done
    nothing but read [Sn_TX_FSR]: the socket status is not looked at,
    nothing is written. *)
Theorem w5500_tx_gives_up_without_stable_size buf buflen s d freesize d1 t1 :
  buflen <> O ->
  tx_wait_stable s d = ((false, freesize), d1, t1) ->
  w5500_tx indeterminate buf buflen s d = (O, d1, t1) /\
  Forall (is_read_of SOCKET0_REGISTER Sn_TX_FSR) (decode t1).
Proof.
  intros Hn Hw. split.
  - apply w5500_tx_no_space with false freesize; [done|done|by left].
  - pose proof (tx_wait_stable_only s d) as [_ HF]. by rewrite Hw in HF.
Qed.

End Transmit_giving_up.

Lemma w5500_tx_gives_up_without_stable_size_witness :
  1%nat <> O /\
  tx_wait_stable counting 0 =
    ((false, (result (tx_wait_stable counting 0)).2), final (tx_wait_stable counting 0),
     emitted (tx_wait_stable counting 0)) /\
  result (w5500_tx no_junk [0xAB] 1 counting 0) = O.
Proof.
  assert (Hn : 1%nat <> O) by lia.
  assert (H : tx_wait_stable counting 0 =
    ((false, (result (tx_wait_stable counting 0)).2), final (tx_wait_stable counting 0),
     emitted (tx_wait_stable counting 0))) by (vm_compute; reflexivity).
  split; [exact Hn|]. split; [exact H|].
  destruct (w5500_tx_gives_up_without_stable_size no_junk [0xAB] 1 counting 0 _ _ _ Hn H)
    as [Hrun _].
  rewrite Hrun. reflexivity.
Defined.

(** * The adapter: polling *)

Section Poll_facts.

Context {dev : Type}.
Variable indeterminate : nat -> Z.
Implicit Types (s : ethif dev) (d : dev) (buf : list Z).

Lemma w5500_poll_obs s d :
  exists r d' t,
    is_byte r /\ w5500_poll s true d = (Z.testbit r 0, d', t) /\
    complete t /\ decode t = [Read COMMON_REGISTER PHYCFGR [r]].
Proof.
  destruct (w5500_read_byte_obs s COMMON_REGISTER PHYCFGR d)
    as (r & d' & t & Hr & Hrun & Hc & Ht).
  exists r, d', (t ++ []). split; [done|]. split.
  - unfold w5500_poll, bind. rewrite Hrun. unfold ret.
    by rewrite bit0_of_land.
  - by rewrite app_nil_r.
Qed.


(** One run of [ethif_poll], path by path: the calls into lwIP and the bus
    trace, given what the driver and the stack answer.  The trace has three
    parts: the link poll, what lwIP did on the bus inside the link call (if
    one was made), and the rest. *)
Lemma ethif_poll_paths (driver : ethif_driver) s (link_is_up : bool)
    (set_link : bool -> M dev unit) alloc
    (input : pool_pbuf -> M dev err_t) d :
  exists connected d0 t0 d1 t_link rest d' t',
    poll driver s true d = (connected, d0, t0) /\
    (if negb (Bool.eqb connected link_is_up)
     then set_link connected d0 = (tt, d1, t_link)
     else d1 = d0 /\ t_link = []) /\
    ethif_poll driver s link_is_up set_link alloc input d =
      ((if negb (Bool.eqb connected link_is_up)
        then if connected then [Netif_set_link_up] else [Netif_set_link_down]
        else []) ++ Pbuf_alloc alloc :: rest, d', t0 ++ t_link ++ t') /\
    match alloc with
    | None => rest = [] /\ t' = []
    | Some p =>
        if p_next p then rest = [Pbuf_free p] /\ t' = []
        else
          exists len data d2 t2,
            rx driver (p_payload p) (Z.to_nat (u16 (p_len p))) s d1
              = ((len, data), d2, t2) /\
            if (0 <? len)%nat then
              let q := {| p_payload := data; p_len := u16 (Z.of_nat len);
                          p_tot_len := u16 (Z.of_nat len); p_next := false |} in
              exists e d3 t3,
                input q d2 = (e, d3, t3) /\ t' = t2 ++ t3 /\
                rest = Netif_input q e
                       :: match e with ERR_OK => [] | ERR_IF => [Pbuf_free q] end
            else
              t' = t2 /\
              rest = [Pbuf_free {| p_payload := data; p_len := p_len p;
                                   p_tot_len := p_tot_len p; p_next := p_next p |}]
    end.
Proof.
  unfold ethif_poll. unfold bind at 1.
  destruct (poll driver s true d) as [[connected d0] t0].
  exists connected, d0, t0.
  set (link := if negb (Bool.eqb connected link_is_up)
               then if connected then [Netif_set_link_up] else [Netif_set_link_down]
               else []).
  assert (Hlink : exists d1 t_link,
    (if negb (Bool.eqb connected link_is_up)
     then set_link connected d0 = (tt, d1, t_link)
     else d1 = d0 /\ t_link = []) /\
    (if negb (Bool.eqb connected link_is_up)
     then if connected
          then bind (set_link true) (fun _ => ret [Netif_set_link_up])
          else bind (set_link false) (fun _ => ret [Netif_set_link_down])
     else ret []) d0 = (link, d1, t_link)).
  { subst link. destruct (negb (Bool.eqb connected link_is_up)).
    - destruct (set_link connected d0) as [[[] d1] tl] eqn:E.
      exists d1, tl. split; [done|].
      destruct connected; unfold bind, ret; rewrite E; by rewrite app_nil_r.
    - by exists d0, []. }
  destruct Hlink as (d1 & t_link & Hset & Hlink).
  exists d1, t_link. unfold bind at 1. rewrite Hlink. clearbody link.
  destruct alloc as [p|]; [destruct (p_next p) eqn:Hnext|]; cbn [negb].
  - exists [Pbuf_free p], d1, []. split; [done|]. split; [exact Hset|]. by split.
  - unfold bind.
    destruct (rx driver (p_payload p) (Z.to_nat (u16 (p_len p))) s d1)
      as [[[len data] d2] t2].
    destruct (0 <? len)%nat eqn:Hlen.
    + match goal with |- context [input ?q d2] =>
        destruct (input q d2) as [[e d3] t3] eqn:Hin end.
      destruct e.
      * eexists _, d3, (t2 ++ t3). split; [done|]. split; [exact Hset|].
        split; [unfold ret; by rewrite app_nil_r|].
        exists len, data, d2, t2. split; [done|]. rewrite Hlen. cbv zeta.
        by exists ERR_OK, d3, t3.
      * eexists _, d3, (t2 ++ t3). split; [done|]. split; [exact Hset|].
        split; [unfold ret; by rewrite app_nil_r|].
        exists len, data, d2, t2. split; [done|]. rewrite Hlen. cbv zeta.
        by exists ERR_IF, d3, t3.
    + eexists _, d2, t2. split; [done|]. split; [exact Hset|].
      split; [unfold ret; by rewrite app_nil_r|].
      exists len, data, d2, t2. split; [done|]. by rewrite Hlen.
  - exists [], d1, []. split; [done|]. split; [exact Hset|]. by split.
Qed.

End Poll_facts.

Section Poll_adapter_theorems.

Context {dev : Type}.
Variable indeterminate : nat -> Z.
Implicit Types (s : ethif dev) (d : dev) (buf : list Z).

(** X10. [ethif_poll] over the W5500 driver starts by reading [PHYCFGR];
    with [r] the byte read, it tells the stack that the link went up when
    bit 0 of [r] is set and the stack has the link down, that it went down
    when the bit is clear and the stack has the link up, and nothing when
    the two agree: a poll that finds the link as the stack knows it makes
    no link call.  The one call at most comes before the packet buffer is
    allocated, and no other link call follows. *)
Theorem ethif_poll_reports_link_changes s (link_is_up : bool) set_link alloc
    input d :
  let run := ethif_poll (ethif_driver_w5500 indeterminate) s link_is_up set_link
               alloc input d in
  exists r rest,
    hd_error (decode (emitted run)) = Some (Read COMMON_REGISTER PHYCFGR [r]) /\
    result run =
      (match Z.testbit r 0, link_is_up with
       | true, false => [Netif_set_link_up]
       | false, true => [Netif_set_link_down]
       | _, _ => []
       end) ++ Pbuf_alloc alloc :: rest /\
    Forall (fun c => is_link_call c = false) rest.
Proof.
  intros run.
  destruct (ethif_poll_paths (ethif_driver_w5500 indeterminate) s link_is_up
              set_link alloc input d)
    as (connected & d1 & t1 & d1l & t_link & rest & d' & t' & Hpoll & Hset & Hrun
        & Hrest).
  cbn [poll rx ethif_driver_w5500] in Hpoll, Hrest.
  destruct (w5500_poll_obs s d) as (r & d1' & t1' & Hr & Hrun' & C1 & T1).
  rewrite Hrun' in Hpoll. injection Hpoll as <- <- <-.
  exists r, rest. subst run. rewrite Hrun. unfold result, emitted. cbn [fst snd].
  rewrite decode_app, T1 by done. split; [done|]. split.
  - change (Z.testbit r 0) with (Z.odd r). by destruct (Z.odd r), link_is_up.
  - destruct alloc as [p|]; [destruct (p_next p)|].
    + destruct Hrest as [-> _]. by repeat constructor.
    + destruct Hrest as (len & data & d2 & t2 & _ & Hrest).
      destruct (0 <? len)%nat.
      * destruct Hrest as (e & d3 & t3 & _ & _ & ->).
        destruct e; by repeat constructor.
      * destruct Hrest as [_ ->]. by repeat constructor.
    + destruct Hrest as [-> _]. constructor.
Qed.

(** X11. [ethif_poll] gives up the packet buffer exactly once when it got
    one and never when it got none, whatever the driver and the stack do:
    the buffer is either freed, or handed to [netif->input] which took it
    ([ERR_OK]); never both (no double free), never neither (no leak).  A
    frame that the stack refuses is freed. *)
Theorem ethif_poll_releases_buffer_once (driver : ethif_driver) s
    (link_is_up : bool) set_link alloc input d :
  let calls := result (ethif_poll driver s link_is_up set_link alloc input d) in
  length (filter (fun c => releases c = true) calls)
    = (match alloc with Some _ => 1 | None => 0 end)%nat /\
  (forall q, In (Netif_input q ERR_IF) calls -> In (Pbuf_free q) calls).
Proof.
  intros calls.
  destruct (ethif_poll_paths driver s link_is_up set_link alloc input d)
    as (connected & d1 & t1 & d1l & t_link & rest & d' & t' & Hpoll & Hset & Hrun
        & Hrest).
  subst calls. rewrite Hrun. unfold result. cbn [fst].
  set (link := if negb (Bool.eqb connected link_is_up)
               then if connected then [Netif_set_link_up] else [Netif_set_link_down]
               else []).
  assert (Hl : filter (fun c => releases c = true) link = []).
  { subst link. by destruct (negb _), connected. }
  assert (Hin : forall q, ~ In (Netif_input q ERR_IF) link).
  { subst link. intros q.
    destruct (negb _), connected; simpl; intros H; try done;
      by destruct H. }
  rewrite filter_app, Hl, app_nil_l.
  assert (Hrel :
    length (filter (fun c => releases c = true) rest)
      = (match alloc with Some _ => 1 | None => 0 end)%nat /\
    (forall q, In (Netif_input q ERR_IF) rest -> In (Pbuf_free q) rest)).
  { destruct alloc as [p|]; [destruct (p_next p)|].
    - destruct Hrest as [-> _]. split; [done|]. simpl. intros q [H|[]]. done.
    - destruct Hrest as (len & data & d2 & t2 & _ & Hrest).
      destruct (0 <? len)%nat.
      + destruct Hrest as (e & d3 & t3 & _ & _ & ->). destruct e.
        * split; [done|]. simpl. intros q [H|[]]. done.
        * split; [done|]. simpl. intros q [H|[H|[]]]; [|done].
          injection H as ->. auto.
      + destruct Hrest as [_ ->]. split; [done|]. simpl. intros q [H|[]]. done.
    - destruct Hrest as [-> _]. split; [done|]. simpl. by intros q []. }
  destruct Hrel as [Hcount Hfree]. split.
  - rewrite filter_cons. simpl. exact Hcount.
  - intros q [H|H]%in_app_or; [by apply Hin in H|].
    apply in_or_app. right. destruct H as [H|H]; [done|]. right. by apply Hfree.
Qed.


(** X13. Without a usable packet buffer ([pbuf_alloc] returned NULL, or a
    chained buffer) [ethif_poll] over the W5500 driver does not start a
    receive and hands nothing to the stack.  The driver's own bus activity
    is then the one read of [PHYCFGR], a whole chip-select frame.  What
    else the poll puts on the bus is what lwIP does inside
    [netif_set_link_up] or [netif_set_link_down]: nothing when the link is
    as the stack knows it (then the one read is the whole bus activity of
    the poll, and a frame waiting in the chip stays there), and the trace
    of that one call, made right after the read, when the link changed. *)
Theorem ethif_poll_without_buffer_leaves_frame s (link_is_up : bool) set_link
    alloc input d :
  (forall p, alloc = Some p -> p_next p = true) ->
  let run := ethif_poll (ethif_driver_w5500 indeterminate) s link_is_up set_link
               alloc input d in
  let link_poll := w5500_poll s true d in
  exists r,
    decode (emitted link_poll) = [Read COMMON_REGISTER PHYCFGR [r]] /\
    framed (emitted link_poll) /\
    result link_poll = Z.testbit r 0 /\
    emitted run =
      emitted link_poll
      ++ (if Bool.eqb (result link_poll) link_is_up then []
          else emitted (set_link (result link_poll) (final link_poll))) /\
    (forall q e, ~ In (Netif_input q e) (result run)).
Proof.
  intros Hp run link_poll.
  destruct (ethif_poll_paths (ethif_driver_w5500 indeterminate) s link_is_up
              set_link alloc input d)
    as (connected & d1 & t1 & d1l & t_link & rest & d' & t' & Hpoll & Hset & Hrun
        & Hrest).
  cbn [poll rx ethif_driver_w5500] in Hpoll, Hrest.
  pose proof (tidy_w5500_poll s true d) as F1.
  destruct (w5500_poll_obs s d) as (r & d1' & t1' & Hr & Hrun' & C1 & T1).
  assert (Hc : connected = Z.testbit r 0 /\ d1 = d1' /\ t1 = t1').
  { rewrite Hrun' in Hpoll. by injection Hpoll as <- <- <-. }
  destruct Hc as (Hc & <- & <-). clear Hrun'.
  subst run link_poll. rewrite Hrun. rewrite Hpoll in F1 |- *.
  unfold result, emitted, final in *. cbn [fst snd] in *.
  assert (Hnone : t' = [] /\ forall q e, ~ In (Netif_input q e) rest).
  { destruct alloc as [p|].
    - rewrite (Hp p eq_refl) in Hrest. destruct Hrest as [-> ->].
      split; [done|]. intros q e [H|[]]. done.
    - destruct Hrest as [-> ->]. split; [done|]. by intros q e []. }
  destruct Hnone as [-> Hnone]. rewrite app_nil_r.
  exists r. split; [done|]. split; [done|]. split; [done|]. split.
  - f_equal. destruct (Bool.eqb connected link_is_up); cbn [negb] in Hset.
    + by destruct Hset as [_ ->].
    + by rewrite Hset.
  - intros q e [H|H]%in_app_or.
    + destruct (negb _), connected; simpl in H; try done; by destruct H.
    + destruct H as [H|H]; [done|]. by apply Hnone in H.
Qed.


End Poll_adapter_theorems.

(** * The adapter: setup and output *)

Lemma decode_protected t :
  complete t -> decode (IrqProtect :: t ++ [IrqUnprotect]) = decode t.
Proof.
  intros C. change (decode (IrqProtect :: t ++ [IrqUnprotect]))
    with (decode (t ++ [IrqUnprotect])).
  rewrite decode_app by done. apply app_nil_r.
Qed.

Section Setup_output_theorems.

Context {dev : Type}.
Variable indeterminate : nat -> Z.
Implicit Types (s : ethif dev) (d : dev) (n : netif).

(** X15. [ethif_init] aims the context's address at [netif->hwaddr] before
    it runs the driver, so through [ethif_init] the W5500 is always set up
    with the MAC filter, whatever address the context had (or none): once
    the chip has left reset, the hardware address is written to [SHAR] and
    0x84 (MACRAW with the filter bit) to [Sn_MR].  The call returns
    [ERR_OK] exactly when the reset bit cleared, [Sn_CR] cleared after OPEN
    and the status read last is 0x42, and [ERR_IF] otherwise; the
    interface comes back with MTU 1500 and [hwaddr_len] the size of its
    address array, the context with the same callbacks. *)
Theorem ethif_init_uses_interface_address s n d :
  let run := ethif_init (ethif_driver_w5500 indeterminate) s n d in
  ethaddr (result run).2 = Some (hwaddr n) /\
  (begin (result run).2 = begin s /\ end_ (result run).2 = end_ s /\
   txn (result run).2 = txn s) /\
  (hwaddr (result run).1.2 = hwaddr n /\
   hwaddr_len (result run).1.2 = length (hwaddr n) /\
   mtu (result run).1.2 = 1500) /\
  exists resets m acks c st,
    Forall (is_read_of COMMON_REGISTER MR) resets /\
    Forall (is_read_of SOCKET0_REGISTER Sn_CR) acks /\
    let reset_done := Z.land m MR_RST =? 0 in
    (result run).1.1 =
      (if reset_done && (c =? 0) && (st =? SOCK_MACRAW) then ERR_OK else ERR_IF) /\
    decode (emitted run) =
      Write COMMON_REGISTER MR [MR_RST] :: resets ++ [Read COMMON_REGISTER MR [m]]
      ++ (if reset_done
          then [ Write COMMON_REGISTER PHYCFGR [0];
                 Write COMMON_REGISTER PHYCFGR [0xF8];
                 Write SOCKET0_REGISTER Sn_RXBUF_SIZE [16];
                 Write SOCKET0_REGISTER Sn_TXBUF_SIZE [16];
                 Write COMMON_REGISTER SHAR (sent_bytes (hwaddr n) 0 6);
                 Write SOCKET0_REGISTER Sn_MR [0x84];
                 Write SOCKET0_REGISTER Sn_CR [Sn_CR_OPEN] ]
               ++ acks ++ [Read SOCKET0_REGISTER Sn_CR [c]]
               ++ (if c =? 0 then [Read SOCKET0_REGISTER Sn_SR [st]] else [])
          else []).
Proof.
  intros run.
  set (s' := {| begin := begin s; end_ := end_ s; txn := txn s;
                ethaddr := Some (hwaddr n) |}).
  pose proof (w5500_init_cases s' d) as (resets & m & Fr & Hcases).
  cbv zeta in Hcases. change (ethaddr s') with (Some (hwaddr n)) in Hcases.
  destruct (w5500_init s' d) as [[b d1] t1] eqn:E.
  unfold result, emitted in Hcases. cbn [fst snd] in Hcases.
  assert (Hrun : run =
    (if b then ERR_OK else ERR_IF,
     {| hostname := "lwip"; name := ("e"%char, "n"%char); mtu := ETHERNET_MTU;
        flags := [NETIF_FLAG_BROADCAST; NETIF_FLAG_ETHARP; NETIF_FLAG_ETHERNET];
        hwaddr := hwaddr n; hwaddr_len := length (hwaddr n) |}, s', d1, t1)).
  { subst run. unfold ethif_init. cbn [init ethif_driver_w5500 hwaddr].
    fold s'. unfold bind. rewrite E.
    destruct b; unfold ret; by rewrite app_nil_r. }
  clearbody run. subst run. unfold result, emitted. cbn [fst snd].
  split; [done|]. split; [done|]. split; [done|].
  destruct Hcases as [(Hm & -> & ->)
                     |(Hm & acks & c & Fa & [(Hc & -> & ->)|(-> & st & -> & ->)])].
  - exists resets, m, [], 0, 0. split; [done|]. split; [constructor|].
    cbv zeta. apply Z.eqb_neq in Hm. rewrite Hm.
    split; [done|]. by rewrite app_nil_r.
  - exists resets, m, acks, c, 0. split; [done|]. split; [done|].
    cbv zeta. apply Z.eqb_neq in Hc. rewrite Hm, Hc.
    change (0 =? 0) with true. cbv iota.
    split; [done|]. by rewrite <- app_comm_cons, <- app_assoc.
  - exists resets, m, acks, 0, st. split; [done|]. split; [done|].
    cbv zeta. rewrite Hm.
    change (0 =? 0) with true. cbv iota.
    split; [by destruct (st =? SOCK_MACRAW)|].
    by rewrite <- app_comm_cons, <- app_assoc.
Qed.

(** X16. [ethif_output] over the W5500 driver enters the critical section,
    transmits, and leaves the critical section, on every path, failed
    transmits included: the trace is the protect, then whole chip-select
    frames, then the unprotect.  So no byte goes over the bus with
    interrupts enabled, and no path returns with them still masked.  What
    happens in between is bounded: at most [1001 * 32 + 31] bus events plus
    one per byte of the frame. *)
Theorem ethif_output_brackets_the_transmit s (p : pbuf) d :
  exists t,
    emitted (ethif_output (ethif_driver_w5500 indeterminate) s p d)
      = IrqProtect :: t ++ [IrqUnprotect] /\
    framed t /\
    (length t <= 1001 * 32 + 31 + Z.to_nat (u16 (tot_len p)))%nat.
Proof.
  pose proof (tidy_w5500_tx indeterminate (payload p)
                (Z.to_nat (u16 (tot_len p))) s d) as Ht.
  pose proof (bounded_w5500_tx indeterminate (payload p)
                (Z.to_nat (u16 (tot_len p))) s d) as Hb.
  unfold ethif_output, bind, sys_arch_protect, sys_arch_unprotect.
  cbn [tx ethif_driver_w5500].
  destruct (w5500_tx indeterminate (payload p) (Z.to_nat (u16 (tot_len p))) s d)
    as [[sent d1] t1].
  exists t1. unfold emitted in *. cbn [snd] in *. split; [|done].
  by destruct (negb _).
Qed.

(** X17. [ethif_output] passes [p->payload] with [p->tot_len] to the driver
    and never follows [p->next].  [payload p] is the data of that first
    segment, so its length is [p->len].  For a buffer whose whole frame
    lies in the first segment ([tot_len <= len], as in every unchained
    buffer), [ERR_OK] for a frame of non-zero length means that the chip
    was given the frame: exactly the first [tot_len] bytes of the payload
    were written to the TX buffer at the write pointer the chip reported,
    the pointer was advanced by [tot_len] modulo 65536, and SEND was
    issued.  (For a chained buffer, [tot_len] above [len], the bytes sent
    beyond the first segment are not the rest of the frame; nothing is
    stated about that case.) *)
Theorem ethif_output_ok_means_sent s (p : pbuf) d :
  let run := ethif_output (ethif_driver_w5500 indeterminate) s p d in
  let len := Z.to_nat (u16 (tot_len p)) in
  result run = ERR_OK -> u16 (tot_len p) <> 0 ->
  (len <= length (payload p))%nat -> Forall is_byte (payload p) ->
  exists pre p0 p1 post,
    let ptr := p0 * 256 + p1 in
    let new := u16 (ptr + Z.of_nat len) in
    decode (emitted run) =
      pre ++ [Read SOCKET0_REGISTER Sn_TX_WR [p0; p1];
              Write SOCKET0_TX_BUFFER ptr (take len (payload p));
              Write SOCKET0_REGISTER Sn_TX_WR
                [u8 (Z.shiftr new 8); u8 (Z.land new 255)];
              Write SOCKET0_REGISTER Sn_CR [Sn_CR_SEND]] ++ post.
Proof.
  intros run len Hok Hlen Hseg Hbytes.
  pose proof (tidy_w5500_tx indeterminate (payload p) len s d) as Ht.
  pose proof (w5500_tx_nonzero_means_sent indeterminate (payload p) len s d) as Hsent.
  cbv zeta in Hsent.
  assert (Hrun : run =
    (if negb (Z.of_nat (result (w5500_tx indeterminate (payload p) len s d))
              =? u16 (tot_len p)) then ERR_IF else ERR_OK,
     final (w5500_tx indeterminate (payload p) len s d),
     IrqProtect :: emitted (w5500_tx indeterminate (payload p) len s d)
       ++ [IrqUnprotect])).
  { subst run. unfold ethif_output, bind, sys_arch_protect, sys_arch_unprotect.
    cbn [tx ethif_driver_w5500]. fold len.
    destruct (w5500_tx indeterminate (payload p) len s d) as [[sent d1] t1].
    unfold result, final, emitted. cbn [fst snd].
    by destruct (negb _). }
  rewrite Hrun in Hok |- *. unfold result at 1 in Hok. cbn [fst] in Hok.
  unfold emitted at 1. cbn [snd].
  rewrite decode_protected by (by apply framed_complete).
  rewrite <- (sent_bytes_bytes (payload p) len Hbytes Hseg).
  apply Hsent.
  destruct (Z.eqb_spec (Z.of_nat (result (w5500_tx indeterminate (payload p) len s d)))
              (u16 (tot_len p))) as [E|E]; [|done].
  intros Hz. rewrite Hz in E. simpl in E. by apply Hlen.
Qed.

End Setup_output_theorems.

(** ** The adapter theorems at concrete chips *)


Example ethif_poll_link_up_and_frame :
  result (ethif_poll (ethif_driver_w5500 no_junk) (scripted None) false
            (fun _ => ret tt)
            (Some {| p_payload := [0; 0; 0; 0; 0; 0; 0; 0]; p_len := 8;
                     p_tot_len := 8; p_next := false |})
            (fun _ => ret ERR_IF) (answers [1] ++ rx_script)) =
  let p := {| p_payload := [0; 0; 0; 0; 0; 0; 0; 0]; p_len := 8; p_tot_len := 8;
              p_next := false |} in
  let q := {| p_payload := [0xDE; 0xAD; 0xBE; 0xEF; 0; 0; 0; 0]; p_len := 4;
              p_tot_len := 4; p_next := false |} in
  [Netif_set_link_up; Pbuf_alloc (Some p); Netif_input q ERR_IF; Pbuf_free q].
Proof. vm_compute. reflexivity. Qed.

(** A chip with the link up, polled with a chained buffer while the stack
    has the link down: lwIP sends a one-byte frame from within the link
    call, and the frame waiting in the chip is not fetched. *)
Lemma ethif_poll_without_buffer_leaves_frame_witness :
  let p := {| p_payload := [0; 0; 0; 0]; p_len := 4; p_tot_len := 8;
              p_next := true |} in
  let link_call := fun _ : bool =>
    bind (ethif_output (ethif_driver_w5500 no_junk) (scripted None)
            {| payload := [0xAB]; tot_len := 1 |}) (fun _ => ret tt) in
  let run := ethif_poll (ethif_driver_w5500 no_junk) (scripted None) false
               link_call (Some p) (fun _ => ret ERR_OK)
               (answers [1] ++ tx_script_sendok 0x40 0x00 1 ++ rx_script) in
  (forall p', Some p = Some p' -> p_next p' = true) /\
  decode (emitted run) =
    [ Read COMMON_REGISTER PHYCFGR [1];
      Read SOCKET0_REGISTER Sn_TX_FSR [0x40; 0x00];
      Read SOCKET0_REGISTER Sn_TX_FSR [0x40; 0x00];
      Read SOCKET0_REGISTER Sn_SR [SOCK_MACRAW];
      Read SOCKET0_REGISTER Sn_TX_WR [0; 0];
      Write SOCKET0_TX_BUFFER 0 [0xAB];
      Write SOCKET0_REGISTER Sn_TX_WR [0; 1];
      Write SOCKET0_REGISTER Sn_CR [Sn_CR_SEND];
      Read SOCKET0_REGISTER Sn_CR [0];
      Read SOCKET0_REGISTER Sn_IR [Sn_IR_SENDOK];
      Write SOCKET0_REGISTER Sn_IR [Sn_IR_SENDOK] ] /\
  (forall q e, ~ In (Netif_input q e) (result run)).
Proof.
  intros p link_call run.
  assert (H : forall p', Some p = Some p' -> p_next p' = true).
  { intros p' E. injection E as <-. reflexivity. }
  split; [exact H|]. split; [vm_compute; reflexivity|].
  destruct (ethif_poll_without_buffer_leaves_frame no_junk (scripted None) false
              link_call (Some p) (fun _ => ret ERR_OK)
              (answers [1] ++ tx_script_sendok 0x40 0x00 1 ++ rx_script) H)
    as (r & _ & _ & _ & _ & Hnone).
  exact Hnone.
Defined.

Lemma ethif_output_ok_means_sent_witness :
  let p := {| payload := [0xAB]; tot_len := 1 |} in
  let run := ethif_output (ethif_driver_w5500 no_junk) (scripted None) p
               (tx_script_sendok 0x40 0x00 1) in
  result run = ERR_OK /\ u16 (tot_len p) <> 0 /\
  Nat.le (Z.to_nat (u16 (tot_len p))) (length (payload p)) /\
  Forall is_byte (payload p) /\
  exists pre post,
    decode (emitted run) = pre ++ Write SOCKET0_REGISTER Sn_CR [Sn_CR_SEND] :: post.
Proof.
  intros p run.
  assert (Hok : result run = ERR_OK) by (vm_compute; reflexivity).
  assert (Hne : u16 (tot_len p) <> 0) by (vm_compute; discriminate).
  assert (Hseg : Nat.le (Z.to_nat (u16 (tot_len p))) (length (payload p)))
    by (vm_compute; constructor).
  assert (Hb : Forall is_byte (payload p))
    by (repeat constructor; vm_compute; discriminate).
  split; [exact Hok|]. split; [exact Hne|]. split; [exact Hseg|].
  split; [exact Hb|].
  destruct (ethif_output_ok_means_sent no_junk (scripted None) p
              (tx_script_sendok 0x40 0x00 1) Hok Hne Hseg Hb)
    as (pre & p0 & p1 & post & Hdec).
  cbv zeta in Hdec. subst run. rewrite Hdec.
  eexists (pre ++ [_; _; _]), post. rewrite <- app_assoc. reflexivity.
Defined.

(** A buffer whose frame goes on in a second segment: [ethif_output] still
    reports [ERR_OK], and what the chip got past the first segment is not
    the frame (here the model's filler, in C the memory behind the
    segment). *)
Example ethif_output_chained_buffer :
  let p := {| payload := [0xAB]; tot_len := 3 |} in
  let run := ethif_output (ethif_driver_w5500 no_junk) (scripted None) p
               (tx_script_sendok 0x40 0x00 3) in
  result run = ERR_OK /\
  In (Write SOCKET0_TX_BUFFER 0 [0xAB; 0; 0]) (decode (emitted run)).
Proof. split; vm_compute; auto 10. Qed.

(** The sketch's setup: [ethif_init] with the address 02:00:00:00:00:01 on a
    chip that is done with everything at once. *)
Example ethif_init_in_setup :
  let n := {| hostname := ""; name := ("-"%char, "-"%char); mtu := 0; flags := [];
              hwaddr := [0x02; 0x00; 0x00; 0x00; 0x00; 0x01]; hwaddr_len := 0 |} in
  let run := ethif_init (ethif_driver_w5500 no_junk) (scripted None) n
               (repeat 0 45 ++ answers [SOCK_MACRAW]) in
  (result run).1.1 = ERR_OK /\
  hwaddr_len (result run).1.2 = 6%nat /\
  decode (emitted run) =
    [ Write COMMON_REGISTER MR [MR_RST]; Read COMMON_REGISTER MR [0];
      Write COMMON_REGISTER PHYCFGR [0]; Write COMMON_REGISTER PHYCFGR [0xF8];
      Write SOCKET0_REGISTER Sn_RXBUF_SIZE [16];
      Write SOCKET0_REGISTER Sn_TXBUF_SIZE [16];
      Write COMMON_REGISTER SHAR [0x02; 0x00; 0x00; 0x00; 0x00; 0x01];
      Write SOCKET0_REGISTER Sn_MR [0x84];
      Write SOCKET0_REGISTER Sn_CR [Sn_CR_OPEN];
      Read SOCKET0_REGISTER Sn_CR [0];
      Read SOCKET0_REGISTER Sn_SR [SOCK_MACRAW] ].
Proof. repeat split; vm_compute; reflexivity. Qed.

(** * The sketch's flags *)

Lemma app_do_starts (st : app_step) (a : app) :
  length (filter (fun c => is_http_start c = true) (app_do st a).2)
    = (if http_server_started a then 0
       else if http_server_started (app_do st a).1 then 1 else 0)%nat /\
  (http_server_started a = true -> http_server_started (app_do st a).1 = true).
Proof.
  destruct a as [bound started], st as [up|is_up addr]; simpl.
  - unfold netif_link_callback. destruct up, started; simpl; auto.
  - unfold loop_flags. simpl.
    destruct bound, started, is_up, (addr =? 0); simpl; auto.
Qed.

(** X18. However the link flaps and however often an address is obtained,
    the sketch calls [start_http_server] at most once: in any sequence of
    link callbacks and passes of [loop()], the call is made exactly when
    [http_server_started] goes from false to true, and the flag, once set,
    stays set (no link change clears it).  An attempt that fails inside
    [start_http_server] is therefore never repeated. *)
Theorem http_server_is_started_at_most_once (steps : list app_step) (a : app) :
  let r := app_run steps a in
  length (filter (fun c => is_http_start c = true) r.2)
    = (if http_server_started a then 0
       else if http_server_started r.1 then 1 else 0)%nat /\
  (length (filter (fun c => is_http_start c = true) r.2) <= 1)%nat /\
  (http_server_started a = true -> http_server_started r.1 = true).
Proof.
  cbv zeta.
  assert (H : forall steps a,
    length (filter (fun c => is_http_start c = true) (app_run steps a).2)
      = (if http_server_started a then 0
         else if http_server_started (app_run steps a).1 then 1 else 0)%nat /\
    (http_server_started a = true -> http_server_started (app_run steps a).1 = true)).
  { clear. induction steps as [|st steps IH]; intros a.
    - simpl. by destruct (http_server_started a).
    - simpl. pose proof (app_do_starts st a) as [H1 H2].
      destruct (app_do st a) as [a1 c1]. specialize (IH a1).
      destruct (app_run steps a1) as [a2 c2]. simpl in *.
      destruct IH as [IH1 IH2].
      rewrite filter_app, length_app, H1, IH1.
      destruct (http_server_started a), (http_server_started a1) eqn:E1,
               (http_server_started a2) eqn:E2; simpl; split; auto;
        try (specialize (H2 eq_refl)); try (specialize (IH2 eq_refl)); done. }
  destruct (H steps a) as [H1 H2]. split; [done|]. split; [|done].
  rewrite H1. destruct (http_server_started a), (http_server_started _); lia.
Qed.

Example sketch_survives_link_flap :
  app_run [ Loop_pass true 0; Loop_pass true 0xC0A83228; Link_changed false;
            Link_changed true; Loop_pass true 0; Loop_pass true 0xC0A83229 ]
          {| dhcp_bound := false; http_server_started := false |} =
  ({| dhcp_bound := true; http_server_started := true |},
   [Start_http_server; Dhcp_stop; Dhcp_release; Dhcp_stop; Dhcp_start]).
Proof. vm_compute. reflexivity. Qed.

(** * The hex dump *)

Lemma sent_bytes_app buf (i m n : nat) :
  sent_bytes buf i (m + n) = sent_bytes buf i m ++ sent_bytes buf (i + m) n.
Proof. unfold sent_bytes. by rewrite seq_app, map_app. Qed.

(** The loop from inside a line to the end of that line: [m] bytes, then
    the newline. *)
Lemma hex_dump_loop_line d len (m : nat) :
  forall n i : nat,
    (0 < m)%nat -> (i mod 16 + m <= 16)%nat -> (m <= n)%nat -> (i + n = len)%nat ->
    (i mod 16 + m = 16 \/ m = n)%nat ->
    hex_dump_loop d len n i =
      (if (i mod 16 =? 0)%nat then [Dump_offset i] else [])
      ++ map Dump_byte (sent_bytes d i m) ++ [Dump_newline]
      ++ hex_dump_loop d len (n - m) (i + m).
Proof.
  induction m as [|m IH]; intros n i Hm Hline Hn Hlen Hend; [lia|].
  destruct n as [|n]; [lia|].
  change (hex_dump_loop d len (S n) i) with
    ((if (i mod 16 =? 0)%nat then [Dump_offset i] else [])
     ++ [Dump_byte (u8 (nth i d 0))]
     ++ (if ((i mod 16 =? 15) || (i =? len - 1))%nat then [Dump_newline] else [])
     ++ hex_dump_loop d len n (S i)).
  rewrite sent_bytes_S. cbn [map]. f_equal.
  change ([Dump_byte (u8 (nth i d 0))] ++ ?l) with (Dump_byte (u8 (nth i d 0)) :: l).
  change ((Dump_byte (u8 (nth i d 0)) :: ?l) ++ ?r)
    with (Dump_byte (u8 (nth i d 0)) :: l ++ r).
  f_equal.
  destruct (decide (m = O)) as [->|Hm0].
  - assert (((i mod 16 =? 15) || (i =? len - 1))%nat = true) as ->.
    { apply orb_true_iff. destruct Hend as [H|H].
      - left. apply Nat.eqb_eq. lia.
      - right. apply Nat.eqb_eq. lia. }
    replace (S n - 1)%nat with n by lia. replace (i + 1)%nat with (S i) by lia.
    done.
  - assert (((i mod 16 =? 15) || (i =? len - 1))%nat = false) as ->.
    { apply orb_false_iff. split; apply Nat.eqb_neq; lia. }
    assert (HS : (S i mod 16 = i mod 16 + 1)%nat).
    { pose proof (Nat.div_mod_eq i 16). pose proof (Nat.div_mod_eq (S i) 16).
      pose proof (Nat.mod_upper_bound (S i) 16). lia. }
    rewrite (IH n (S i)) by lia.
    assert ((S i mod 16 =? 0)%nat = false) as -> by (apply Nat.eqb_neq; lia).
    replace (S n - S m)%nat with (n - m)%nat by lia.
    replace (S i + m)%nat with (i + S m)%nat by lia. done.
Qed.

Lemma hex_dump_loop_lines d len (q : nat) :
  forall n k : nat,
    (16 * k + n = len)%nat -> q = ((n + 15) / 16)%nat ->
    hex_dump_loop d len n (16 * k) = flat_map (dump_line d len) (seq k q).
Proof.
  induction q as [|q IH]; intros n k Hlen Hq.
  - assert (n = O) as ->; [|done].
    pose proof (Nat.div_mod_eq (n + 15) 16).
    pose proof (Nat.mod_upper_bound (n + 15) 16). lia.
  - assert (Hn : (0 < n)%nat).
    { destruct n; [|lia]. done. }
    set (m := Nat.min 16 n).
    assert (Hk : ((16 * k) mod 16 = 0)%nat).
    { rewrite Nat.mul_comm. apply Nat.Div0.mod_mul. }
    rewrite (hex_dump_loop_line d len m n (16 * k)) by (subst m; lia).
    rewrite Hk. cbn [Nat.eqb seq flat_map].
    unfold dump_line at 1.
    replace (len - 16 * k)%nat with n by lia. fold m.
    cbn [Datatypes.app]. f_equal. rewrite <- app_assoc. f_equal. cbn [Datatypes.app]. f_equal.
    subst m. destruct (Nat.min_spec 16 n) as [[Hlt ->]|[Hge ->]].
    + replace (16 * k + 16)%nat with (16 * S k)%nat by lia.
      apply IH; [lia|].
      pose proof (Nat.div_mod_eq (n + 15) 16).
      pose proof (Nat.mod_upper_bound (n + 15) 16).
      pose proof (Nat.div_mod_eq (n - 16 + 15) 16).
      pose proof (Nat.mod_upper_bound (n - 16 + 15) 16). lia.
    + (* the last line: nothing is left *)
      assert (q = O) as ->.
      { pose proof (Nat.div_mod_eq (n + 15) 16).
        pose proof (Nat.mod_upper_bound (n + 15) 16). lia. }
      by replace (n - n)%nat with O by lia.
Qed.

(** X19. What [hex_dump_lwip] prints, call by call: the header with the
    label and the length, then one line for every sixteen bytes begun,
    [(len + 15) / 16] lines in all, so none for an empty dump.  Line [k]
    is the offset [16 * k], then the bytes at [16 * k], [16 * k + 1], ... of
    the data, sixteen of them or, on the last line, what is left of [len],
    each read as an unsigned byte, then exactly one newline, also when the
    last line is full. *)
Theorem hex_dump_lwip_layout (label : string) (data : list Z) (len : nat) :
  hex_dump_lwip label data len =
    Dump_header label len
    :: flat_map (fun k =>
         Dump_offset (16 * k)
         :: map Dump_byte (sent_bytes data (16 * k) (Nat.min 16 (len - 16 * k)))
         ++ [Dump_newline])
       (seq 0 ((len + 15) / 16)).
Proof.
  unfold hex_dump_lwip. f_equal.
  apply (hex_dump_loop_lines data len ((len + 15) / 16) len 0); [lia|done].
Qed.

Example hex_dump_lwip_of_18_bytes :
  hex_dump_lwip "w5500_rx: Packet" (map Z.of_nat (seq 0 18)) 18 =
    [ Dump_header "w5500_rx: Packet" 18; Dump_offset 0 ]
    ++ map Dump_byte [0; 1; 2; 3; 4; 5; 6; 7; 8; 9; 10; 11; 12; 13; 14; 15]
    ++ [ Dump_newline; Dump_offset 16; Dump_byte 16; Dump_byte 17; Dump_newline ].
Proof. vm_compute. reflexivity. Qed.

(** * Polling again and again *)

Section Polling_theorems.

Context {dev : Type}.
Implicit Types (s : ethif dev) (d : dev).



End Polling_theorems.

(** Three passes over a chip whose link comes up, stays up and goes down,
    without packet buffers. *)
Example ethif_poll_loop_link_up_then_down :
  result (ethif_poll_loop (ethif_driver_w5500 no_junk) (scripted None) false
            (fun _ => ret tt)
            [ (None, fun _ => ret ERR_OK); (None, fun _ => ret ERR_OK);
              (None, fun _ => ret ERR_OK) ]
            (answers [1] ++ answers [1] ++ answers [0])) =
  [ Netif_set_link_up; Pbuf_alloc None; Pbuf_alloc None;
    Netif_set_link_down; Pbuf_alloc None ].
Proof. vm_compute. reflexivity. Qed.
